(** * Ruya Logistics self-improving agent: a shallow embedding of the backend

    The backend is a single Node process.  Its process-local state is the
    tool registry (a JS [Map], tools.ts), the improvement history (an array,
    self-improve.ts) and whatever the external services hold (the Vapi
    assistant store, n8n, Whapi, the reasoning service).  The external
    services are taken at their interface: an abstract world [W] and one
    state transformer per remote call, so every statement below holds for
    any behaviour of the services.  Awaited calls are taken one after the
    other, in program order.  Console output is left out.  Values read
    from a response are taken at the types the code declares for them. *)

From Stdlib Require Import String Ascii List Bool Arith ZArith QArith Lia DecimalString.
Import ListNotations.
Set Warnings "-register-all".
Close Scope Q_scope.
Open Scope list_scope.
Open Scope string_scope.

(** ** JavaScript values *)

Module Js.

(** A JSON value, as [JSON.parse] produces and [JSON.stringify] consumes.
    An object is its list of own properties in insertion order. *)
Inductive json : Type :=
| JNull
| JBool (b : bool)
| JNum (q : Q)
| JStr (s : string)
| JArr (l : list json)
| JObj (o : list (string * json)).

Definition object := list (string * json).

(** The double quote character, for template literals that contain it. *)
Definition dq : string := String (ascii_of_nat 34) EmptyString.

(** [`${n}`] for a non-negative integer. *)
Definition show_nat (n : nat) : string := NilEmpty.string_of_uint (Nat.to_uint n).

(** [xs.join(sep)] *)
Definition join (sep : string) (xs : list string) : string := String.concat sep xs.

(** [s.slice(0, n)] (strings are counted in bytes here, in UTF-16 units in
    JS: the two agree on ASCII). *)
Definition slice0 (n : nat) (s : string) : string := substring 0 n s.

(** [s.includes(c)] for a one-character needle. *)
Fixpoint includes_char (c : ascii) (s : string) : bool :=
  match s with
  | EmptyString => false
  | String a s' => if Ascii.eqb a c then true else includes_char c s'
  end.

(** [s.replace(/-/g, "_")] *)
Fixpoint replace_dash (s : string) : string :=
  match s with
  | EmptyString => EmptyString
  | String a s' =>
      String (if Ascii.eqb a "-"%char then "_"%char else a) (replace_dash s')
  end.

(** Truthiness of a string: the empty string is falsy. *)
Definition truthy_str (s : string) : bool :=
  match s with EmptyString => false | _ => true end.

(** Truthiness of an optional string ([undefined] is falsy). *)
Definition truthy_ostr (o : option string) : bool :=
  match o with Some s => truthy_str s | None => false end.

(** Truthiness of a value that may be [undefined]. *)
Definition truthy (o : option json) : bool :=
  match o with
  | None => false
  | Some JNull => false
  | Some (JBool b) => b
  | Some (JNum q) => negb (Qeq_bool q 0%Q)
  | Some (JStr s) => truthy_str s
  | Some (JArr _) => true
  | Some (JObj _) => true
  end.

(** [o[k]] on an object: the first (only) property named [k]. *)
Fixpoint obj_get (k : string) (o : object) : option json :=
  match o with
  | [] => None
  | (k', v) :: o' => if String.eqb k k' then Some v else obj_get k o'
  end.

(** [o[k] = v]: an existing property keeps its place, a new one goes last. *)
Fixpoint obj_set (k : string) (v : json) (o : object) : object :=
  match o with
  | [] => [(k, v)]
  | (k', v') :: o' =>
      if String.eqb k k' then (k, v) :: o' else (k', v') :: obj_set k v o'
  end.

(** [Object.keys(o)] *)
Definition obj_keys (o : object) : list string := map fst o.

(** [{ ...a, ...b }] on property lists. *)
Definition obj_assign (a b : object) : object :=
  fold_left (fun acc kv => obj_set (fst kv) (snd kv) acc) b a.

(** Property access [v.k] where [v] may be [undefined] or not an object:
    [v?.k], and [v.k] on a primitive, give [undefined]. *)
Definition prop (k : string) (v : option json) : option json :=
  match v with
  | Some (JObj o) => obj_get k o
  | _ => None
  end.

(** The own enumerable properties that [{ ...v }] copies. [undefined],
    [null], booleans and numbers contribute none; strings and arrays
    contribute index-named properties. *)
Fixpoint indexed (i : nat) (l : list json) : object :=
  match l with
  | [] => []
  | x :: l' => (show_nat i, x) :: indexed (S i) l'
  end.

Fixpoint chars (s : string) : list json :=
  match s with
  | EmptyString => []
  | String a s' => JStr (String a EmptyString) :: chars s'
  end.

Definition spread (v : option json) : object :=
  match v with
  | Some (JObj o) => o
  | Some (JArr l) => indexed 0 l
  | Some (JStr s) => indexed 0 (chars s)
  | _ => []
  end.

(** An object literal as [JSON.stringify] sends it: a property whose value
    is [undefined] is left out. *)
Definition obj_of (l : list (string * option json)) : object :=
  flat_map (fun kv => match snd kv with
                      | Some v => [(fst kv, v)]
                      | None => []
                      end) l.

(** The line feed of a template literal. *)
Definition nl : string := String (ascii_of_nat 10) EmptyString.

(** [`${s}`] for a string that may be [undefined]. *)
Definition show_ostr (o : option string) : string :=
  match o with Some s => s | None => "undefined" end.

(** [p] is a prefix of [s]. *)
Fixpoint starts_with (p s : string) : bool :=
  match p, s with
  | EmptyString, _ => true
  | String a p', String b s' => Ascii.eqb a b && starts_with p' s'
  | String _ _, EmptyString => false
  end.

(** [s.replace(re, "")] with the global flag, for a regular expression
    given by the length of its match at the head of a string (0: no match).
    [skip] counts the characters of the current match still to drop. *)
Fixpoint remove_matches (match_len : string -> nat) (skip : nat) (s : string)
  : string :=
  match s with
  | EmptyString => EmptyString
  | String a s' =>
      match skip with
      | S k => remove_matches match_len k s'
      | O =>
          match match_len s with
          | S k => remove_matches match_len k s'
          | O => String a (remove_matches match_len 0 s')
          end
      end
  end.

(** The match of [/```json?\n?/] at the head of [s]: three backquotes and
    "jso", then an optional "n", then an optional line feed. *)
Definition fence_open_len (s : string) : nat :=
  if starts_with "```jso" s then
    let r := substring 6 (String.length s - 6) s in
    let n1 := if starts_with "n" r then 1 else 0 in
    let r := substring n1 (String.length r - n1) r in
    let n2 := if starts_with nl r then 1 else 0 in
    6 + n1 + n2
  else 0.

(** The match of [/```/] at the head of [s]. *)
Definition fence_len (s : string) : nat :=
  if starts_with "```" s then 3 else 0.

(** The code points that [trim] takes off, as their UTF-8 bytes (the
    strings here hold text in UTF-8): WhiteSpace, which is U+0009, U+000B,
    U+000C, U+FEFF and the space separators U+0020, U+00A0, U+1680,
    U+2000 to U+200A, U+202F, U+205F, U+3000; and LineTerminator, which
    is U+000A, U+000D, U+2028, U+2029. *)
Definition utf8 (bytes : list nat) : string :=
  fold_right (fun n s => String (ascii_of_nat n) s) EmptyString bytes.

Definition white_space : list string :=
  map utf8
    [[9]; [10]; [11]; [12]; [13]; [32];
     [194; 160];
     [225; 154; 128];
     [226; 128; 128]; [226; 128; 129]; [226; 128; 130]; [226; 128; 131];
     [226; 128; 132]; [226; 128; 133]; [226; 128; 134]; [226; 128; 135];
     [226; 128; 136]; [226; 128; 137]; [226; 128; 138];
     [226; 128; 168]; [226; 128; 169]; [226; 128; 175];
     [226; 129; 159];
     [227; 128; 128];
     [239; 187; 191]].

(** The length of the pattern of [pats] that [s] starts with (0: none). *)
Definition match_len (pats : list string) (s : string) : nat :=
  match find (fun p => starts_with p s) pats with
  | Some p => String.length p
  | None => 0
  end.

(** [s] without the matches it starts with, one after the other. [skip]
    counts the bytes of the current match still to drop. *)
Fixpoint strip (match_len : string -> nat) (skip : nat) (s : string) : string :=
  match s with
  | EmptyString => EmptyString
  | String a s' =>
      match skip with
      | S k => strip match_len k s'
      | O =>
          match match_len s with
          | S k => strip match_len k s'
          | O => s
          end
      end
  end.

(** The bytes of [s], last first. *)
Fixpoint reverse (s : string) : string :=
  match s with
  | EmptyString => EmptyString
  | String a s' => reverse s' ++ String a EmptyString
  end.

(** [s.trimStart()] *)
Definition trim_start (s : string) : string :=
  strip (match_len white_space) 0 s.

(** [s.trimEnd()]: the white space at the end of [s] is the white space
    that the reversed bytes start with, each code point with its bytes
    reversed. *)
Definition trim_end (s : string) : string :=
  reverse (strip (match_len (map reverse white_space)) 0 (reverse s)).

(** [s.trim()] *)
Definition trim (s : string) : string := trim_end (trim_start s).

(** A value read where the code expects a string. *)
Definition as_string (v : option json) : option string :=
  match v with Some (JStr s) => Some s | _ => None end.

End Js.

Import Js.

(** ** JavaScript [Map<string, V>] *)

Module JsMap.
Section Ops.
Context {V : Type}.

(** Entries in insertion order; keys are unique ([wf]). *)
Definition t := list (string * V).

Definition wf (m : t) : Prop := NoDup (map fst m).

(** [m.get(k)] *)
Fixpoint get (k : string) (m : t) : option V :=
  match m with
  | [] => None
  | (k', v) :: m' => if String.eqb k k' then Some v else get k m'
  end.

(** [m.set(k, v)]: overwrite in place, or append. *)
Fixpoint set (k : string) (v : V) (m : t) : t :=
  match m with
  | [] => [(k, v)]
  | (k', v') :: m' =>
      if String.eqb k k' then (k, v) :: m' else (k', v') :: set k v m'
  end.

(** [m.delete(k)] *)
Fixpoint delete (k : string) (m : t) : t :=
  match m with
  | [] => []
  | (k', v') :: m' =>
      if String.eqb k k' then m' else (k', v') :: delete k m'
  end.

(** [Array.from(m.values())] *)
Definition values (m : t) : list V := map snd m.

Definition keys (m : t) : list string := map fst m.
End Ops.
Arguments t : clear implicits.
End JsMap.

(** ** Exceptions, the external world, and the monad of the process *)

(** An awaited call either returns or throws an [Error]; the payload of
    [Throw] is [err.message]. *)
Inductive Result (A : Type) : Type :=
| Ok (a : A)
| Throw (message : string).
Arguments Ok {A} a.
Arguments Throw {A} message.

Inductive Method := GET | POST | PATCH.

(** types.ts: [VapiToolDefinition["function"]["parameters"]] *)
Record PropSpec := { ptype : string; pdescription : string }.

Record Parameters := {
  properties : list (string * PropSpec);
  required : option (list string)
}.

(** The spec of a tool as the reasoning service returns it
    ([AnalysisResult.newTools] items, the argument of
    [createAndRegisterTool]). *)
Record ToolSpec := {
  ts_name : string;
  ts_description : string;
  ts_parameters : Parameters;
  ts_handlerCode : string
}.

Record WorkflowStep := {
  step_name : string;
  step_method : string;
  step_url : string;
  step_headers : option (list (string * string));
  step_bodyTemplate : string
}.

(** [AnalysisResult.newWorkflows] items. *)
Record WorkflowSpec := {
  wf_name : string;
  wf_webhookPath : string;
  wf_steps : list WorkflowStep
}.

(** self-improve.ts: [AnalysisResult]. [configChanges] is an
    [AssistantConfig], a JSON object with the known optional fields and an
    open index signature. *)
Record AnalysisResult := {
  failures : list string;
  changes : list string;
  configChanges : object;
  newTools : option (list ToolSpec);
  newWorkflows : option (list WorkflowSpec);
  resourceRequests : option (list string)
}.

(** n8n.ts: an item of [listWorkflows()]. *)
Record WorkflowSummary := {
  ws_id : string;
  ws_name : string;
  ws_active : bool;
  ws_nodes : list string
}.

(** What [analyzeTranscriptWithRaw] tells the reasoning service about the
    existing n8n workflows (the text it interpolates into the prompt, kept
    structured). *)
Inductive WorkflowsInfo :=
| N8nNotConfigured
| NoWorkflowsYet
| WorkflowDetails (details : list (WorkflowSummary * option json))
| FailedToFetch (message : string).

(** The values interpolated into the request to the reasoning service. *)
Record PromptInputs := {
  pi_toolList : list (string * string);
  pi_existingWorkflows : WorkflowsInfo;
  pi_currentPrompt : string;
  pi_currentConfig : json;
  pi_transcript : option string
}.

(** A block of [response.content]. *)
Inductive ContentBlock :=
| TextBlock (text : string)
| OtherBlock.

(** The reply of [fetch] to Whapi: [res.ok] false, or the decoded body. *)
Inductive WhapiReply :=
| WhapiNotOk
| WhapiBody (data : json).

(** An async function over a state [S]: it returns or throws, and the
    state it leaves behind is kept in both cases. *)
Definition M (S A : Type) : Type := S -> Result A * S.

Definition ret {S A} (a : A) : M S A := fun s => (Ok a, s).

Definition bind {S A B} (m : M S A) (k : A -> M S B) : M S B :=
  fun s => match m s with
           | (Ok a, s') => k a s'
           | (Throw e, s') => (Throw e, s')
           end.

Definition throw {S A} (e : string) : M S A := fun s => (Throw e, s).

(** [try { m } catch (err) { h err.message }] *)
Definition try_catch {S A} (m : M S A) (h : string -> M S A) : M S A :=
  fun s => match m s with
           | (Ok a, s') => (Ok a, s')
           | (Throw e, s') => h e s'
           end.

Notation "x <- m ;; k" := (bind m (fun x => k))
  (at level 61, m at next level, right associativity).
Notation "m ;;; k" := (bind m (fun _ => k))
  (at level 61, right associativity).

Section Backend.

(** The state of everything outside the process. *)
Context {W : Type}.

(** types.ts: [ToolHandler]. A handler runs against the outside world only:
    [buildHandler] binds it to [{ sendWhatsApp, notifyOperator,
    triggerN8nWorkflow, fetch }]. A rejected promise is [Throw]. *)
Definition ToolHandler : Type := object -> W -> Result string * W.

(** The external collaborators, each at its call boundary. *)
Record Ext := {
  (** [process.env] *)
  env : string -> option string;
  (** [new Date().toISOString()] *)
  now : W -> string;
  (** vapi.ts [vapiRequest(path, method, body)]: throws when [!res.ok] *)
  vapiRequest : string -> Method -> option json -> W -> Result json * W;
  (** the [fetch] of [sendWhatsApp]: POST /messages/text with [to], [body] *)
  whapi_send_text : string -> string -> W -> Result WhapiReply * W;
  (** the SDK call [client.messages.create] *)
  messages_create : PromptInputs -> W -> Result (list ContentBlock) * W;
  (** [JSON.parse] at type [AnalysisResult]; [None] when it throws *)
  JSON_parse : string -> option AnalysisResult;
  (** [new Function("args", "ctx", ...)] on handler source: throws a
      [SyntaxError] on source that does not parse *)
  new_Function : string -> Result ToolHandler;
  (** n8n.ts, at its interface *)
  listWorkflows : W -> Result (list WorkflowSummary) * W;
  getWorkflow : string -> W -> Result json * W;
  createCustomWorkflow : WorkflowSpec -> W -> Result (string * string) * W;
  (** [setTimeout] *)
  sleep : nat -> W -> W;
  (** the bodies of the four seed handlers of tools.ts, by tool name *)
  seed_handler : string -> ToolHandler
}.

Variable E : Ext.

(** types.ts: [RegisteredTool] *)
Record RegisteredTool := {
  name : string;
  description : string;
  parameters : Parameters;
  handler : ToolHandler;
  createdAt : string;
  isDynamic : bool
}.

Inductive StepStatus := ok | error | skipped.

(** self-improve.ts: [PipelineStep] *)
Record PipelineStep := {
  step : string;
  status : StepStatus;
  detail : string;
  ps_timestamp : string
}.

(** self-improve.ts: [ImprovementRecord] *)
Record ImprovementRecord := {
  callId : string;
  customerNumber : option string;
  timestamp : string;
  transcript : option string;
  rec_failures : list string;
  rec_changes : list string;
  toolsCreated : list string;
  workflowsCreated : list string;
  configBefore : json;
  configAfter : object;
  callbackTriggered : bool;
  rawAnalysis : option string;
  pipelineLog : list PipelineStep
}.

(** The process: the outside world, [registry] of tools.ts and [history]
    of self-improve.ts. *)
Record State := {
  world : W;
  registry : JsMap.t RegisteredTool;
  history : list ImprovementRecord
}.

(** A remote call, run in the world of the process. *)
Definition remote {A} (f : W -> Result A * W) : M State A :=
  fun s => let (r, w) := f (world s) in
           (r, {| world := w; registry := registry s; history := history s |}).

Definition get_registry : M State (JsMap.t RegisteredTool) :=
  fun s => (Ok (registry s), s).

Definition put_registry (r : JsMap.t RegisteredTool) : M State unit :=
  fun s => (Ok tt, {| world := world s; registry := r; history := history s |}).

Definition put_history (h : list ImprovementRecord) : M State unit :=
  fun s => (Ok tt, {| world := world s; registry := registry s; history := h |}).

Definition clock : M State string := fun s => (Ok (now E (world s)), s).

(** ** vapi.ts *)

Definition assistant_path (assistantId : string) : string :=
  "/assistant/" ++ assistantId.

(** [messages.find((m) => m.role === "system")] *)
Definition find_system (messages : list json) : option json :=
  find (fun m => match as_string (prop "role" (Some m)) with
                 | Some r => String.eqb r "system"
                 | None => false
                 end) messages.

(** [extractSystemMessage]: "instructions" at the root first, then the
    system message of [model || llm], then its [systemMessage]. The
    [content] of a message is declared a string. *)
Definition extractSystemMessage (assistant : json) : string :=
  match prop "instructions" (Some assistant) with
  | Some (JStr s) => s
  | _ =>
      let model := prop "model" (Some assistant) in
      let llm := prop "llm" (Some assistant) in
      let source := if truthy model then model else llm in
      if truthy source then
        let tail := match prop "systemMessage" source with
                    | Some (JStr s) => s
                    | _ => EmptyString
                    end in
        match prop "messages" source with
        | Some (JArr (m :: ms)) =>
            match find_system (m :: ms) with
            | Some sys =>
                match as_string (prop "content" (Some sys)) with
                | Some c => c
                | None => EmptyString
                end
            | None => tail
            end
        | _ => tail
        end
      else EmptyString
  end.

Record Assistant := { systemMessage : string; config : json }.

Definition getAssistant (assistantId : string) : M State Assistant :=
  result <- remote (vapiRequest E (assistant_path assistantId) GET None) ;;
  ret {| systemMessage := extractSystemMessage result; config := result |}.

Record LlmConfig := {
  field : string;
  provider : option json;
  modelName : option json;
  existing : option json
}.

(** [getCurrentLlmConfig]: the live profile is read, and the sub-object that
    holds the LLM settings is looked for under "model", then under "llm". *)
Definition getCurrentLlmConfig (assistantId : string) : M State LlmConfig :=
  result <- remote (vapiRequest E (assistant_path assistantId) GET None) ;;
  let model := prop "model" (Some result) in
  let llm := prop "llm" (Some result) in
  if truthy (prop "provider" model) then
    ret {| field := "model"; provider := prop "provider" model;
           modelName := prop "model" model; existing := model |}
  else if truthy (prop "provider" llm) then
    ret {| field := "llm"; provider := prop "provider" llm;
           modelName := prop "model" llm; existing := llm |}
  else
    ret {| field := "model"; provider := Some (JStr "openai");
           modelName := Some (JStr "gpt-4o"); existing := Some (JObj []) |}.

(** [if (changes[from] !== undefined) patch[to] = changes[from]] *)
Definition copy_field (from to : string) (changes patch : object) : object :=
  match obj_get from changes with
  | Some v => obj_set to v patch
  | None => patch
  end.

(** The [voiceSpeed] step of [updateAssistant], the same in both revisions:
    the current voice object is read and spread under the new speed. *)
Definition patch_voice (assistantId : string) (changes patch : object)
  : M State object :=
  match obj_get "voiceSpeed" changes with
  | Some v =>
      result <- remote (vapiRequest E (assistant_path assistantId) GET None) ;;
      let currentVoice := prop "voice" (Some result) in
      ret (obj_set "voice" (JObj (obj_set "speed" v (spread currentVoice))) patch)
  | None => ret patch
  end.

(** The tail of [updateAssistant], the same in both revisions: scalar
    fields, then the PATCH unless the patch is empty. *)
Definition send_patch (assistantId : string) (changes patch : object)
  : M State unit :=
  let patch := copy_field "firstMessage" "firstMessage" changes patch in
  let patch := copy_field "silenceTimeoutSeconds" "silenceTimeoutSeconds" changes patch in
  let patch := copy_field "maxDurationSeconds" "maxDurationSeconds" changes patch in
  let patch := copy_field "messagePlan" "messagePlan" changes patch in
  match obj_keys patch with
  | [] => ret tt
  | _ :: _ =>
      remote (vapiRequest E (assistant_path assistantId) PATCH (Some (JObj patch))) ;;;
      ret tt
  end.

(** [updateAssistant] (current revision of vapi.ts). *)
Definition updateAssistant (assistantId : string) (changes : object)
  : M State unit :=
  let patch := copy_field "systemMessage" "instructions" changes [] in
  patch <- match obj_get "maxTokens" changes with
           | Some v =>
               llmConfig <- getCurrentLlmConfig assistantId ;;
               ret (obj_set (field llmConfig)
                      (JObj (obj_of [("provider", provider llmConfig);
                                     ("model", modelName llmConfig);
                                     ("maxTokens", Some v)]))
                      patch)
           | None => ret patch
           end ;;
  let patch := copy_field "toolIds" "toolIds" changes patch in
  patch <- patch_voice assistantId changes patch ;;
  send_patch assistantId changes patch.

(** [updateAssistant] as in the earlier revision of vapi.ts (the one whose
    [getAssistant] reads [model.messages]): model-level changes are
    collected, the current model is read and spread under them. *)
Definition updateAssistant_v1 (assistantId : string) (changes : object)
  : M State unit :=
  let modelPatch :=
    match obj_get "systemMessage" changes with
    | Some v => obj_set "messages"
                  (JArr [JObj [("role", JStr "system"); ("content", v)]]) []
    | None => []
    end in
  let modelPatch := copy_field "maxTokens" "maxTokens" changes modelPatch in
  let modelPatch := copy_field "toolIds" "toolIds" changes modelPatch in
  patch <- match obj_keys modelPatch with
           | [] => ret []
           | _ :: _ =>
               current <- remote (vapiRequest E (assistant_path assistantId) GET None) ;;
               let model := prop "model" (Some current) in
               let currentModel := if truthy model then model else Some (JObj []) in
               ret (obj_set "model"
                      (JObj (obj_assign (spread currentModel) modelPatch)) [])
           end ;;
  patch <- patch_voice assistantId changes patch ;;
  send_patch assistantId changes patch.

(** The JSON form of a parameter schema. *)
Definition parameters_json (p : Parameters) : json :=
  JObj (obj_of
    [("type", Some (JStr "object"));
     ("properties",
      Some (JObj (map (fun kp =>
                         (fst kp,
                          JObj [("type", JStr (ptype (snd kp)));
                                ("description", JStr (pdescription (snd kp)))]))
                      (properties p))));
     ("required", option_map (fun l => JArr (map JStr l)) (required p))]).

(** [createVapiTool]: returns [result.id]. *)
Definition createVapiTool (tname tdescription : string) (params : Parameters)
  (serverUrl : string) : M State (option json) :=
  let payload :=
    JObj [("type", JStr "function");
          ("name", JStr tname);
          ("description", JStr tdescription);
          ("function", JObj [("parameters", parameters_json params);
                             ("server", JObj [("url", JStr serverUrl)])])] in
  result <- remote (vapiRequest E "/tool" POST (Some payload)) ;;
  ret (prop "id" (Some result)).

(** [addToolToAssistant]: [toolIds] is at the root of the assistant and is
    declared an array of strings. *)
Definition addToolToAssistant (assistantId : string) (toolId : option json)
  : M State unit :=
  assistant <- remote (vapiRequest E (assistant_path assistantId) GET None) ;;
  let existingIds := match prop "toolIds" (Some assistant) with
                     | Some (JArr l) => l
                     | _ => []
                     end in
  let added := match toolId with Some v => v | None => JNull end in
  remote (vapiRequest E (assistant_path assistantId) PATCH
            (Some (JObj [("toolIds", JArr (existingIds ++ [added])%list)]))) ;;;
  ret tt.

(** [createOutboundCall]: returns [result.id], declared a string. *)
Definition createOutboundCall (assistantId customer : string)
  (phoneNumberId : option string) : M State (option string) :=
  let payload :=
    [("assistantId", JStr assistantId);
     ("customer", JObj [("number", JStr customer)])] in
  let payload := match phoneNumberId with
                 | Some p => if truthy_str p
                             then obj_set "phoneNumberId" (JStr p) payload
                             else payload
                 | None => payload
                 end in
  result <- remote (vapiRequest E "/call/phone" POST (Some (JObj payload))) ;;
  ret (as_string (prop "id" (Some result))).

(** The fields of a call that the pipeline reads, at their declared types. *)
Record Call := {
  call_status : option string;
  call_transcript : option string;
  call_endedReason : option string
}.

Definition getCall (id : string) : M State Call :=
  result <- remote (vapiRequest E ("/call/" ++ id) GET None) ;;
  ret {| call_status := as_string (prop "status" (Some result));
         call_transcript := as_string (prop "transcript" (Some result));
         call_endedReason := as_string (prop "endedReason" (Some result)) |}.

(** ** integrations.ts *)

Record SendResult := { sent : option json; sent_id : option json }.

Definition sendWhatsApp (to body : string) : M State SendResult :=
  let chatId := if includes_char "@"%char to then to
                else to ++ "@s.whatsapp.net" in
  res <- remote (whapi_send_text E chatId body) ;;
  match res with
  | WhapiNotOk => ret {| sent := Some (JBool false); sent_id := None |}
  | WhapiBody data =>
      ret {| sent := prop "sent" (Some data);
             sent_id := prop "id" (prop "message" (Some data)) |}
  end.

(** [notifyOperator]. The prefix of the message is the literal of the
    source, byte for byte. *)
Definition notifyOperator (message : string) : M State unit :=
  match env E "OPERATOR_PHONE" with
  | Some phone =>
      if truthy_str phone then
        sendWhatsApp phone ("ðŸ¤– Agent: " ++ message) ;;; ret tt
      else ret tt
  | None => ret tt
  end.

(** ** tools.ts *)

Definition getTool (n : string) : M State (option RegisteredTool) :=
  reg <- get_registry ;; ret (JsMap.get n reg).

Definition getAllTools : M State (list RegisteredTool) :=
  reg <- get_registry ;; ret (JsMap.values reg).

Definition getDynamicTools : M State (list RegisteredTool) :=
  reg <- get_registry ;; ret (filter isDynamic (JsMap.values reg)).

Definition registerTool (tool : RegisteredTool) : M State unit :=
  reg <- get_registry ;; put_registry (JsMap.set (name tool) tool reg).

(** [clearDynamicTools]: the loop visits the entries of the map in order
    and deletes the one it is at when it is dynamic. *)
Definition clear_entries (entries reg : JsMap.t RegisteredTool)
  : JsMap.t RegisteredTool :=
  fold_left (fun r e => if isDynamic (snd e) then JsMap.delete (fst e) r else r)
            entries reg.

Definition clearDynamicTools : M State unit :=
  reg <- get_registry ;; put_registry (clear_entries reg reg).

(** [buildHandler]: the handler is the compiled source, bound to the
    trusted context. *)
Definition buildHandler (code : string) : M State ToolHandler :=
  fun s => match new_Function E code with
           | Ok h => (Ok h, s)
           | Throw e => (Throw e, s)
           end.

Definition createAndRegisterTool (spec : ToolSpec) : M State RegisteredTool :=
  h <- buildHandler (ts_handlerCode spec) ;;
  t <- clock ;;
  let tool := {| name := ts_name spec;
                 description := ts_description spec;
                 parameters := ts_parameters spec;
                 handler := h;
                 createdAt := t;
                 isDynamic := true |} in
  registerTool tool ;;;
  (match env E "VAPI_ASSISTANT_ID", env E "SERVER_URL" with
   | Some assistantId, Some serverUrl =>
       if truthy_str assistantId && truthy_str serverUrl then
         try_catch
           (toolId <- createVapiTool (ts_name spec) (ts_description spec)
                        (ts_parameters spec) (serverUrl ++ "/vapi/tool-calls") ;;
            addToolToAssistant assistantId toolId)
           (fun _ => ret tt)
       else ret tt
   | _, _ => ret tt
   end) ;;;
  notifyOperator ("New tool created: " ++ dq ++ ts_name spec ++ dq ++ " — "
                  ++ ts_description spec) ;;;
  ret tool.

Definition string_param (d : string) : PropSpec :=
  {| ptype := "string"; pdescription := d |}.

(** [seedTools]: the four tools registered when the module is loaded. *)
Definition seed (n d : string) (props : list (string * PropSpec))
  (req : list string) : M State unit :=
  t <- clock ;;
  registerTool {| name := n; description := d;
                  parameters := {| properties := props; required := Some req |};
                  handler := seed_handler E n;
                  createdAt := t;
                  isDynamic := false |}.

Definition seedTools : M State unit :=
  seed "check_shipment_status"
       "Check the current status of a shipment by container or booking ID"
       [("shipment_id", string_param "Container number or booking reference")]
       ["shipment_id"] ;;;
  seed "send_customer_whatsapp"
       "Send a WhatsApp message to a customer with shipment updates or information"
       [("phone", string_param "Customer phone number with country code");
        ("message", string_param "Message to send")]
       ["phone"; "message"] ;;;
  seed "send_email_notification"
       "Send an email notification to a customer or internal team via n8n workflow"
       [("to", string_param "Recipient email address");
        ("subject", string_param "Email subject");
        ("body", string_param "Email body text")]
       ["to"; "subject"; "body"] ;;;
  seed "escalate_to_operator"
       "Escalate an issue to a human operator via WhatsApp when the agent cannot handle it"
       [("reason", string_param "Why this needs human attention");
        ("context", string_param "Relevant details (customer info, shipment ID, etc.)")]
       ["reason"].

(** ** self-improve.ts *)

Definition getImprovementHistory : M State (list ImprovementRecord) :=
  fun s => (Ok (history s), s).

Definition clearHistory : M State unit := put_history [].

(** [isN8nConfigured] of n8n.ts: both module constants are non-empty. *)
Definition isN8nConfigured : bool :=
  truthy_ostr (env E "N8N_API_URL") && truthy_ostr (env E "N8N_API_KEY").

(** [for (const x of xs) await f(x)] *)
Fixpoint for_each {S A} (f : A -> M S unit) (xs : list A) : M S unit :=
  match xs with
  | [] => ret tt
  | x :: xs' => f x ;;; for_each f xs'
  end.

(** [Promise.all(xs.map(f))] where no [f(x)] rejects; the calls are taken
    in the order in which they are started. *)
Fixpoint map_all {S A B} (f : A -> M S B) (xs : list A) : M S (list B) :=
  match xs with
  | [] => ret []
  | x :: xs' => y <- f x ;; ys <- map_all f xs' ;; ret (y :: ys)
  end.

(** The look at the existing n8n workflows at the head of
    [analyzeTranscriptWithRaw]. *)
Definition workflow_detail (w : WorkflowSummary)
  : M State (WorkflowSummary * option json) :=
  try_catch (full <- remote (getWorkflow E (ws_id w)) ;; ret (w, Some full))
            (fun _ => ret (w, None)).

Definition existing_workflows : M State WorkflowsInfo :=
  if isN8nConfigured then
    try_catch
      (workflows <- remote (listWorkflows E) ;;
       match workflows with
       | [] => ret NoWorkflowsYet
       | _ :: _ =>
           details <- map_all workflow_detail (firstn 5 workflows) ;;
           ret (WorkflowDetails details)
       end)
      (fun e => ret (FailedToFetch e))
  else ret N8nNotConfigured.

(** [text.replace(/```json?\n?/g, "").replace(/```/g, "").trim()] *)
Definition clean (text : string) : string :=
  trim (remove_matches fence_len 0 (remove_matches fence_open_len 0 text)).

(** The result of the [catch] branch of [analyzeTranscriptWithRaw]. *)
Definition parse_error_result (currentPrompt : string) : AnalysisResult :=
  {| failures := ["Could not parse analysis output"];
     changes := ["No changes made — parse error"];
     configChanges := [("systemMessage", JStr currentPrompt)];
     newTools := None;
     newWorkflows := None;
     resourceRequests := None |}.

(** [response.content[0].type === "text" ? response.content[0].text : ""] *)
Definition block_text (block : ContentBlock) : string :=
  match block with
  | TextBlock t => t
  | OtherBlock => EmptyString
  end.

Definition analyzeTranscriptWithRaw (transcript0 : option string)
  (currentPrompt : string) (currentConfig : json)
  (existingTools : list (string * string))
  : M State (AnalysisResult * string) :=
  existingWorkflows <- existing_workflows ;;
  content <- remote (messages_create E
                       {| pi_toolList := existingTools;
                          pi_existingWorkflows := existingWorkflows;
                          pi_currentPrompt := currentPrompt;
                          pi_currentConfig := currentConfig;
                          pi_transcript := transcript0 |}) ;;
  match content with
  | [] => throw "Cannot read properties of undefined (reading 'type')"
  | block :: _ =>
      let text := block_text block in
      match JSON_parse E (clean text) with
      | Some parsed => ret (parsed, text)
      | None => ret (parse_error_result currentPrompt, text)
      end
  end.

(** The local variables of one run of [analyzeAndImprove] that outlive a
    thrown exception: the arrays [log], [toolsCreated], [workflowsCreated].
    [run_record] is the place in [history] of the record of this run once
    it is pushed: the record holds the [log] array itself, so what is
    logged after the push shows in the record. *)
Record Run := {
  proc : State;
  run_log : list PipelineStep;
  run_toolsCreated : list string;
  run_workflowsCreated : list string;
  run_record : option nat
}.

Definition inproc {A} (m : M State A) : M Run A :=
  fun r => let (a, s) := m (proc r) in
           (a, {| proc := s; run_log := run_log r;
                  run_toolsCreated := run_toolsCreated r;
                  run_workflowsCreated := run_workflowsCreated r;
                  run_record := run_record r |}).

Fixpoint update_nth {A} (n : nat) (f : A -> A) (l : list A) : list A :=
  match l, n with
  | [], _ => []
  | x :: l', O => f x :: l'
  | x :: l', S n' => x :: update_nth n' f l'
  end.

Definition with_pipelineLog (l : list PipelineStep) (r : ImprovementRecord)
  : ImprovementRecord :=
  {| callId := callId r; customerNumber := customerNumber r;
     timestamp := timestamp r; transcript := transcript r;
     rec_failures := rec_failures r; rec_changes := rec_changes r;
     toolsCreated := toolsCreated r; workflowsCreated := workflowsCreated r;
     configBefore := configBefore r; configAfter := configAfter r;
     callbackTriggered := callbackTriggered r; rawAnalysis := rawAnalysis r;
     pipelineLog := l |}.

Definition with_callbackTriggered (b : bool) (r : ImprovementRecord)
  : ImprovementRecord :=
  {| callId := callId r; customerNumber := customerNumber r;
     timestamp := timestamp r; transcript := transcript r;
     rec_failures := rec_failures r; rec_changes := rec_changes r;
     toolsCreated := toolsCreated r; workflowsCreated := workflowsCreated r;
     configBefore := configBefore r; configAfter := configAfter r;
     callbackTriggered := b; rawAnalysis := rawAnalysis r;
     pipelineLog := pipelineLog r |}.

Definition update_record (i : option nat)
  (f : ImprovementRecord -> ImprovementRecord) (s : State) : State :=
  match i with
  | Some n => {| world := world s; registry := registry s;
                 history := update_nth n f (history s) |}
  | None => s
  end.

(** [logStep(log, step, status, detail)] *)
Definition logStep (stp : string) (st : StepStatus) (d : string) : M Run unit :=
  fun r =>
    let entry := {| step := stp; status := st; detail := d;
                    ps_timestamp := now E (world (proc r)) |} in
    let log' := (run_log r ++ [entry])%list in
    (Ok tt, {| proc := update_record (run_record r) (with_pipelineLog log') (proc r);
               run_log := log';
               run_toolsCreated := run_toolsCreated r;
               run_workflowsCreated := run_workflowsCreated r;
               run_record := run_record r |}).

(** [toolsCreated.push(n)] *)
Definition push_toolsCreated (n : string) : M Run unit :=
  fun r => (Ok tt, {| proc := proc r; run_log := run_log r;
                      run_toolsCreated := (run_toolsCreated r ++ [n])%list;
                      run_workflowsCreated := run_workflowsCreated r;
                      run_record := run_record r |}).

(** [workflowsCreated.push(x)] *)
Definition push_workflowsCreated (x : string) : M Run unit :=
  fun r => (Ok tt, {| proc := proc r; run_log := run_log r;
                      run_toolsCreated := run_toolsCreated r;
                      run_workflowsCreated := (run_workflowsCreated r ++ [x])%list;
                      run_record := run_record r |}).

Definition get_run : M Run Run := fun r => (Ok r, r).

(** [history.push(record)] *)
Definition push_record (record : ImprovementRecord) : M Run unit :=
  fun r =>
    let s := proc r in
    (Ok tt, {| proc := {| world := world s; registry := registry s;
                          history := (history s ++ [record])%list |};
               run_log := run_log r;
               run_toolsCreated := run_toolsCreated r;
               run_workflowsCreated := run_workflowsCreated r;
               run_record := Some (List.length (history s)) |}).

(** [record.callbackTriggered = true] *)
Definition mark_callback : M Run unit :=
  fun r => (Ok tt, {| proc := update_record (run_record r)
                                (with_callbackTriggered true) (proc r);
                      run_log := run_log r;
                      run_toolsCreated := run_toolsCreated r;
                      run_workflowsCreated := run_workflowsCreated r;
                      run_record := run_record r |}).

(** [x?.length || 0] *)
Definition count_opt {A} (o : option (list A)) : nat :=
  match o with Some l => List.length l | None => 0 end.

(** The items of an optional array when [x?.length] is truthy. *)
Definition items {A} (o : option (list A)) : list A :=
  match o with Some l => l | None => [] end.

(** The arguments of the smoke test: "test" for a string-typed property,
    0 for any other. *)
Definition testArgs (p : Parameters) : object :=
  fold_left (fun args kp =>
               obj_set (fst kp)
                 (if String.eqb (ptype (snd kp)) "string"
                  then JStr "test" else JNum 0%Q)
                 args)
            (properties p) [].

(** One turn of the loop over [analysis.newTools]. *)
Definition create_tool_item (toolSpec : ToolSpec) : M Run unit :=
  try_catch
    (logStep "create_tool" ok
       ("Creating tool: " ++ dq ++ ts_name toolSpec ++ dq ++ " — "
        ++ ts_description toolSpec) ;;;
     tool <- inproc (createAndRegisterTool toolSpec) ;;
     push_toolsCreated (ts_name toolSpec) ;;;
     try_catch
       (output <- inproc (remote (handler tool (testArgs (ts_parameters toolSpec)))) ;;
        logStep "test_tool" ok
          ("Tool " ++ dq ++ ts_name toolSpec ++ dq ++ " smoke test passed: "
           ++ slice0 100 output))
       (fun msg =>
          logStep "test_tool" error
            ("Tool " ++ dq ++ ts_name toolSpec ++ dq ++ " smoke test failed: "
             ++ msg)))
    (fun msg =>
       logStep "create_tool" error
         ("Failed to create tool " ++ dq ++ ts_name toolSpec ++ dq ++ ": " ++ msg)).

(** The source of the handler that posts to a deployed webhook. *)
Definition wiring_handlerCode (webhookUrl : string) : string :=
  "const res = await ctx.fetch(" ++ dq ++ webhookUrl ++ dq
  ++ ", { method: " ++ dq ++ "POST" ++ dq ++ ", headers: { " ++ dq
  ++ "Content-Type" ++ dq ++ ": " ++ dq ++ "application/json" ++ dq
  ++ " }, body: JSON.stringify({ to: args.to, message: args.message }) }); const data = await res.json(); return JSON.stringify(data);".

Definition wiring_spec (wf : WorkflowSpec) (toolName webhookUrl : string)
  : ToolSpec :=
  {| ts_name := toolName;
     ts_description := wf_name wf ++ " — triggers n8n workflow via webhook";
     ts_parameters :=
       {| properties :=
            [("to", string_param "Recipient phone number or identifier");
             ("message", string_param "Message content to send")];
          required := Some ["to"; "message"] |};
     ts_handlerCode := wiring_handlerCode webhookUrl |}.

(** One turn of the loop over [analysis.newWorkflows]. *)
Definition create_workflow_item (wf : WorkflowSpec) : M Run unit :=
  try_catch
    (match wf_steps wf with
     | [] =>
         logStep "create_workflow" skipped
           ("Workflow " ++ dq ++ wf_name wf ++ dq ++ " has no steps")
     | _ :: _ =>
         logStep "create_workflow" ok
           ("Creating n8n workflow: " ++ dq ++ wf_name wf ++ dq ++ " ("
            ++ show_nat (List.length (wf_steps wf)) ++ " steps)") ;;;
         result <- inproc (remote (createCustomWorkflow E wf)) ;;
         let webhookUrl := snd result in
         push_workflowsCreated (wf_name wf ++ " → " ++ webhookUrl) ;;;
         logStep "create_workflow" ok
           ("Workflow " ++ dq ++ wf_name wf ++ dq ++ " deployed: " ++ webhookUrl) ;;;
         let toolName := replace_dash (wf_webhookPath wf) in
         logStep "wire_workflow_to_vapi" ok
           ("Creating Vapi tool " ++ dq ++ toolName ++ dq ++ " → " ++ webhookUrl) ;;;
         inproc (createAndRegisterTool (wiring_spec wf toolName webhookUrl)) ;;;
         push_toolsCreated toolName ;;;
         logStep "wire_workflow_to_vapi" ok
           ("Vapi tool " ++ dq ++ toolName ++ dq
            ++ " created and attached to assistant")
     end)
    (fun msg =>
       logStep "create_workflow" error
         ("Failed: " ++ dq ++ wf_name wf ++ dq ++ ": " ++ msg)).

(** [`${currentToolIds.length}`] for [currentModel?.toolIds || []], declared
    an array of strings. *)
Definition tool_ids_count (toolIds : option json) : string :=
  if truthy toolIds then
    match toolIds with
    | Some (JArr l) => show_nat (List.length l)
    | Some (JStr x) => show_nat (String.length x)
    | _ => "undefined"
    end
  else "0".

(** The summary sent to the operator at the end of a run. *)
Definition summary_message (callId0 : string) (analysis : AnalysisResult)
  (tools workflows : list string) (customerNumber0 : option string) : string :=
  let head :=
    [ "🧠 Self-improvement complete (call " ++ callId0 ++ ")";
      EmptyString;
      "Failures: " ++ join nl (map (fun f => "❌ " ++ f) (failures analysis));
      "Changes: " ++ join nl (map (fun c => "✅ " ++ c) (changes analysis)) ] in
  let tools_line :=
    match tools with
    | [] => []
    | _ :: _ => ["Tools: " ++ join ", " tools]
    end in
  let workflows_line :=
    match workflows with
    | [] => []
    | _ :: _ => ["Workflows: " ++ join ", " workflows]
    end in
  let last_line :=
    [ if truthy_ostr customerNumber0 then "Calling customer back..."
      else "No customer number — skipping callback." ] in
  join nl (head ++ tools_line ++ workflows_line ++ last_line)%list.

(** The body of [analyzeAndImprove], over the locals of the run, cut at
    the numbered comments of the source. *)

(** 1. Fetch transcript + current config, 2. log the transcript, analyze
    with Claude: the steps whose failure is rethrown. *)
Definition fetch_and_analyze (callId0 assistantId : string)
  : M Run (Call * Assistant * (AnalysisResult * string)) :=
  logStep "fetch_transcript" ok ("Fetching call " ++ callId0 ++ " from Vapi...") ;;;
  call <- try_catch
            (call <- inproc (getCall callId0) ;;
             logStep "fetch_transcript" ok
               ("Got transcript ("
                ++ show_nat (match call_transcript call with
                             | Some t => String.length t
                             | None => 0
                             end)
                ++ " chars), status=" ++ show_ostr (call_status call)
                ++ ", ended=" ++ show_ostr (call_endedReason call)) ;;;
             ret call)
            (fun msg =>
               logStep "fetch_transcript" error ("Failed to fetch call: " ++ msg) ;;;
               throw msg) ;;
  logStep "fetch_assistant" ok "Fetching current assistant config..." ;;;
  assistant <- inproc (getAssistant assistantId) ;;
  logStep "fetch_assistant" ok
    ("Current prompt: " ++ slice0 80 (systemMessage assistant) ++ "...") ;;;
  existingTools <- inproc getAllTools ;;
  logStep "check_tools" ok
    (show_nat (List.length existingTools) ++ " existing tools: "
     ++ (let names := join ", " (map name existingTools) in
         if truthy_str names then names else "none")) ;;;
  let transcriptPreview :=
    match call_transcript call with
    | Some t => if truthy_str (slice0 300 t) then slice0 300 t else "(empty)"
    | None => "(empty)"
    end in
  logStep "transcript_preview" ok transcriptPreview ;;;
  logStep "ai_analysis" ok "Sending transcript to Claude for analysis..." ;;;
  result <- try_catch
              (result <- inproc (analyzeTranscriptWithRaw
                                   (call_transcript call)
                                   (systemMessage assistant)
                                   (config assistant)
                                   (map (fun t => (name t, description t))
                                        existingTools)) ;;
               let analysis := fst result in
               logStep "ai_analysis" ok
                 ("Claude identified "
                  ++ show_nat (List.length (failures analysis)) ++ " failures, "
                  ++ show_nat (List.length (changes analysis)) ++ " changes, "
                  ++ show_nat (count_opt (newTools analysis)) ++ " new tools, "
                  ++ show_nat (count_opt (newWorkflows analysis))
                  ++ " new workflows") ;;;
               ret result)
              (fun msg =>
                 logStep "ai_analysis" error ("Claude analysis failed: " ++ msg) ;;;
                 throw msg) ;;
  ret (call, assistant, result).

(** 3. Update assistant config FIRST (before attaching tools). *)
Definition update_config (assistantId : string) (analysis : AnalysisResult)
  : M Run unit :=
  logStep "update_assistant" ok
    "Applying config changes to Vapi assistant (prompt, maxTokens, voice, etc.)..." ;;;
  try_catch
    (inproc (updateAssistant assistantId (configChanges analysis)) ;;;
     logStep "update_assistant" ok
       ("Updated: " ++ join ", " (obj_keys (configChanges analysis))))
    (fun msg =>
       logStep "update_assistant" error ("Failed to update assistant: " ++ msg)).

(** 4. Create direct Vapi tools. *)
Definition create_tools (analysis : AnalysisResult) : M Run unit :=
  match items (newTools analysis) with
  | [] => logStep "create_tool" skipped "No new tools requested by analysis"
  | specs => for_each create_tool_item specs
  end.

(** 4. Create n8n workflows. The result is [analysis.resourceRequests]
    as the step leaves it. *)
Definition create_workflows (analysis : AnalysisResult)
  : M Run (option (list string)) :=
  match items (newWorkflows analysis) with
  | [] =>
      logStep "create_workflow" skipped
        "No new workflows requested by analysis" ;;;
      ret (resourceRequests analysis)
  | wfs =>
      if isN8nConfigured then
        for_each create_workflow_item wfs ;;;
        ret (resourceRequests analysis)
      else
        logStep "create_workflow" error
          "n8n not configured (N8N_API_URL or N8N_API_KEY missing) — cannot create workflows" ;;;
        ret (Some (items (resourceRequests analysis)
                   ++ ["Need N8N_API_URL and N8N_API_KEY to create workflows programmatically"])%list)
  end.

(** 6. Resource requests. *)
Definition request_resources (requests : option (list string)) : M Run unit :=
  for_each (fun req =>
              inproc (notifyOperator ("🔑 RESOURCE REQUEST: " ++ req)) ;;;
              logStep "resource_request" ok req)
           (items requests).

(** 7. Final verification. *)
Definition verify_assistant (assistantId : string) : M Run unit :=
  try_catch
    (updated <- inproc (getAssistant assistantId) ;;
     let currentModel := prop "model" (Some (config updated)) in
     logStep "verify_assistant" ok
       ("Assistant published with "
        ++ tool_ids_count (prop "toolIds" currentModel)
        ++ " tools attached. Prompt length: "
        ++ show_nat (String.length (systemMessage updated)) ++ " chars"))
    (fun _ =>
       logStep "verify_assistant" error "Could not verify final assistant state").

(** The record of the run, and [history.push(record)]. *)
Definition persist_record (callId0 : string) (customerNumber0 : option string)
  (call : Call) (assistant : Assistant) (analysis : AnalysisResult)
  (rawAnalysisText : string) : M Run ImprovementRecord :=
  r <- get_run ;;
  let record :=
    {| callId := callId0;
       customerNumber := customerNumber0;
       timestamp := now E (world (proc r));
       transcript := call_transcript call;
       rec_failures := failures analysis;
       rec_changes := changes analysis;
       toolsCreated := run_toolsCreated r;
       workflowsCreated := run_workflowsCreated r;
       configBefore := config assistant;
       configAfter := configChanges analysis;
       callbackTriggered := false;
       rawAnalysis := Some rawAnalysisText;
       pipelineLog := run_log r |} in
  push_record record ;;;
  ret record.

(** Notify operator. *)
Definition notify_summary (callId0 : string) (customerNumber0 : option string)
  (analysis : AnalysisResult) : M Run unit :=
  r <- get_run ;;
  inproc (notifyOperator
            (summary_message callId0 analysis (run_toolsCreated r)
               (run_workflowsCreated r) customerNumber0)).

(** [await new Promise((resolve) => setTimeout(resolve, ms))] *)
Definition settle (ms : nat) : M State unit :=
  fun s => (Ok tt, {| world := sleep E ms (world s);
                      registry := registry s;
                      history := history s |}).

(** Auto-callback. *)
Definition auto_callback (assistantId : string)
  (customerNumber0 : option string) : M Run unit :=
  match customerNumber0 with
  | Some customerNumber1 =>
      if truthy_str customerNumber1 then
        logStep "callback" ok
          ("Triggering callback to " ++ customerNumber1 ++ "...") ;;;
        inproc (settle 3000) ;;;
        try_catch
          (callbackId <- inproc (createOutboundCall assistantId customerNumber1
                                   (env E "VAPI_PHONE_NUMBER_ID")) ;;
           mark_callback ;;;
           logStep "callback" ok ("Callback initiated: " ++ show_ostr callbackId))
          (fun msg =>
             logStep "callback" error ("Callback failed: " ++ msg) ;;;
             inproc (notifyOperator
                       ("⚠️ Failed to call customer back at " ++ customerNumber1
                        ++ ": " ++ msg)))
      else logStep "callback" skipped "No customer number available"
  | None => logStep "callback" skipped "No customer number available"
  end.

(** [return record]: the record object, as the later steps left it. *)
Definition current_record (record : ImprovementRecord) : M Run ImprovementRecord :=
  r <- get_run ;;
  ret (match run_record r with
       | Some i => nth i (history (proc r)) record
       | None => record
       end).

(** Everything after the analysis. *)
Definition improve (callId0 assistantId : string)
  (customerNumber0 : option string) (call : Call) (assistant : Assistant)
  (analysis : AnalysisResult) (rawAnalysisText : string)
  : M Run ImprovementRecord :=
  update_config assistantId analysis ;;;
  create_tools analysis ;;;
  requests <- create_workflows analysis ;;
  request_resources requests ;;;
  verify_assistant assistantId ;;;
  record <- persist_record callId0 customerNumber0 call assistant analysis
              rawAnalysisText ;;
  notify_summary callId0 customerNumber0 analysis ;;;
  auto_callback assistantId customerNumber0 ;;;
  current_record record.

Definition pipeline (callId0 assistantId : string)
  (customerNumber0 : option string) : M Run ImprovementRecord :=
  fetched <- fetch_and_analyze callId0 assistantId ;;
  improve callId0 assistantId customerNumber0
    (fst (fst fetched)) (snd (fst fetched))
    (fst (snd fetched)) (snd (snd fetched)).

Definition new_run (s : State) : Run :=
  {| proc := s; run_log := []; run_toolsCreated := [];
     run_workflowsCreated := []; run_record := None |}.

(** [analyzeAndImprove]: a run starts with empty [log], [toolsCreated] and
    [workflowsCreated]. *)
Definition analyzeAndImprove (callId0 assistantId : string)
  (customerNumber0 : option string) : M State ImprovementRecord :=
  fun s =>
    let (res, r) := pipeline callId0 assistantId customerNumber0 (new_run s) in
    (res, proc r).

(** ** baseline.ts *)

Definition BASELINE : object :=
  [("systemMessage",
    JStr "You are a logistics assistant for Ruya Logistics in Dubai. You help customers with shipping and container inquiries from Jebel Ali port.");
   ("maxTokens", JNum 250%Q);
   ("voiceSpeed", JNum 1%Q);
   ("firstMessage", JStr "Hello, this is Ruya Logistics.");
   ("silenceTimeoutSeconds", JNum 10%Q);
   ("toolIds", JArr []);
   ("messagePlan",
    JObj [("idleMessages", JArr []);
          ("idleTimeoutSeconds", JNum 10%Q);
          ("idleMessageMaxSpokenCount", JNum 0%Q)])].

Definition resetToBaseline (assistantId : string) : M State unit :=
  updateAssistant assistantId BASELINE ;;;
  clearDynamicTools ;;;
  clearHistory.

(** [n] calls of POST /reset in a row, stopping at the first that throws. *)
Fixpoint resets (n : nat) (assistantId : string) : M State unit :=
  match n with
  | O => ret tt
  | S n' => resetToBaseline assistantId ;;; resets n' assistantId
  end.

(** ** server.ts: the end-of-call webhook *)

Record Customer := { number : option string }.

Record CallRef := {
  id : option string;
  assistantId_of : option string;
  customer : option Customer
}.

(** types.ts: [VapiServerMessage["message"]] *)
Record ServerMessage := {
  type : string;
  call : option CallRef;
  endedReason : option string
}.

Record Payload := { message : option ServerMessage }.

Definition badEndings : list string :=
  ["customer-ended-call"; "customer-did-not-answer"; "customer-busy"].

(** [xs.includes(x)] *)
Definition includes (xs : list string) (x : string) : bool :=
  existsb (String.eqb x) xs.

(** [a || b] on optional strings. *)
Definition or_else (a b : option string) : option string :=
  if truthy_ostr a then a else b.

(** [payload.message.call?.id] *)
Definition call_id (m : ServerMessage) : option string :=
  match call m with Some c => id c | None => None end.

(** [payload.message.call?.assistantId || process.env.VAPI_ASSISTANT_ID] *)
Definition resolved_assistantId (m : ServerMessage) : option string :=
  or_else (match call m with Some c => assistantId_of c | None => None end)
          (env E "VAPI_ASSISTANT_ID").

(** [payload.message.call?.customer?.number] *)
Definition customer_number (m : ServerMessage) : option string :=
  match call m with
  | Some c => match customer c with Some cu => number cu | None => None end
  | None => None
  end.

(** [endedReason && badEndings.includes(endedReason)] *)
Definition shouldImprove (m : ServerMessage) : bool :=
  match endedReason m with
  | Some r => truthy_str r && includes badEndings r
  | None => false
  end.

(** The decision of the handler of POST /vapi/server-message: the arguments
    of the pipeline run it starts, if it starts one. *)
Definition pipeline_trigger (payload : Payload)
  : option (string * string * option string) :=
  match message payload with
  | Some m =>
      if String.eqb (type m) "end-of-call-report" then
        match call_id m, resolved_assistantId m with
        | Some c, Some a =>
            if truthy_str c && truthy_str a && shouldImprove m
            then Some (c, a, customer_number m)
            else None
        | _, _ => None
        end
      else None
  | None => None
  end.

(** The handler; its answer is always [{ ok: true }]. The run it starts is
    detached ([.catch] logs its error); here it is run to its end before the
    next event is taken. *)
Definition server_message (payload : Payload) : M State json :=
  (match pipeline_trigger payload with
   | Some (c, a, n) =>
       try_catch (analyzeAndImprove c a n ;;; ret tt) (fun _ => ret tt)
   | None => ret tt
   end) ;;;
  ret (JObj [("ok", JBool true)]).

(** ** self-improve.ts: [analyzeFromTranscript], the manual trigger

    The locals [toolsCreated] and [workflowsCreated] and the record of
    the run are those of a [Run]; the manual trigger keeps no log, and
    its record holds an empty [pipelineLog] of its own. *)

(** One turn of the loop over [analysis.newTools]. *)
Definition manual_tool_item (toolSpec : ToolSpec) : M Run unit :=
  try_catch
    (inproc (createAndRegisterTool toolSpec) ;;;
     push_toolsCreated (ts_name toolSpec))
    (fun _ => ret tt).

(** One turn of the loop over [analysis.newWorkflows]. *)
Definition manual_workflow_item (wf : WorkflowSpec) : M Run unit :=
  try_catch
    (match wf_steps wf with
     | [] => ret tt
     | _ :: _ =>
         result <- inproc (remote (createCustomWorkflow E wf)) ;;
         let webhookUrl := snd result in
         push_workflowsCreated (wf_name wf ++ " → " ++ webhookUrl) ;;;
         let toolName := replace_dash (wf_webhookPath wf) in
         inproc (createAndRegisterTool (wiring_spec wf toolName webhookUrl)) ;;;
         push_toolsCreated toolName
     end)
    (fun _ => ret tt).

(** The summary sent to the operator at the end of a manual run. *)
Definition manual_summary (analysis : AnalysisResult) (tools : list string)
  : string :=
  let head := ["🧠 Manual self-improvement complete"] in
  let failed_lines := map (fun f => "  ❌ " ++ f) (failures analysis) in
  let changed_lines := map (fun c => "  ✅ " ++ c) (changes analysis) in
  let tool_lines :=
    match tools with
    | [] => []
    | _ :: _ => map (fun t => "  🔧 " ++ t) tools
    end in
  join nl (head ++ failed_lines ++ changed_lines ++ tool_lines)%list.

(** Auto-callback of the manual trigger: a failure is logged to the
    console only. *)
Definition manual_callback (assistantId : string)
  (customerNumber0 : option string) : M Run unit :=
  match customerNumber0 with
  | Some customerNumber1 =>
      if truthy_str customerNumber1 then
        inproc (settle 3000) ;;;
        try_catch
          (inproc (createOutboundCall assistantId customerNumber1
                     (env E "VAPI_PHONE_NUMBER_ID")) ;;;
           mark_callback)
          (fun _ => ret tt)
      else ret tt
  | None => ret tt
  end.

Definition manual_pipeline (transcript0 assistantId : string)
  (customerNumber0 : option string) : M Run ImprovementRecord :=
  assistant <- inproc (getAssistant assistantId) ;;
  existingTools <- inproc getAllTools ;;
  result <- inproc (analyzeTranscriptWithRaw (Some transcript0)
                      (systemMessage assistant) (config assistant)
                      (map (fun t => (name t, description t)) existingTools)) ;;
  let analysis := fst result in
  let rawAnalysisText := snd result in
  inproc (updateAssistant assistantId (configChanges analysis)) ;;;
  for_each manual_tool_item (items (newTools analysis)) ;;;
  (if isN8nConfigured
   then for_each manual_workflow_item (items (newWorkflows analysis))
   else ret tt) ;;;
  for_each (fun req => inproc (notifyOperator ("🔑 RESOURCE REQUEST: " ++ req)))
           (items (resourceRequests analysis)) ;;;
  r <- get_run ;;
  let record :=
    {| callId := "manual";
       customerNumber := customerNumber0;
       timestamp := now E (world (proc r));
       transcript := None;
       rec_failures := failures analysis;
       rec_changes := changes analysis;
       toolsCreated := run_toolsCreated r;
       workflowsCreated := run_workflowsCreated r;
       configBefore := config assistant;
       configAfter := configChanges analysis;
       callbackTriggered := false;
       rawAnalysis := Some rawAnalysisText;
       pipelineLog := [] |} in
  push_record record ;;;
  inproc (notifyOperator (manual_summary analysis (run_toolsCreated r))) ;;;
  manual_callback assistantId customerNumber0 ;;;
  current_record record.

Definition analyzeFromTranscript (transcript0 assistantId : string)
  (customerNumber0 : option string) : M State ImprovementRecord :=
  fun s =>
    let (res, r) := manual_pipeline transcript0 assistantId customerNumber0
                      (new_run s) in
    (res, proc r).

(** ** server.ts: POST /improve and POST /reset *)

(** What a handler sends: [res.status(code).json({ error })] or
    [res.json(body)]. *)
Inductive Reply (A : Type) :=
| ErrorReply (code : nat) (reason : string)
| JsonReply (body : A).

Arguments ErrorReply {A} code reason.
Arguments JsonReply {A} body.

(** The body of POST /improve. *)
Record ImproveBody := {
  ib_callId : option string;
  ib_transcript : option string;
  ib_customerNumber : option string
}.

Definition improve_route (body : ImproveBody) : M State (Reply ImprovementRecord) :=
  let assistantId := env E "VAPI_ASSISTANT_ID" in
  match assistantId with
  | Some a =>
      if truthy_str a then
        try_catch
          (if truthy_ostr (ib_callId body) then
             record <- analyzeAndImprove (show_ostr (ib_callId body)) a
                         (ib_customerNumber body) ;;
             ret (JsonReply record)
           else if truthy_ostr (ib_transcript body) then
             record <- analyzeFromTranscript (show_ostr (ib_transcript body)) a
                         (ib_customerNumber body) ;;
             ret (JsonReply record)
           else ret (ErrorReply 400 "Provide callId or transcript"))
          (fun msg => ret (ErrorReply 500 msg))
      else ret (ErrorReply 400 "VAPI_ASSISTANT_ID not set")
  | None => ret (ErrorReply 400 "VAPI_ASSISTANT_ID not set")
  end.

(** The body of the answer of POST /reset. *)
Record ResetDone := {
  rd_ok : bool;
  rd_message : string;
  rd_baseline : object
}.

Definition reset_route : M State (Reply ResetDone) :=
  match env E "VAPI_ASSISTANT_ID" with
  | Some a =>
      if truthy_str a then
        try_catch
          (resetToBaseline a ;;;
           ret (JsonReply
                  {| rd_ok := true;
                     rd_message := "Reset to baseline. Assistant prompt is weak, tools cleared, history wiped.";
                     rd_baseline := BASELINE |}))
          (fun msg => ret (ErrorReply 500 msg))
      else ret (ErrorReply 400 "VAPI_ASSISTANT_ID not set")
  | None => ret (ErrorReply 400 "VAPI_ASSISTANT_ID not set")
  end.

End Backend.

Arguments Ext : clear implicits.
Arguments ToolHandler : clear implicits.
Arguments RegisteredTool : clear implicits.
Arguments State : clear implicits.
Arguments Run : clear implicits.
Arguments ErrorReply {A} code reason.
Arguments JsonReply {A} body.

(** ** n8n.ts: the workflow builder

    [createCustomWorkflow] as n8n.ts writes it; the pipeline above takes
    it at its interface. The workflow it posts is a JSON value. *)

Module N8n.

Section Client.

Context {W : Type}.
Variable E : Ext W.

(** [n8nRequest(path, method, body)]: throws when [!res.ok] *)
Variable n8nRequest : string -> Method -> option json -> W -> Result json * W.

Definition num (n : nat) : json := JNum (inject_Z (Z.of_nat n)).

(** [{ main: [[{ node: nodeName, type: "main", index: 0 }]] }] *)
Definition link (nodeName : string) : json :=
  JObj [("main",
         JArr [JArr [JObj [("node", JStr nodeName);
                           ("type", JStr "main");
                           ("index", num 0)]]])].

Definition webhook_node (spec : WorkflowSpec) : json :=
  JObj [("id", JStr "webhook-trigger");
        ("name", JStr "Webhook");
        ("type", JStr "n8n-nodes-base.webhook");
        ("typeVersion", JNum (11 # 10));
        ("position", JArr [num 240; num 300]);
        ("parameters",
         JObj [("httpMethod", JStr "POST");
               ("path", JStr (wf_webhookPath spec));
               ("responseMode", JStr "lastNode");
               ("options", JObj [])])].

(** [step.name || `Step ${i + 1}`] *)
Definition node_name (i : nat) (step : WorkflowStep) : string :=
  if truthy_str (step_name step) then step_name step
  else "Step " ++ show_nat (i + 1).

(** [Object.entries(step.headers).map(([name, value]) => ({ name, value }))] *)
Definition header_params (step : WorkflowStep) : list json :=
  match step_headers step with
  | Some headers =>
      map (fun kv => JObj [("name", JStr (fst kv)); ("value", JStr (snd kv))])
          headers
  | None => []
  end.

Definition step_node (i : nat) (step : WorkflowStep) : json :=
  let headerParams := header_params step in
  let sendHeaders :=
    match headerParams with
    | [] => []
    | _ :: _ =>
        [("sendHeaders", JBool true);
         ("headerParameters", JObj [("parameters", JArr headerParams)])]
    end in
  JObj [("id", JStr ("step-" ++ show_nat i));
        ("name", JStr (node_name i step));
        ("type", JStr "n8n-nodes-base.httpRequest");
        ("typeVersion", JNum (41 # 10));
        ("position", JArr [num (480 + i * 240); num 300]);
        ("parameters",
         JObj ([("method", JStr (step_method step));
                ("url", JStr (step_url step))]
               ++ sendHeaders
               ++ [("sendBody", JBool true);
                   ("specifyBody", JStr "json");
                   ("jsonBody", JStr (step_bodyTemplate step));
                   ("options", JObj [("timeout", JNum 10000%Q)])])%list)].

Definition respond_node (spec : WorkflowSpec) : json :=
  JObj [("id", JStr "respond");
        ("name", JStr "Respond");
        ("type", JStr "n8n-nodes-base.respondToWebhook");
        ("typeVersion", num 1);
        ("position", JArr [num (480 + List.length (wf_steps spec) * 240); num 300]);
        ("parameters",
         JObj [("respondWith", JStr "json");
               ("responseBody",
                JStr ("={ " ++ dq ++ "sent" ++ dq ++ ": true, " ++ dq
                      ++ "workflow" ++ dq ++ ": " ++ dq ++ wf_name spec ++ dq
                      ++ " }"));
               ("options", JObj [])])].

(** The locals [nodes], [connections] and [prevNodeName]. *)
Record Graph := {
  g_nodes : list json;
  g_connections : object;
  g_prev : string
}.

(** One turn of [spec.steps.forEach((step, i) => ...)]. *)
Definition add_step (g : Graph) (i : nat) (step : WorkflowStep) : Graph :=
  let nodeName := node_name i step in
  {| g_nodes := (g_nodes g ++ [step_node i step])%list;
     g_connections := obj_set (g_prev g) (link nodeName) (g_connections g);
     g_prev := nodeName |}.

Fixpoint add_steps (i : nat) (steps : list WorkflowStep) (g : Graph) : Graph :=
  match steps with
  | [] => g
  | step :: rest => add_steps (S i) rest (add_step g i step)
  end.

Definition graph_of (spec : WorkflowSpec) : Graph :=
  add_steps 0 (wf_steps spec)
    {| g_nodes := [webhook_node spec]; g_connections := []; g_prev := "Webhook" |}.

Definition nodes_of (spec : WorkflowSpec) : list json :=
  (g_nodes (graph_of spec) ++ [respond_node spec])%list.

Definition connections_of (spec : WorkflowSpec) : object :=
  obj_set (g_prev (graph_of spec)) (link "Respond") (g_connections (graph_of spec)).

(** The workflow that is posted. *)
Definition workflow_of (spec : WorkflowSpec) : json :=
  JObj [("name", JStr (wf_name spec));
        ("nodes", JArr (nodes_of spec));
        ("connections", JObj (connections_of spec));
        ("settings", JObj [("executionOrder", JStr "v1")])].

(** [createWorkflow]: the answer, declared [{ id, name }]. *)
Definition createWorkflow (workflow : json) : M W json :=
  n8nRequest "/workflows" POST (Some workflow).

Definition activateWorkflow (workflowId : string) : M W unit :=
  n8nRequest ("/workflows/" ++ workflowId ++ "/activate") POST None ;;; ret tt.

(** [s.slice(n)] *)
Fixpoint drop (n : nat) (s : string) : string :=
  match n, s with
  | O, _ => s
  | S n', String _ s' => drop n' s'
  | S _, EmptyString => EmptyString
  end.

(** [s.replace(pat, rep)] for a string pattern: the first occurrence. *)
Fixpoint replace_first (pat rep s : string) : string :=
  if starts_with pat s then rep ++ drop (String.length pat) s
  else match s with
       | EmptyString => EmptyString
       | String a s' => String a (replace_first pat rep s')
       end.

(** [process.env.N8N_API_URL || ""] *)
Definition N8N_API_URL : string :=
  match env E "N8N_API_URL" with
  | Some url => url
  | None => EmptyString
  end.

Definition webhook_url (spec : WorkflowSpec) : string :=
  replace_first "/api/v1" "" N8N_API_URL ++ "/webhook/" ++ wf_webhookPath spec.

(** [createCustomWorkflow]: [(workflowId, webhookUrl)]. *)
Definition createCustomWorkflow (spec : WorkflowSpec)
  : M W (option string * string) :=
  result <- createWorkflow (workflow_of spec) ;;
  let workflowId := as_string (prop "id" (Some result)) in
  activateWorkflow (show_ostr workflowId) ;;;
  ret (workflowId, webhook_url spec).

End Client.

End N8n.

(** ** brain.ts, and the webhook of server.ts that asks it *)

(** types.ts: [BrainDecision], with the fields that brain.ts reads. *)
Record BrainDecision := {
  action : string;
  toolName : option string;
  toolArgs : option object;
  response : option string;
  newTool : option ToolSpec;
  escalationReason : option string
}.

(** The [context] argument of [decide]. *)
Record DecideContext := {
  callerPhone : option string;
  channel : option string
}.

(** types.ts: [VapiToolCall] and [VapiToolCallPayload] *)
Record ToolCall := {
  tc_id : string;
  tc_name : string;
  tc_arguments : object
}.

Record ToolCallMessage := {
  tcm_type : string;
  toolCallList : list ToolCall;
  tcm_call : option CallRef
}.

Record ToolCallPayload := { tcp_message : option ToolCallMessage }.

Section Brain.

Context {W : Type}.
Variable E : Ext W.

Record BrainServices := {
  (** [client.messages.create] of brain.ts, by the prompt it is sent *)
  brain_create : string -> W -> Result (list ContentBlock) * W;
  (** [JSON.parse] at type [BrainDecision]; [None] when it throws *)
  decision_parse : string -> option BrainDecision;
  (** [JSON.stringify] on the arguments of a tool call *)
  JSON_stringify : object -> string
}.

Variable B : BrainServices.

Definition tool_line (t : RegisteredTool W) : string :=
  "- " ++ name t ++ ": " ++ description t ++ " [params: "
  ++ join ", " (map fst (properties (parameters t))) ++ "]"
  ++ (if isDynamic t then " (self-created)" else "").

Definition buildToolContext : M (State W) string :=
  tools <- getAllTools ;;
  ret (match tools with
       | [] => "No tools available."
       | _ :: _ => join nl (map tool_line tools)
       end).

(** The prompt of [decide]. *)
Definition decide_prompt (toolContext userMessage : string)
  (context : option DecideContext) : string :=
  let channel0 := match context with Some c => channel c | None => None end in
  let callerPhone0 := match context with Some c => callerPhone c | None => None end in
  "Available tools:" ++ nl ++ toolContext ++ nl ++ nl ++ "Channel: "
  ++ (if truthy_ostr channel0 then show_ostr channel0 else "unknown")
  ++ (if truthy_ostr callerPhone0 then nl ++ "Caller: " ++ show_ostr callerPhone0
      else "")
  ++ nl ++ nl ++ "User request: " ++ userMessage.

(** [decision.toolArgs || {}] *)
Definition args_of (decision : BrainDecision) : object :=
  match toolArgs decision with Some a => a | None => [] end.

Definition executeDecision (decision : BrainDecision) : M (State W) string :=
  if String.eqb (action decision) "execute_tool" then
    tool <- match toolName decision with
            | Some n => getTool n
            | None => ret None
            end ;;
    match tool with
    | None =>
        ret ("Tool " ++ dq ++ show_ostr (toolName decision) ++ dq
             ++ " not found. Something went wrong.")
    | Some t => remote (handler t (args_of decision))
    end
  else if String.eqb (action decision) "create_tool" then
    match newTool decision with
    | None => ret "No tool specification provided."
    | Some spec =>
        created <- createAndRegisterTool E spec ;;
        remote (handler created (args_of decision))
    end
  else if String.eqb (action decision) "escalate" then
    notifyOperator E ("ESCALATION: " ++ show_ostr (escalationReason decision)) ;;;
    ret ("I've escalated this to our operations team: "
         ++ show_ostr (escalationReason decision)
         ++ ". They'll follow up shortly.")
  else if String.eqb (action decision) "respond" then
    ret (if truthy_ostr (response decision) then show_ostr (response decision)
         else "I'm here to help with your logistics needs.")
  else ret "I didn't understand that. Could you rephrase?".

(** The decision that stands for a reply that does not parse. *)
Definition respond_with (text : string) : BrainDecision :=
  {| action := "respond"; toolName := None; toolArgs := None;
     response := Some text; newTool := None; escalationReason := None |}.

(** [decide]: [(decision, result)]. *)
Definition decide (userMessage : string) (context : option DecideContext)
  : M (State W) (BrainDecision * string) :=
  toolContext <- buildToolContext ;;
  content <- remote (brain_create B (decide_prompt toolContext userMessage context)) ;;
  match content with
  | [] => throw "Cannot read properties of undefined (reading 'type')"
  | block :: _ =>
      let text := block_text block in
      match decision_parse B (clean text) with
      | None => ret (respond_with text, text)
      | Some decision =>
          result <- executeDecision decision ;;
          ret (decision, result)
      end
  end.

(** [payload.message.call?.customer?.number] *)
Definition caller_of (m : ToolCallMessage) : option string :=
  match tcm_call m with
  | Some c => match customer c with Some cu => number cu | None => None end
  | None => None
  end.

(** One turn of the loop over [toolCallList]: [(toolCallId, result)]. *)
Definition tool_call_result (m : ToolCallMessage) (toolCall : ToolCall)
  : M (State W) (string * string) :=
  tool <- getTool (tc_name toolCall) ;;
  match tool with
  | Some t =>
      try_catch
        (result <- remote (handler t (tc_arguments toolCall)) ;;
         ret (tc_id toolCall, result))
        (fun msg =>
           ret (tc_id toolCall,
                "Error executing " ++ tc_name toolCall ++ ": " ++ msg))
  | None =>
      d <- decide ("Tool " ++ dq ++ tc_name toolCall ++ dq ++ " was called with "
                   ++ JSON_stringify B (tc_arguments toolCall)
                   ++ " but doesn't exist. Handle this request.")
                  (Some {| callerPhone := caller_of m; channel := Some "vapi" |}) ;;
      ret (tc_id toolCall,
           if truthy_str (snd d) then snd d else "Unable to process")
  end.

(** [for (const toolCall of list) results.push(await f(toolCall))] *)
Fixpoint collect {A R} (f : A -> M (State W) R) (xs : list A)
  : M (State W) (list R) :=
  match xs with
  | [] => ret []
  | x :: xs' => y <- f x ;; ys <- collect f xs' ;; ret (y :: ys)
  end.

(** The handler of POST /vapi/tool-calls. *)
Definition tool_calls (payload : ToolCallPayload)
  : M (State W) (Reply (list (string * string))) :=
  match tcp_message payload with
  | Some m =>
      if String.eqb (tcm_type m) "tool-calls" then
        results <- collect (tool_call_result m) (toolCallList m) ;;
        ret (JsonReply results)
      else ret (ErrorReply 400 "Expected tool-calls message type")
  | None => ret (ErrorReply 400 "Expected tool-calls message type")
  end.

End Brain.

Arguments BrainServices : clear implicits.

(** ** A closed world to run the backend in

    A small stand-in for the external services, used to run the functions
    above on concrete inputs. Vapi holds one assistant and a list of calls;
    its PATCH replaces the top-level fields it is given (vapi.ts, earlier
    revision: "PATCH replaces entire model object"). *)

Module Fixture.

Record sim := {
  profile : option json;
  calls : list (string * json);
  reply : list ContentBlock;
  invoked : list (string * object);
  outbox : list (string * string)
}.

Definition with_profile (p : json) (w : sim) : sim :=
  {| profile := Some p; calls := calls w; reply := reply w;
     invoked := invoked w; outbox := outbox w |}.

Definition show_method (m : Method) : string :=
  match m with GET => "GET" | POST => "POST" | PATCH => "PATCH" end.

Definition failed (m : Method) (path reason : string) : string :=
  "Vapi " ++ show_method m ++ " " ++ path ++ " failed " ++ reason.

Definition vapi (path : string) (m : Method) (body : option json) (w : sim)
  : Result json * sim :=
  if starts_with "/assistant/" path then
    match profile w, m with
    | Some p, GET => (Ok p, w)
    | Some p, PATCH =>
        let p' := JObj (obj_assign (spread (Some p)) (spread body)) in
        (Ok p', with_profile p' w)
    | _, _ => (Throw (failed m path "(503): unavailable"), w)
    end
  else if String.eqb path "/call/phone" then
    (Ok (JObj [("id", JStr "callback-1")]), w)
  else if starts_with "/call/" path then
    match obj_get (substring 6 (String.length path - 6) path) (calls w) with
    | Some c => (Ok c, w)
    | None => (Throw (failed m path "(404): not found"), w)
    end
  else if String.eqb path "/tool" then
    match profile w with
    | Some _ => (Ok (JObj [("id", JStr "tool-1")]), w)
    | None => (Throw (failed m path "(503): unavailable"), w)
    end
  else (Throw (failed m path "(404): not found"), w).

Definition whapi (to body : string) (w : sim) : Result WhapiReply * sim :=
  (Ok (WhapiBody (JObj [("sent", JBool true)])),
   {| profile := profile w; calls := calls w; reply := reply w;
      invoked := invoked w; outbox := (outbox w ++ [(to, body)])%list |}).

(** A compiled handler records its call; source that starts with "throw"
    throws when run, source that starts with "return" or "const" returns,
    anything else does not compile. *)
Definition run_handler (code : string) (res : Result string)
  : ToolHandler sim :=
  fun args w =>
    (res, {| profile := profile w; calls := calls w; reply := reply w;
             invoked := (invoked w ++ [(code, args)])%list;
             outbox := outbox w |}).

Definition compile (code : string) : Result (ToolHandler sim) :=
  if starts_with "throw" code then Ok (run_handler code (Throw "boom"))
  else if starts_with "return" code || starts_with "const" code
       then Ok (run_handler code (Ok "done"))
  else Throw "Unexpected identifier".

Definition ext (envf : string -> option string)
  (parse : string -> option AnalysisResult) : Ext sim :=
  {| env := envf;
     now := fun _ => "2026-02-01T00:00:00.000Z";
     vapiRequest := vapi;
     whapi_send_text := whapi;
     messages_create := fun _ w => (Ok (reply w), w);
     JSON_parse := parse;
     new_Function := compile;
     listWorkflows := fun w => (Ok [], w);
     getWorkflow := fun _ w => (Throw "not found", w);
     createCustomWorkflow :=
       fun wf w => (Ok ("wf-1", "https://n8n.test/webhook/" ++ wf_webhookPath wf), w);
     sleep := fun _ w => w;
     seed_handler := fun _ _ w => (Ok "seed", w) |}.

(** A live assistant with settings beside the ones the pipeline tunes. *)
Definition live_model : object :=
  [("provider", JStr "anthropic");
   ("model", JStr "claude-sonnet-4-5-20250929");
   ("temperature", JNum (7 # 10));
   ("messages", JArr [JObj [("role", JStr "system");
                            ("content", JStr "You are a logistics assistant.")]]);
   ("maxTokens", JNum 250%Q)].

Definition live_profile : json :=
  JObj [("id", JStr "asst-1");
        ("name", JStr "Ruya Logistics");
        ("model", JObj live_model);
        ("voice", JObj [("provider", JStr "11labs");
                        ("voiceId", JStr "kdmDKE6EkgrWrrykO9Qt")]);
        ("firstMessage", JStr "Hello, this is Ruya Logistics.");
        ("serverUrl", JStr "https://ruya.test/vapi/server-message");
        ("silenceTimeoutSeconds", JNum 10%Q)].

Definition call_1 : json :=
  JObj [("id", JStr "call-1");
        ("status", JStr "ended");
        ("transcript", JStr "AI: Hello. User: Send me a WhatsApp update. AI: I cannot.");
        ("endedReason", JStr "customer-ended-call")].

Definition no_env : string -> option string := fun _ => None.

(** The environment of a deployment: operator, assistant and n8n set. *)
Definition full_env (k : string) : option string :=
  if String.eqb k "OPERATOR_PHONE" then Some "971500000000"
  else if String.eqb k "VAPI_ASSISTANT_ID" then Some "asst-1"
  else if String.eqb k "SERVER_URL" then Some "https://ruya.test"
  else if String.eqb k "N8N_API_URL" then Some "https://n8n.test/api/v1"
  else if String.eqb k "N8N_API_KEY" then Some "key"
  else None.

Definition string_prop : PropSpec := {| ptype := "string"; pdescription := "text" |}.
Definition number_prop : PropSpec := {| ptype := "number"; pdescription := "count" |}.

Definition tool_lookup : ToolSpec :=
  {| ts_name := "lookup_eta";
     ts_description := "Look up the ETA of a container";
     ts_parameters := {| properties := [("container", string_prop);
                                        ("days", number_prop)];
                         required := Some ["container"] |};
     ts_handlerCode := "return 'ETA 2 hours'" |}.

Definition tool_broken : ToolSpec :=
  {| ts_name := "send_sms";
     ts_description := "Send an SMS";
     ts_parameters := {| properties := [("to", string_prop)];
                         required := Some ["to"] |};
     ts_handlerCode := "retrun 'sent'" |}.

Definition tool_throwing : ToolSpec :=
  {| ts_name := "track_vessel";
     ts_description := "Track a vessel";
     ts_parameters := {| properties := [("imo", number_prop)];
                         required := Some ["imo"] |};
     ts_handlerCode := "throw new Error('boom')" |}.

Definition whatsapp_workflow : WorkflowSpec :=
  {| wf_name := "Send Customer WhatsApp";
     wf_webhookPath := "send-customer-whatsapp";
     wf_steps := [{| step_name := "Send via Whapi";
                     step_method := "POST";
                     step_url := "https://gate.whapi.cloud/messages/text";
                     step_headers := None;
                     step_bodyTemplate := "={}" |}] |}.

Definition analysis_of (tools : option (list ToolSpec))
  (workflows : option (list WorkflowSpec)) : AnalysisResult :=
  {| failures := ["Agent could not send a WhatsApp update"];
     changes := ["Raised maxTokens"];
     configChanges := [("maxTokens", JNum 500%Q)];
     newTools := tools;
     newWorkflows := workflows;
     resourceRequests := None |}.

(** The replies the stand-in for [JSON.parse] decodes, by their text once
    cleaned; any other text fails to parse. *)
Definition parse (text : string) : option AnalysisResult :=
  if String.eqb text "{two tools}" then
    Some (analysis_of (Some [tool_broken; tool_lookup]) None)
  else if String.eqb text "{throwing tool}" then
    Some (analysis_of (Some [tool_throwing]) None)
  else if String.eqb text "{whatsapp workflow}" then
    Some (analysis_of None (Some [whatsapp_workflow]))
  else None.

Definition world_with (p : option json) (answer : string) : sim :=
  {| profile := p;
     calls := [("call-1", call_1)];
     reply := [TextBlock answer];
     invoked := [];
     outbox := [] |}.

(** The process right after tools.ts is loaded. *)
Definition boot (E : Ext sim) (w : sim) : State sim :=
  snd (seedTools E {| world := w; registry := []; history := [] |}).

End Fixture.


(** * Properties *)

Open Scope list_scope.

(** ** The JS map *)

Module JsMapFacts.
Import JsMap.
Section Facts.
Context {V : Type}.
Implicit Types (m : JsMap.t V) (k : string) (v : V).

Lemma get_set_same k v m : get k (set k v m) = Some v.
Proof.
  induction m as [|[k' v'] m IH]; simpl.
  - now rewrite String.eqb_refl.
  - destruct (String.eqb k k') eqn:Hk; simpl.
    + now rewrite String.eqb_refl.
    + now rewrite Hk.
Qed.

Lemma get_set_other k k' v m : k' <> k -> get k' (set k v m) = get k' m.
Proof.
  intros Hne. induction m as [|[k0 v0] m IH]; simpl.
  - apply String.eqb_neq in Hne. now rewrite Hne.
  - destruct (String.eqb k k0) eqn:Hk; simpl.
    + apply String.eqb_eq in Hk. subst k0.
      apply String.eqb_neq in Hne. now rewrite Hne.
    + now rewrite IH.
Qed.

Lemma keys_set_present k v v0 m :
  get k m = Some v0 -> keys (set k v m) = keys m.
Proof.
  unfold keys. induction m as [|[k' v'] m IH]; simpl; [discriminate|].
  destruct (String.eqb k k') eqn:Hk; simpl; intros H.
  - apply String.eqb_eq in Hk. now subst.
  - now rewrite IH.
Qed.

Lemma get_None_not_key k m : get k m = None <-> ~ In k (keys m).
Proof.
  unfold keys. induction m as [|[k' v'] m IH]; simpl.
  - tauto.
  - destruct (String.eqb k k') eqn:Hk.
    + apply String.eqb_eq in Hk. subst. split; [discriminate|tauto].
    + apply String.eqb_neq in Hk. rewrite IH. split.
      * intros H [H1|H1]; [now subst|tauto].
      * tauto.
Qed.

Lemma get_In k v m : wf m -> (get k m = Some v <-> In (k, v) m).
Proof.
  unfold wf. induction m as [|[k' v'] m IH]; simpl; intros Hwf.
  - split; [discriminate|tauto].
  - inversion Hwf as [|? ? Hnotin Hwf']; subst.
    destruct (String.eqb k k') eqn:Hk.
    + apply String.eqb_eq in Hk. subst k'. split.
      * intros [= ->]. now left.
      * intros [[= ->]|Hin]; [reflexivity|].
        exfalso. apply Hnotin. now apply (in_map fst) in Hin.
    + apply String.eqb_neq in Hk. rewrite (IH Hwf'). split.
      * now right.
      * intros [[= -> ->]|Hin]; [now elim Hk|assumption].
Qed.

Lemma wf_filter (f : string * V -> bool) m : wf m -> wf (filter f m).
Proof.
  unfold wf. induction m as [|e m IH]; simpl; intros Hwf; [constructor|].
  inversion Hwf as [|? ? Hnotin Hwf']; subst.
  destruct (f e); simpl; [|now apply IH].
  constructor; [|now apply IH].
  intros Hin. apply Hnotin.
  apply in_map_iff in Hin as [x [Hx Hin]].
  apply filter_In in Hin as [Hin _].
  rewrite <- Hx. now apply in_map.
Qed.

Lemma delete_middle k v (done rest : JsMap.t V) :
  ~ In k (keys done) -> delete k (done ++ (k, v) :: rest) = (done ++ rest)%list.
Proof.
  unfold keys. induction done as [|[k' v'] done IH]; simpl; intros Hnotin.
  - now rewrite String.eqb_refl.
  - destruct (String.eqb k k') eqn:Hk.
    + apply String.eqb_eq in Hk. subst. tauto.
    + rewrite IH; tauto.
Qed.
End Facts.
End JsMapFacts.

(** ** The monad *)

Section MonadFacts.
Context {S A B : Type}.

Lemma bind_Ok (m : M S A) (k : A -> M S B) s a s' :
  m s = (Ok a, s') -> bind m k s = k a s'.
Proof. unfold bind. now intros ->. Qed.

Lemma bind_Throw (m : M S A) (k : A -> M S B) s e s' :
  m s = (Throw e, s') -> bind m k s = (Throw e, s').
Proof. unfold bind. now intros ->. Qed.

Lemma try_catch_Ok (m : M S A) h s a s' :
  m s = (Ok a, s') -> try_catch m h s = (Ok a, s').
Proof. unfold try_catch. now intros ->. Qed.

Lemma try_catch_Throw (m : M S A) h s e s' :
  m s = (Throw e, s') -> try_catch m h s = h e s'.
Proof. unfold try_catch. now intros ->. Qed.
End MonadFacts.

Section Properties.

Context {W : Type}.
Variable E : Ext W.

(** The operator channel does not throw: [OPERATOR_PHONE] is unset, or the
    request to Whapi gets an answer. *)
Definition operator_reachable : Prop :=
  forall msg (s : State W), exists s', notifyOperator E msg s = (Ok tt, s').

(** *** What a step of the process leaves alone *)

(** [m] touches the outside world only. *)
Definition external {A} (m : M (State W) A) : Prop :=
  forall s, registry (snd (m s)) = registry s /\ history (snd (m s)) = history s.

(** [m] leaves the history alone. *)
Definition keeps_history {A} (m : M (State W) A) : Prop :=
  forall s, history (snd (m s)) = history s.

Lemma external_keeps_history {A} (m : M (State W) A) :
  external m -> keeps_history m.
Proof. intros H s. apply H. Qed.

Lemma external_ret {A} (a : A) : external (ret a).
Proof. now intros s. Qed.

Lemma external_throw {A} e : external (@throw (State W) A e).
Proof. now intros s. Qed.

Lemma external_remote {A} (f : W -> Result A * W) : external (remote f).
Proof. intros s. unfold remote. now destruct (f (world s)). Qed.

Lemma external_bind {A B} (m : M (State W) A) (k : A -> M (State W) B) :
  external m -> (forall a, external (k a)) -> external (bind m k).
Proof.
  intros Hm Hk s. unfold bind. specialize (Hm s).
  destruct (m s) as [[a|e] s1]; simpl in *; [|assumption].
  specialize (Hk a s1). destruct Hm as [<- <-]. exact Hk.
Qed.

Lemma external_try_catch {A} (m : M (State W) A) h :
  external m -> (forall e, external (h e)) -> external (try_catch m h).
Proof.
  intros Hm Hh s. unfold try_catch. specialize (Hm s).
  destruct (m s) as [[a|e] s1]; simpl in *; [assumption|].
  specialize (Hh e s1). destruct Hm as [<- <-]. exact Hh.
Qed.

Lemma keeps_history_bind {A B} (m : M (State W) A) (k : A -> M (State W) B) :
  keeps_history m -> (forall a, keeps_history (k a)) -> keeps_history (bind m k).
Proof.
  intros Hm Hk s. unfold bind. specialize (Hm s).
  destruct (m s) as [[a|e] s1]; simpl in *; [|assumption].
  rewrite <- Hm. apply Hk.
Qed.

Lemma external_map_all {A B} (f : A -> M (State W) B) xs :
  (forall x, external (f x)) -> external (map_all f xs).
Proof.
  intros Hf. induction xs as [|x xs IH]; simpl.
  - apply external_ret.
  - apply external_bind; [apply Hf|]. intros y.
    apply external_bind; [apply IH|]. intros ys. apply external_ret.
Qed.

(** Goals [external m] by the shape of [m]. *)
Ltac external_step :=
  lazymatch goal with
  | |- external (bind _ _) => apply external_bind; [|intros ?]
  | |- external (try_catch _ _) => apply external_try_catch; [|intros ?]
  | |- external (remote _) => apply external_remote
  | |- external (ret _) => apply external_ret
  | |- external (throw _) => apply external_throw
  | |- external (map_all _ _) => apply external_map_all; intros ?
  | |- external (match ?x with _ => _ end) => destruct x
  | |- external (let _ := _ in _) => cbv zeta
  end.

Ltac external_auto := repeat external_step.

Lemma external_getAssistant a : external (getAssistant E a).
Proof. unfold getAssistant. external_auto. Qed.

Lemma external_getCall c : external (getCall E c).
Proof. unfold getCall. external_auto. Qed.

Lemma external_getCurrentLlmConfig a : external (getCurrentLlmConfig E a).
Proof. unfold getCurrentLlmConfig. external_auto. Qed.

Lemma external_updateAssistant a changes : external (updateAssistant E a changes).
Proof.
  unfold updateAssistant, patch_voice, send_patch. external_auto.
  apply external_getCurrentLlmConfig.
Qed.

Lemma external_createVapiTool n d p u : external (createVapiTool E n d p u).
Proof. unfold createVapiTool. external_auto. Qed.

Lemma external_addToolToAssistant a t : external (addToolToAssistant E a t).
Proof. unfold addToolToAssistant. external_auto. Qed.

Lemma external_createOutboundCall a c p : external (createOutboundCall E a c p).
Proof. unfold createOutboundCall. external_auto. Qed.

Lemma external_sendWhatsApp to body : external (sendWhatsApp E to body).
Proof. unfold sendWhatsApp. external_auto. Qed.

Lemma external_notifyOperator msg : external (notifyOperator E msg).
Proof.
  unfold notifyOperator. external_auto; apply external_sendWhatsApp.
Qed.

Lemma external_existing_workflows : external (existing_workflows E).
Proof. unfold existing_workflows, workflow_detail. external_auto. Qed.

Lemma external_analyzeTranscriptWithRaw t p c tools :
  external (analyzeTranscriptWithRaw E t p c tools).
Proof.
  unfold analyzeTranscriptWithRaw. external_auto.
  apply external_existing_workflows.
Qed.

Lemma external_settle n : external (settle E n).
Proof. now intros s. Qed.

Lemma external_getAllTools : external (@getAllTools W).
Proof. now intros s. Qed.

(** The sync of a new tool to Vapi inside [createAndRegisterTool] never
    throws and touches the outside world only. *)
Definition provider_sync (spec : ToolSpec) : M (State W) unit :=
  match env E "VAPI_ASSISTANT_ID", env E "SERVER_URL" with
  | Some assistantId, Some serverUrl =>
      if truthy_str assistantId && truthy_str serverUrl then
        try_catch
          (toolId <- createVapiTool E (ts_name spec) (ts_description spec)
                       (ts_parameters spec) (serverUrl ++ "/vapi/tool-calls")%string ;;
           addToolToAssistant E assistantId toolId)
          (fun _ => ret tt)
      else ret tt
  | _, _ => ret tt
  end.

Lemma external_provider_sync spec : external (provider_sync spec).
Proof.
  unfold provider_sync. external_auto.
  - apply external_createVapiTool.
  - apply external_addToolToAssistant.
Qed.

Lemma provider_sync_returns spec s :
  exists s', provider_sync spec s = (Ok tt, s').
Proof.
  unfold provider_sync.
  destruct (env E "VAPI_ASSISTANT_ID") as [a|]; [|now eexists].
  destruct (env E "SERVER_URL") as [u|]; [|now eexists].
  destruct (truthy_str a && truthy_str u); [|now eexists].
  unfold try_catch.
  match goal with |- context [match ?m s with _ => _ end] => destruct (m s) as [[[]|e] s1] end;
    now eexists.
Qed.

Lemma createAndRegisterTool_unfold spec :
  createAndRegisterTool E spec =
  (h <- buildHandler E (ts_handlerCode spec) ;;
   t <- clock E ;;
   let tool := {| name := ts_name spec;
                  description := ts_description spec;
                  parameters := ts_parameters spec;
                  handler := h;
                  createdAt := t;
                  isDynamic := true |} in
   registerTool tool ;;;
   provider_sync spec ;;;
   notifyOperator E ("New tool created: " ++ dq ++ ts_name spec ++ dq ++ " — "
                     ++ ts_description spec)%string ;;;
   ret tool).
Proof. reflexivity. Qed.

Lemma keeps_history_createAndRegisterTool spec :
  keeps_history (createAndRegisterTool E spec).
Proof.
  rewrite createAndRegisterTool_unfold.
  apply keeps_history_bind.
  { intros s. unfold buildHandler. now destruct (new_Function E _). }
  intros h. apply keeps_history_bind; [now intros s|]. intros t. cbv zeta.
  apply keeps_history_bind; [now intros s|]. intros _.
  apply external_keeps_history. external_auto.
  - apply external_provider_sync.
  - apply external_notifyOperator.
Qed.

(** ** tools.ts: the registry *)

Definition is_seed (e : string * RegisteredTool W) : bool :=
  negb (isDynamic (snd e)).

Lemma clear_entries_filter (done rest : JsMap.t (RegisteredTool W)) :
  JsMap.wf (done ++ rest) ->
  (forall e, In e done -> is_seed e = true) ->
  clear_entries rest (done ++ rest) = (done ++ filter is_seed rest)%list.
Proof.
  revert done. induction rest as [|[k t] rest IH]; intros done Hwf Hdone.
  - reflexivity.
  - simpl. unfold is_seed at 1. simpl.
    destruct (isDynamic t) eqn:Hdyn; simpl.
    + rewrite JsMapFacts.delete_middle.
      * apply IH; [|assumption].
        unfold JsMap.wf in *. rewrite map_app in *. simpl in Hwf.
        now apply NoDup_remove_1 in Hwf.
      * unfold JsMap.wf in Hwf. rewrite map_app in Hwf. simpl in Hwf.
        apply NoDup_remove_2 in Hwf. unfold JsMap.keys.
        intros Hin. apply Hwf. apply in_or_app. now left.
    + replace (done ++ (k, t) :: rest)%list
        with ((done ++ [(k, t)]) ++ rest)%list by now rewrite <- app_assoc.
      rewrite IH.
      * now rewrite <- app_assoc.
      * now rewrite <- app_assoc.
      * intros e Hin. apply in_app_or in Hin as [Hin|[<-|[]]]; [auto|].
        unfold is_seed. simpl. now rewrite Hdyn.
Qed.

(** C5. Registering a tool under a name that is already in the registry
    overwrites the entry: [registerTool] returns, a following [getTool] of
    the name gives exactly the new definition, the registry has the same
    names as before (no second entry, no version kept), and the other
    names are untouched. *)
Theorem registerTool_last_write_wins (s : State W) (tool old : RegisteredTool W) :
  JsMap.get (name tool) (registry s) = Some old ->
  fst (registerTool tool s) = Ok tt /\
  fst (getTool (name tool) (snd (registerTool tool s))) = Ok (Some tool) /\
  JsMap.keys (registry (snd (registerTool tool s))) = JsMap.keys (registry s) /\
  (forall n, n <> name tool ->
     fst (getTool n (snd (registerTool tool s))) = fst (getTool n s)).
Proof.
  intros Hold. cbn. repeat split.
  - now rewrite JsMapFacts.get_set_same.
  - now apply JsMapFacts.keys_set_present with old.
  - intros n Hn. now rewrite JsMapFacts.get_set_other.
Qed.

(** C6. [clearDynamicTools] leaves in the registry exactly the entries that
    were seed entries before it, in their order: every dynamic entry is
    gone and every seed entry is still there, whatever their numbers. The
    world and the history are not touched. *)
Theorem clearDynamicTools_keeps_exactly_seed (s : State W) :
  JsMap.wf (registry s) ->
  fst (clearDynamicTools s) = Ok tt /\
  registry (snd (clearDynamicTools s)) = filter is_seed (registry s) /\
  (forall n t,
     JsMap.get n (registry (snd (clearDynamicTools s))) = Some t <->
     JsMap.get n (registry s) = Some t /\ isDynamic t = false) /\
  world (snd (clearDynamicTools s)) = world s /\
  history (snd (clearDynamicTools s)) = history s.
Proof.
  intros Hwf. cbn.
  assert (Hclear : clear_entries (registry s) (registry s)
                   = filter is_seed (registry s)).
  { apply (clear_entries_filter [] (registry s)); [assumption|].
    intros e []. }
  rewrite Hclear.
  assert (Hwf' : JsMap.wf (filter is_seed (registry s)))
    by now apply JsMapFacts.wf_filter.
  split; [reflexivity|]. split; [reflexivity|]. split; [|split; reflexivity].
  intros n t. rewrite (JsMapFacts.get_In n t _ Hwf'), filter_In.
  rewrite (JsMapFacts.get_In n t _ Hwf).
  unfold is_seed. simpl. destruct (isDynamic t); simpl; intuition congruence.
Qed.

(** The tool that [createAndRegisterTool] builds from a spec, a compiled
    handler and the time of the call. *)
Definition dynamic_tool (spec : ToolSpec) (h : ToolHandler W) (t : string)
  : RegisteredTool W :=
  {| name := ts_name spec;
     description := ts_description spec;
     parameters := ts_parameters spec;
     handler := h;
     createdAt := t;
     isDynamic := true |}.

Lemma createAndRegisterTool_compiled spec h (s : State W) :
  new_Function E (ts_handlerCode spec) = Ok h ->
  operator_reachable ->
  exists s',
    createAndRegisterTool E spec s
      = (Ok (dynamic_tool spec h (now E (world s))), s') /\
    registry s' = JsMap.set (ts_name spec)
                    (dynamic_tool spec h (now E (world s))) (registry s) /\
    history s' = history s.
Proof.
  intros Hh Hop. rewrite createAndRegisterTool_unfold.
  erewrite bind_Ok; [|unfold buildHandler; now rewrite Hh].
  erewrite bind_Ok; [|reflexivity]. cbv zeta.
  erewrite bind_Ok; [|reflexivity].
  set (s1 := {| world := world s;
                registry := JsMap.set _ _ (registry s);
                history := history s |}).
  destruct (provider_sync_returns spec s1) as [s2 Hs2].
  pose proof (external_provider_sync spec s1) as [Hr2 Hh2].
  rewrite Hs2 in Hr2, Hh2. simpl in Hr2, Hh2.
  erewrite bind_Ok; [|exact Hs2].
  match goal with |- context [notifyOperator E ?msg] =>
    destruct (Hop msg s2) as [s3 Hs3];
    pose proof (external_notifyOperator msg s2) as [Hr3 Hh3] end.
  rewrite Hs3 in Hr3, Hh3. simpl in Hr3, Hh3.
  erewrite bind_Ok; [|exact Hs3].
  exists s3. split; [reflexivity|]. split.
  - rewrite Hr3, Hr2. reflexivity.
  - rewrite Hh3, Hh2. reflexivity.
Qed.

Lemma createAndRegisterTool_not_compiled spec e (s : State W) :
  new_Function E (ts_handlerCode spec) = Throw e ->
  createAndRegisterTool E spec s = (Throw e, s).
Proof.
  intros Hh. rewrite createAndRegisterTool_unfold.
  erewrite bind_Throw; [reflexivity|]. unfold buildHandler. now rewrite Hh.
Qed.

(** C10. For a spec whose handler source compiles, [createAndRegisterTool]
    registers the tool in the local registry and returns it, whatever the
    requests to the voice provider do: no assumption is made on
    [vapiRequest], so creating the tool on the provider or attaching it to
    the assistant may throw. The error is caught inside the function. (The
    operator notice that follows the sync is assumed not to throw.) *)
Theorem createAndRegisterTool_survives_provider_failure
  (spec : ToolSpec) (h : ToolHandler W) (s : State W) :
  new_Function E (ts_handlerCode spec) = Ok h ->
  operator_reachable ->
  exists tool s',
    createAndRegisterTool E spec s = (Ok tool, s') /\
    name tool = ts_name spec /\ handler tool = h /\ isDynamic tool = true /\
    fst (getTool (ts_name spec) s') = Ok (Some tool) /\
    history s' = history s.
Proof.
  intros Hh Hop.
  destruct (createAndRegisterTool_compiled spec h s Hh Hop) as (s' & Hrun & Hreg & Hhist).
  exists (dynamic_tool spec h (now E (world s))), s'.
  repeat split; try assumption. cbn. rewrite Hreg.
  now rewrite JsMapFacts.get_set_same.
Qed.

(** ** self-improve.ts: the reasoning gateway *)

(** C2, as the code has it. When the reasoning service answers and the
    cleaned text of its first block does not parse, [analyzeTranscriptWithRaw]
    returns the fixed result of its [catch] branch: the failures list is the
    single entry "Could not parse analysis output", the changes list is the
    single entry "No changes made — parse error", [configChanges] holds the
    current prompt as [systemMessage] and nothing else, and the tool,
    workflow and resource-request lists are absent, which the pipeline
    reads as empty. Nothing of the reply is decoded in part; the raw text
    is returned beside the result. *)
Theorem parse_failure_gives_fixed_result
  (transcript0 : option string) (currentPrompt : string) (currentConfig : json)
  (existingTools : list (string * string))
  (s s1 : State W) (info : WorkflowsInfo) (block : ContentBlock)
  (rest : list ContentBlock) (w2 : W) :
  existing_workflows E s = (Ok info, s1) ->
  messages_create E
    {| pi_toolList := existingTools;
       pi_existingWorkflows := info;
       pi_currentPrompt := currentPrompt;
       pi_currentConfig := currentConfig;
       pi_transcript := transcript0 |} (world s1)
    = (Ok (block :: rest), w2) ->
  JSON_parse E (clean (block_text block)) = None ->
  exists parsed s2,
    analyzeTranscriptWithRaw E transcript0 currentPrompt currentConfig
      existingTools s = (Ok (parsed, block_text block), s2) /\
    failures parsed = ["Could not parse analysis output"%string] /\
    changes parsed = ["No changes made — parse error"%string] /\
    configChanges parsed = [("systemMessage"%string, JStr currentPrompt)] /\
    newTools parsed = None /\ newWorkflows parsed = None /\
    resourceRequests parsed = None /\
    items (newTools parsed) = [] /\ items (newWorkflows parsed) = [] /\
    items (resourceRequests parsed) = [].
Proof.
  intros Hwf Hreply Hparse.
  exists (parse_error_result currentPrompt).
  unfold analyzeTranscriptWithRaw.
  erewrite bind_Ok; [|exact Hwf].
  erewrite bind_Ok; [|unfold remote; rewrite Hreply; reflexivity].
  cbv zeta iota. rewrite Hparse. eexists. repeat split.
Qed.

(** ** server.ts: the end-of-call webhook *)

Lemma includes_In xs x : includes xs x = true <-> In x xs.
Proof.
  unfold includes. rewrite existsb_exists. split.
  - intros [y [Hin Heq]]. apply String.eqb_eq in Heq. now subst.
  - intros Hin. exists x. split; [assumption|apply String.eqb_refl].
Qed.

Lemma truthy_str_nonempty x : truthy_str x = true <-> x <> EmptyString.
Proof. destruct x; simpl; split; congruence. Qed.

Definition ack : json := JObj [("ok"%string, JBool true)].

Lemma pipeline_trigger_report (payload : Payload) (m : ServerMessage) :
  message payload = Some m ->
  type m = "end-of-call-report"%string ->
  pipeline_trigger E payload =
  match call_id m, resolved_assistantId E m with
  | Some c, Some a =>
      if truthy_str c && truthy_str a && shouldImprove m
      then Some (c, a, customer_number m)
      else None
  | _, _ => None
  end.
Proof.
  intros Hm Hty. unfold pipeline_trigger. now rewrite Hm, Hty.
Qed.

(** What the handler does with a report whose pipeline run it starts: the
    run is taken to its end, its result or error is dropped, and the
    process is left as the run leaves it. *)
Lemma server_message_runs (payload : Payload) c a n (s : State W) :
  pipeline_trigger E payload = Some (c, a, n) ->
  server_message E payload s = (Ok ack, snd (analyzeAndImprove E c a n s)).
Proof.
  intros Htrig. unfold server_message. rewrite Htrig.
  unfold bind, try_catch, ret.
  destruct (analyzeAndImprove E c a n s) as [[rec|e] s']; reflexivity.
Qed.

(** C8. For an end-of-call report, the handler starts a pipeline run if and
    only if the report carries a call id, an assistant id can be resolved
    (from the report or from the environment), and the end reason is one of
    customer-ended-call, customer-did-not-answer, customer-busy. When the
    three hold, the handler runs [analyzeAndImprove] on that call id, that
    assistant id and the customer number of the report, and leaves the
    process as that run leaves it; when one of them fails, the process is
    left exactly as it was, so no run occurs and no record is appended.
    The webhook is always acknowledged with [{ ok: true }]. *)
Theorem webhook_triggers_iff_bad_ending
  (payload : Payload) (m : ServerMessage) (s : State W) :
  message payload = Some m ->
  type m = "end-of-call-report"%string ->
  (pipeline_trigger E payload <> None <->
     (exists c, call_id m = Some c /\ c <> EmptyString) /\
     (exists a, resolved_assistantId E m = Some a /\ a <> EmptyString) /\
     (exists r, endedReason m = Some r /\ In r badEndings)) /\
  (forall c a n, pipeline_trigger E payload = Some (c, a, n) ->
     call_id m = Some c /\ resolved_assistantId E m = Some a /\
     n = customer_number m) /\
  (pipeline_trigger E payload = None ->
     server_message E payload s = (Ok ack, s)) /\
  fst (server_message E payload s) = Ok ack /\
  (forall c a n, pipeline_trigger E payload = Some (c, a, n) ->
     server_message E payload s
     = (Ok ack, snd (analyzeAndImprove E c a n s))) /\
  (forall c a r,
     call_id m = Some c -> c <> EmptyString ->
     resolved_assistantId E m = Some a -> a <> EmptyString ->
     endedReason m = Some r -> In r badEndings ->
     server_message E payload s
     = (Ok ack, snd (analyzeAndImprove E c a (customer_number m) s))) /\
  (~ ((exists c, call_id m = Some c /\ c <> EmptyString) /\
      (exists a, resolved_assistantId E m = Some a /\ a <> EmptyString) /\
      (exists r, endedReason m = Some r /\ In r badEndings)) ->
   server_message E payload s = (Ok ack, s)).
Proof.
  intros Hm Hty.
  assert (Hiff :
    pipeline_trigger E payload <> None <->
      (exists c, call_id m = Some c /\ c <> EmptyString) /\
      (exists a, resolved_assistantId E m = Some a /\ a <> EmptyString) /\
      (exists r, endedReason m = Some r /\ In r badEndings)).
  { rewrite (pipeline_trigger_report payload m Hm Hty). split.
    + intros H.
      destruct (call_id m) as [c|]; [|congruence].
      destruct (resolved_assistantId E m) as [a|]; [|congruence].
      destruct (truthy_str c) eqn:Hc; [|simpl in H; congruence].
      destruct (truthy_str a) eqn:Ha; [|simpl in H; congruence].
      unfold shouldImprove in H.
      destruct (endedReason m) as [r|]; [|simpl in H; congruence].
      destruct (includes badEndings r) eqn:Hin;
        [|rewrite andb_false_r in H; simpl in H; congruence].
      split; [|split].
      * exists c. split; [reflexivity|]. now apply truthy_str_nonempty.
      * exists a. split; [reflexivity|]. now apply truthy_str_nonempty.
      * exists r. split; [reflexivity|]. now apply includes_In.
    + intros ((c & -> & Hc) & (a & -> & Ha) & (r & Hr & Hin)).
      unfold shouldImprove. rewrite Hr.
      assert (Hrt : truthy_str r = true).
      { apply truthy_str_nonempty. intros ->.
        simpl in Hin. intuition discriminate. }
      apply truthy_str_nonempty in Hc, Ha. apply includes_In in Hin.
      rewrite Hc, Ha, Hin, Hrt. simpl. discriminate. }
  assert (Hargs : forall c a n, pipeline_trigger E payload = Some (c, a, n) ->
            call_id m = Some c /\ resolved_assistantId E m = Some a /\
            n = customer_number m).
  { intros c a n. rewrite (pipeline_trigger_report payload m Hm Hty).
    destruct (call_id m) as [c'|]; [|discriminate].
    destruct (resolved_assistantId E m) as [a'|]; [|discriminate].
    destruct (truthy_str c' && truthy_str a' && shouldImprove m); [|discriminate].
    intros [= -> -> <-]. repeat split. }
  assert (Hnone : pipeline_trigger E payload = None ->
                  server_message E payload s = (Ok ack, s)).
  { intros Hnone. unfold server_message. rewrite Hnone. reflexivity. }
  split; [exact Hiff|]. split; [exact Hargs|]. split; [exact Hnone|].
  split; [|split; [|split]].
  - unfold server_message.
    destruct (pipeline_trigger E payload) as [[[c a] n]|]; [|reflexivity].
    unfold bind, try_catch, ret.
    destruct (analyzeAndImprove E c a n s) as [[rec|e] s']; reflexivity.
  - intros c a n. apply server_message_runs.
  - intros c a r Hc Hcne Ha Hane Hr Hin.
    destruct (pipeline_trigger E payload) as [[[c' a'] n']|] eqn:Htrig.
    + destruct (Hargs c' a' n' eq_refl) as (Hc' & Ha' & ->).
      rewrite Hc in Hc'. rewrite Ha in Ha'.
      injection Hc' as <-. injection Ha' as <-.
      now apply server_message_runs.
    + exfalso. apply (proj2 Hiff); [|reflexivity].
      split; [now exists c|]. split; [now exists a|now exists r].
  - intros Hnot. apply Hnone.
    destruct (pipeline_trigger E payload) as [t|] eqn:Htrig; [|reflexivity].
    exfalso. apply Hnot, Hiff. discriminate.
Qed.

(** ** self-improve.ts: what a step of a run leaves alone *)

Definition prefix_of {A} (l l' : list A) : Prop := exists t, l' = l ++ t.

Lemma prefix_of_refl {A} (l : list A) : prefix_of l l.
Proof. exists []. now rewrite app_nil_r. Qed.

Lemma prefix_of_trans {A} (l1 l2 l3 : list A) :
  prefix_of l1 l2 -> prefix_of l2 l3 -> prefix_of l1 l3.
Proof. intros [t ->] [u ->]. exists (t ++ u). now rewrite app_assoc. Qed.

Lemma prefix_of_In {A} (l l' : list A) x : prefix_of l l' -> In x l -> In x l'.
Proof. intros [t ->] H. apply in_or_app. now left. Qed.

Lemma length_update_nth {A} n (f : A -> A) l :
  List.length (update_nth n f l) = List.length l.
Proof.
  revert n. induction l as [|x l IH]; intros [|n]; simpl; auto.
Qed.

Lemma nth_error_update_nth {A} n (f : A -> A) l :
  nth_error (update_nth n f l) n = option_map f (nth_error l n).
Proof.
  revert n. induction l as [|x l IH]; intros [|n]; simpl; auto.
Qed.

Lemma firstn_update_nth {A} n (f : A -> A) l :
  firstn n (update_nth n f l) = firstn n l.
Proof.
  revert n. induction l as [|x l IH]; intros [|n]; simpl; auto.
  now rewrite IH.
Qed.

(** How a run state may change in one step, before and after the record
    of the run is pushed: the log and [toolsCreated] only grow; before the
    push the history is not touched; after it, the history keeps its
    length and its earlier records, and the record of the run keeps its
    [toolsCreated] and holds the log of the run. *)
Definition evolves (r r' : Run W) : Prop :=
  run_record r' = run_record r /\
  prefix_of (run_log r) (run_log r') /\
  prefix_of (run_toolsCreated r) (run_toolsCreated r') /\
  match run_record r with
  | None => history (proc r') = history (proc r)
  | Some i =>
      List.length (history (proc r')) = List.length (history (proc r)) /\
      firstn i (history (proc r')) = firstn i (history (proc r)) /\
      forall rec,
        nth_error (history (proc r)) i = Some rec ->
        pipelineLog rec = run_log r ->
        exists rec',
          nth_error (history (proc r')) i = Some rec' /\
          pipelineLog rec' = run_log r' /\
          toolsCreated rec' = toolsCreated rec
  end.

Lemma evolves_refl r : evolves r r.
Proof.
  repeat split; try apply prefix_of_refl.
  destruct (run_record r); [|reflexivity].
  repeat split. intros rec H1 H2. now exists rec.
Qed.

Lemma evolves_trans r1 r2 r3 : evolves r1 r2 -> evolves r2 r3 -> evolves r1 r3.
Proof.
  intros (Hr & Hl & Ht & H12) (Hr' & Hl' & Ht' & H23).
  rewrite Hr in H23.
  split; [congruence|]. split; [eapply prefix_of_trans; eauto|].
  split; [eapply prefix_of_trans; eauto|].
  destruct (run_record r1) as [i|]; [|congruence].
  destruct H12 as (Hlen & Hfst & Hrec). destruct H23 as (Hlen' & Hfst' & Hrec').
  split; [congruence|]. split; [congruence|].
  intros rec H1 H2.
  destruct (Hrec rec H1 H2) as (rec2 & Hn2 & Hp2 & Ht2).
  destruct (Hrec' rec2 Hn2 Hp2) as (rec3 & Hn3 & Hp3 & Ht3).
  exists rec3. repeat split; congruence.
Qed.

(** Every step of [m] is an evolution of the run. *)
Definition steps {A} (m : M (Run W) A) : Prop :=
  forall r, evolves r (snd (m r)).

(** [m] never throws. *)
Definition total {S A} (m : M S A) : Prop :=
  forall s, exists a, fst (m s) = Ok a.

Lemma steps_ret {A} (a : A) : steps (ret a).
Proof. intros r. apply evolves_refl. Qed.

Lemma steps_throw {A} e : steps (@throw (Run W) A e).
Proof. intros r. apply evolves_refl. Qed.

Lemma steps_get_run : steps (@get_run W).
Proof. intros r. apply evolves_refl. Qed.

Lemma steps_bind {A B} (m : M (Run W) A) (k : A -> M (Run W) B) :
  steps m -> (forall a, steps (k a)) -> steps (bind m k).
Proof.
  intros Hm Hk r. unfold bind. specialize (Hm r).
  destruct (m r) as [[a|e] r1]; simpl in *; [|assumption].
  eapply evolves_trans; [exact Hm|apply Hk].
Qed.

Lemma steps_try_catch {A} (m : M (Run W) A) h :
  steps m -> (forall e, steps (h e)) -> steps (try_catch m h).
Proof.
  intros Hm Hh r. unfold try_catch. specialize (Hm r).
  destruct (m r) as [[a|e] r1]; simpl in *; [assumption|].
  eapply evolves_trans; [exact Hm|apply Hh].
Qed.

Lemma steps_for_each {A} (f : A -> M (Run W) unit) xs :
  (forall x, steps (f x)) -> steps (for_each f xs).
Proof.
  intros Hf. induction xs as [|x xs IH]; simpl.
  - apply steps_ret.
  - apply steps_bind; [apply Hf|]. intros _. apply IH.
Qed.

Lemma steps_inproc {A} (m : M (State W) A) :
  keeps_history m -> steps (inproc m).
Proof.
  intros Hm r. unfold inproc. specialize (Hm (proc r)).
  destruct (m (proc r)) as [a s1]. simpl in *.
  split; [reflexivity|]. split; [apply prefix_of_refl|].
  split; [apply prefix_of_refl|].
  destruct (run_record r); [|assumption]. simpl.
  rewrite Hm. repeat split. intros rec H1 H2. now exists rec.
Qed.

Lemma steps_logStep stp st d : steps (logStep E stp st d).
Proof.
  intros r. unfold logStep. simpl.
  split; [reflexivity|]. split; [now eexists|]. split; [apply prefix_of_refl|].
  destruct (run_record r) as [i|]; simpl; [|reflexivity].
  split; [apply length_update_nth|]. split; [apply firstn_update_nth|].
  intros rec H1 H2. rewrite nth_error_update_nth, H1. simpl.
  eexists. repeat split.
Qed.

Lemma steps_mark_callback : steps (@mark_callback W).
Proof.
  intros r. unfold mark_callback. simpl.
  split; [reflexivity|]. split; [apply prefix_of_refl|].
  split; [apply prefix_of_refl|].
  destruct (run_record r) as [i|]; simpl; [|reflexivity].
  split; [apply length_update_nth|]. split; [apply firstn_update_nth|].
  intros rec H1 H2. rewrite nth_error_update_nth, H1. simpl.
  eexists. repeat split. assumption.
Qed.

Lemma steps_push_toolsCreated n : steps (@push_toolsCreated W n).
Proof.
  intros r. unfold push_toolsCreated. simpl.
  split; [reflexivity|]. split; [apply prefix_of_refl|]. split; [now eexists|].
  destruct (run_record r); [|reflexivity].
  repeat split. intros rec H1 H2. now exists rec.
Qed.

Lemma steps_push_workflowsCreated x : steps (@push_workflowsCreated W x).
Proof.
  intros r. unfold push_workflowsCreated. simpl.
  split; [reflexivity|]. split; [apply prefix_of_refl|].
  split; [apply prefix_of_refl|].
  destruct (run_record r); [|reflexivity].
  repeat split. intros rec H1 H2. now exists rec.
Qed.

Lemma total_ret {S A} (a : A) : total (@ret S A a).
Proof. intros s. now exists a. Qed.

Lemma total_bind {S A B} (m : M S A) (k : A -> M S B) :
  total m -> (forall a, total (k a)) -> total (bind m k).
Proof.
  intros Hm Hk s. unfold bind. destruct (Hm s) as [a Ha].
  destruct (m s) as [[a'|e] s1]; simpl in Ha; [|discriminate].
  apply Hk.
Qed.

Lemma total_try_catch {S A} (m : M S A) h :
  (forall e, total (h e)) -> total (try_catch m h).
Proof.
  intros Hh s. unfold try_catch.
  destruct (m s) as [[a|e] s1]; [now exists a|apply Hh].
Qed.

Lemma total_for_each {S A} (f : A -> M S unit) xs :
  (forall x, total (f x)) -> total (for_each f xs).
Proof.
  intros Hf. induction xs as [|x xs IH]; simpl.
  - apply total_ret.
  - apply total_bind; [apply Hf|]. intros _. apply IH.
Qed.

Lemma total_inproc {A} (m : M (State W) A) : total m -> total (inproc m).
Proof.
  intros Hm r. unfold inproc. destruct (Hm (proc r)) as [a Ha].
  destruct (m (proc r)) as [a' s1]. simpl in *. now exists a.
Qed.

Lemma total_logStep stp st d : total (logStep E stp st d).
Proof. intros r. now exists tt. Qed.

Lemma total_notifyOperator msg : operator_reachable -> total (notifyOperator E msg).
Proof. intros Hop s. destruct (Hop msg s) as [s' ->]. now exists tt. Qed.

(** A step that never throws, run from [r]. *)
Lemma run_total {A} (m : M (Run W) A) r :
  total m -> steps m -> exists a r', m r = (Ok a, r') /\ evolves r r'.
Proof.
  intros Ht Hs. destruct (Ht r) as [a Ha]. specialize (Hs r).
  destruct (m r) as [res r']. simpl in *. subst. now exists a, r'.
Qed.

Ltac steps_step :=
  lazymatch goal with
  | |- steps (bind _ _) => apply steps_bind; [|intros ?]
  | |- steps (try_catch _ _) => apply steps_try_catch; [|intros ?]
  | |- steps (for_each _ _) => apply steps_for_each; intros ?
  | |- steps (logStep _ _ _ _) => apply steps_logStep
  | |- steps (ret _) => apply steps_ret
  | |- steps (throw _) => apply steps_throw
  | |- steps get_run => apply steps_get_run
  | |- steps mark_callback => apply steps_mark_callback
  | |- steps (push_toolsCreated _) => apply steps_push_toolsCreated
  | |- steps (push_workflowsCreated _) => apply steps_push_workflowsCreated
  | |- steps (inproc _) => apply steps_inproc
  | |- steps (match ?x with _ => _ end) => destruct x
  | |- steps (let _ := _ in _) => cbv zeta
  end.

Ltac total_step :=
  lazymatch goal with
  | |- total (bind _ _) => apply total_bind; [|intros ?]
  | |- total (try_catch _ _) => apply total_try_catch; intros ?
  | |- total (for_each _ _) => apply total_for_each; intros ?
  | |- total (logStep _ _ _ _) => apply total_logStep
  | |- total (ret _) => apply total_ret
  | |- total (inproc _) => apply total_inproc
  | |- total (match ?x with _ => _ end) => destruct x
  | |- total (let _ := _ in _) => cbv zeta
  end.

Lemma keeps_history_remote {A} (f : W -> Result A * W) : keeps_history (remote f).
Proof. apply external_keeps_history, external_remote. Qed.

Lemma steps_create_tool_item spec : steps (create_tool_item E spec).
Proof.
  unfold create_tool_item. repeat steps_step.
  - apply keeps_history_createAndRegisterTool.
  - apply keeps_history_remote.
Qed.

Lemma total_create_tool_item spec : total (create_tool_item E spec).
Proof. unfold create_tool_item. repeat total_step. Qed.

Lemma steps_create_workflow_item wf : steps (create_workflow_item E wf).
Proof.
  unfold create_workflow_item. repeat steps_step.
  - apply keeps_history_remote.
  - apply keeps_history_createAndRegisterTool.
Qed.

Lemma total_create_workflow_item wf : total (create_workflow_item E wf).
Proof. unfold create_workflow_item. repeat total_step. Qed.

Lemma steps_fetch_and_analyze c a : steps (fetch_and_analyze E c a).
Proof.
  unfold fetch_and_analyze. repeat steps_step;
    apply external_keeps_history.
  - apply external_getCall.
  - apply external_getAssistant.
  - apply external_getAllTools.
  - apply external_analyzeTranscriptWithRaw.
Qed.

Lemma steps_update_config a analysis : steps (update_config E a analysis).
Proof.
  unfold update_config. repeat steps_step.
  apply external_keeps_history, external_updateAssistant.
Qed.

Lemma total_update_config a analysis : total (update_config E a analysis).
Proof. unfold update_config. repeat total_step. Qed.

Lemma steps_create_tools analysis : steps (create_tools E analysis).
Proof.
  unfold create_tools. repeat steps_step; apply steps_create_tool_item.
Qed.

Lemma total_create_tools analysis : total (create_tools E analysis).
Proof.
  unfold create_tools. repeat total_step; apply total_create_tool_item.
Qed.

Lemma steps_create_workflows analysis : steps (create_workflows E analysis).
Proof.
  unfold create_workflows. repeat steps_step; apply steps_create_workflow_item.
Qed.

Lemma total_create_workflows analysis : total (create_workflows E analysis).
Proof.
  unfold create_workflows. repeat total_step; apply total_create_workflow_item.
Qed.

Lemma steps_request_resources reqs : steps (request_resources E reqs).
Proof.
  unfold request_resources. repeat steps_step.
  apply external_keeps_history, external_notifyOperator.
Qed.

Lemma total_request_resources reqs :
  operator_reachable -> total (request_resources E reqs).
Proof.
  intros Hop. unfold request_resources. repeat total_step.
  now apply total_notifyOperator.
Qed.

Lemma steps_verify_assistant a : steps (verify_assistant E a).
Proof.
  unfold verify_assistant. repeat steps_step.
  apply external_keeps_history, external_getAssistant.
Qed.

Lemma total_verify_assistant a : total (verify_assistant E a).
Proof. unfold verify_assistant. repeat total_step. Qed.

Lemma steps_notify_summary c n analysis : steps (notify_summary E c n analysis).
Proof.
  unfold notify_summary. repeat steps_step.
  apply external_keeps_history, external_notifyOperator.
Qed.

Lemma total_notify_summary c n analysis :
  operator_reachable -> total (notify_summary E c n analysis).
Proof.
  intros Hop. unfold notify_summary.
  apply total_bind; [intros r; now exists r|]. intros r.
  apply total_inproc. now apply total_notifyOperator.
Qed.

Lemma steps_auto_callback a n : steps (auto_callback E a n).
Proof.
  unfold auto_callback. repeat steps_step; apply external_keeps_history.
  - apply external_settle.
  - apply external_createOutboundCall.
  - apply external_notifyOperator.
Qed.

Lemma total_auto_callback a n :
  operator_reachable -> total (auto_callback E a n).
Proof.
  intros Hop. unfold auto_callback. repeat total_step.
  - intros st0. now exists tt.
  - now apply total_notifyOperator.
Qed.

(** *** Single steps of a run, before the record is pushed *)

Definition entry_at (r : Run W) (stp : string) (st : StepStatus) (d : string)
  : PipelineStep :=
  {| step := stp; status := st; detail := d;
     ps_timestamp := now E (world (proc r)) |}.

Lemma logStep_run stp st d (r : Run W) :
  run_record r = None ->
  exists r',
    logStep E stp st d r = (Ok tt, r') /\
    run_record r' = None /\ proc r' = proc r /\
    run_log r' = run_log r ++ [entry_at r stp st d] /\
    run_toolsCreated r' = run_toolsCreated r.
Proof.
  intros Hpre. eexists. split; [reflexivity|]. simpl. rewrite Hpre.
  repeat split.
Qed.

Lemma inproc_run {A} (m : M (State W) A) (r : Run W) res s1 :
  m (proc r) = (res, s1) ->
  exists r',
    inproc m r = (res, r') /\
    run_record r' = run_record r /\ proc r' = s1 /\
    run_log r' = run_log r /\
    run_toolsCreated r' = run_toolsCreated r.
Proof.
  intros Hm. unfold inproc. rewrite Hm. eexists. repeat split.
Qed.

Lemma push_toolsCreated_run n (r : Run W) :
  exists r',
    push_toolsCreated n r = (Ok tt, r') /\
    run_record r' = run_record r /\ proc r' = proc r /\
    run_log r' = run_log r /\
    run_toolsCreated r' = run_toolsCreated r ++ [n].
Proof. eexists. repeat split. Qed.

(** Take one [logStep] at the head of the run in the goal. *)
Ltac log_step Hpre :=
  match goal with
  | |- context [bind (logStep E ?a ?b ?c) ?k ?r] =>
      let r' := fresh "r" in
      let Hrun := fresh "Hrun" in
      let Hpre' := fresh "Hpre" in
      let Hproc := fresh "Hproc" in
      let Hlog := fresh "Hlog" in
      let Htc := fresh "Htc" in
      destruct (logStep_run a b c r Hpre)
        as (r' & Hrun & Hpre' & Hproc & Hlog & Htc);
      rewrite (bind_Ok _ k r tt r' Hrun); clear Hrun;
      cbn [proc new_run] in Hproc
  end.

(** *** The steps whose failure is rethrown *)

Lemma fst_bind_Throw {S A B} (m : M S A) (k : A -> M S B) s e :
  fst (m s) = Throw e -> fst (bind m k s) = Throw e.
Proof. unfold bind. destruct (m s) as [[a|e'] s']; simpl; congruence. Qed.

Lemma fst_try_catch_Throw {S A} (m : M S A) h s e s' :
  m s = (Throw e, s') -> fst (try_catch m h s) = fst (h e s').
Proof. unfold try_catch. now intros ->. Qed.

Definition got_transcript (call : Call) : string :=
  ("Got transcript ("
   ++ show_nat (match call_transcript call with
                | Some t => String.length t
                | None => 0
                end)
   ++ " chars), status=" ++ show_ostr (call_status call)
   ++ ", ended=" ++ show_ostr (call_endedReason call))%string.

Lemma fetch_getCall_throws c a (s : State W) e :
  fst (getCall E c s) = Throw e ->
  fst (fetch_and_analyze E c a (new_run s)) = Throw e.
Proof.
  intros H. unfold fetch_and_analyze.
  assert (Hpre : run_record (new_run s) = None) by reflexivity.
  log_step Hpre.
  destruct (getCall E c s) as [res s1] eqn:Hcall. simpl in H. subst res.
  rewrite <- Hproc in Hcall.
  destruct (inproc_run _ _ _ _ Hcall) as (r1 & Hrun1 & Hpre1 & _).
  rewrite Hpre0 in Hpre1.
  apply fst_bind_Throw.
  erewrite fst_try_catch_Throw; [|erewrite bind_Throw; [reflexivity|exact Hrun1]].
  log_step Hpre1. reflexivity.
Qed.

Lemma fetch_getCall_returns c (s s1 : State W) call (r : Run W) :
  run_record r = None -> proc r = s ->
  getCall E c s = (Ok call, s1) ->
  exists r',
    try_catch
      (call <- inproc (getCall E c) ;;
       logStep E "fetch_transcript" ok (got_transcript call) ;;;
       ret call)
      (fun msg =>
         logStep E "fetch_transcript" error ("Failed to fetch call: " ++ msg)%string ;;;
         throw msg) r = (Ok call, r') /\
    run_record r' = None /\ proc r' = s1 /\
    run_toolsCreated r' = run_toolsCreated r.
Proof.
  intros Hpre Hproc Hcall. rewrite <- Hproc in Hcall.
  destruct (inproc_run _ _ _ _ Hcall) as (r1 & Hrun1 & Hpre1 & Hproc1 & _ & Htc1).
  rewrite Hpre in Hpre1.
  destruct (logStep_run "fetch_transcript" ok (got_transcript call) r1 Hpre1)
    as (r2 & Hrun2 & Hpre2 & Hproc2 & _ & Htc2).
  exists r2. split.
  - apply try_catch_Ok.
    rewrite (bind_Ok _ _ _ _ _ Hrun1), (bind_Ok _ _ _ _ _ Hrun2). reflexivity.
  - repeat split; congruence.
Qed.

Lemma fetch_getAssistant_throws c a (s s1 : State W) call e :
  getCall E c s = (Ok call, s1) ->
  fst (getAssistant E a s1) = Throw e ->
  fst (fetch_and_analyze E c a (new_run s)) = Throw e.
Proof.
  intros Hcall H. unfold fetch_and_analyze.
  assert (Hpre : run_record (new_run s) = None) by reflexivity.
  log_step Hpre.
  destruct (fetch_getCall_returns c s s1 call r Hpre0 Hproc Hcall)
    as (r2 & Hrun2 & Hpre2 & Hproc2 & _).
  fold (got_transcript).
  rewrite (bind_Ok _ _ _ _ _ Hrun2).
  log_step Hpre2.
  destruct (getAssistant E a s1) as [res s2] eqn:Hasst. simpl in H. subst res.
  rewrite <- Hproc2, <- Hproc0 in Hasst.
  destruct (inproc_run _ _ _ _ Hasst) as (r4 & Hrun4 & _).
  apply fst_bind_Throw. now rewrite Hrun4.
Qed.

Lemma analyzeAndImprove_fetch_throws c a n (s : State W) e :
  fst (fetch_and_analyze E c a (new_run s)) = Throw e ->
  fst (analyzeAndImprove E c a n s) = Throw e /\
  history (snd (analyzeAndImprove E c a n s)) = history s.
Proof.
  intros H. unfold analyzeAndImprove, pipeline, bind.
  pose proof (steps_fetch_and_analyze c a (new_run s)) as (_ & _ & _ & Hh).
  simpl in Hh.
  destruct (fetch_and_analyze E c a (new_run s)) as [res r1].
  simpl in H. subst res. simpl. split; [reflexivity|exact Hh].
Qed.

(** C3. When the fetch of the call ([getCall]) throws, or the fetch of the
    assistant ([getAssistant]) that follows it throws, [analyzeAndImprove]
    throws that same error to its caller, and the improvement history is
    what it was before the run: no record is appended. *)
Theorem fetch_failure_aborts_without_record
  (callId0 assistantId : string) (customerNumber0 : option string)
  (s : State W) (e : string) :
  fst (getCall E callId0 s) = Throw e \/
  (exists call s1, getCall E callId0 s = (Ok call, s1) /\
                   fst (getAssistant E assistantId s1) = Throw e) ->
  fst (analyzeAndImprove E callId0 assistantId customerNumber0 s) = Throw e /\
  history (snd (analyzeAndImprove E callId0 assistantId customerNumber0 s))
    = history s /\
  List.length
    (history (snd (analyzeAndImprove E callId0 assistantId customerNumber0 s)))
    = List.length (history s).
Proof.
  intros H.
  assert (Hf : fst (fetch_and_analyze E callId0 assistantId (new_run s)) = Throw e).
  { destruct H as [H|(call & s1 & Hcall & H)].
    - now apply fetch_getCall_throws.
    - now apply fetch_getAssistant_throws with s1 call. }
  destruct (analyzeAndImprove_fetch_throws callId0 assistantId customerNumber0 s e Hf)
    as [Hres Hhist].
  split; [exact Hres|]. split; [exact Hhist|]. now rewrite Hhist.
Qed.

(** *** The smoke test *)






Definition creating_tool (spec : ToolSpec) : string :=
  ("Creating tool: " ++ dq ++ ts_name spec ++ dq ++ " — "
   ++ ts_description spec)%string.

Definition smoke_passed (spec : ToolSpec) (output : string) : string :=
  ("Tool " ++ dq ++ ts_name spec ++ dq ++ " smoke test passed: "
   ++ slice0 100 output)%string.

Definition smoke_failed (spec : ToolSpec) (msg : string) : string :=
  ("Tool " ++ dq ++ ts_name spec ++ dq ++ " smoke test failed: " ++ msg)%string.

Definition create_failed (spec : ToolSpec) (msg : string) : string :=
  ("Failed to create tool " ++ dq ++ ts_name spec ++ dq ++ ": " ++ msg)%string.

(** The log entry of the smoke test, from what the handler did. *)
Definition smoke_entry_ok (spec : ToolSpec) (res : Result string)
  (e : PipelineStep) : Prop :=
  step e = "test_tool"%string /\
  match res with
  | Ok output => status e = ok /\ detail e = smoke_passed spec output
  | Throw msg => status e = error /\ detail e = smoke_failed spec msg
  end.

Lemma create_tool_item_created spec (r : Run W) tool s1 :
  run_record r = None ->
  createAndRegisterTool E spec (proc r) = (Ok tool, s1) ->
  exists r' e1 e2,
    create_tool_item E spec r = (Ok tt, r') /\
    run_record r' = None /\
    world (proc r')
      = snd (handler tool (testArgs (ts_parameters spec)) (world s1)) /\
    registry (proc r') = registry s1 /\
    history (proc r') = history s1 /\
    run_toolsCreated r' = run_toolsCreated r ++ [ts_name spec] /\
    run_log r' = run_log r ++ [e1; e2] /\
    step e1 = "create_tool"%string /\ status e1 = ok /\
    smoke_entry_ok spec
      (fst (handler tool (testArgs (ts_parameters spec)) (world s1))) e2.
Proof.
  intros Hpre Hcreate. unfold create_tool_item.
  fold (creating_tool spec).
  destruct (logStep_run "create_tool" ok (creating_tool spec) r Hpre)
    as (ra & Hra & Hprea & Hproca & Hloga & Htca).
  rewrite <- Hproca in Hcreate.
  destruct (inproc_run _ _ _ _ Hcreate) as (rb & Hrb & Hpreb & Hprocb & Hlogb & Htcb).
  rewrite Hprea in Hpreb.
  destruct (push_toolsCreated_run (ts_name spec) rb)
    as (rc & Hrc & Hprec & Hprocc & Hlogc & Htcc).
  rewrite Hpreb in Hprec.
  set (args := testArgs (ts_parameters spec)).
  destruct (handler tool args (world s1)) as [res w2] eqn:Hrun.
  assert (Hremote : remote (handler tool args) (proc rc)
                    = (res, {| world := w2; registry := registry s1;
                               history := history s1 |})).
  { unfold remote. rewrite Hprocc, Hprocb, Hrun. reflexivity. }
  destruct (inproc_run _ _ _ _ Hremote) as (rd & Hrd & Hpred & Hprocd & Hlogd & Htcd).
  rewrite Hprec in Hpred.
  destruct res as [output|msg].
  - destruct (logStep_run "test_tool" ok (smoke_passed spec output) rd Hpred)
      as (re & Hre & Hpree & Hproce & Hloge & Htce).
    exists re, (entry_at r "create_tool" ok (creating_tool spec)),
      (entry_at rd "test_tool" ok (smoke_passed spec output)).
    split.
    { apply try_catch_Ok.
      rewrite (bind_Ok _ _ _ _ _ Hra), (bind_Ok _ _ _ _ _ Hrb),
        (bind_Ok _ _ _ _ _ Hrc).
      apply try_catch_Ok. rewrite (bind_Ok _ _ _ _ _ Hrd). exact Hre. }
    rewrite Hproce, Hprocd. simpl.
    repeat split; try reflexivity; try assumption.
    + congruence.
    + rewrite Hloge, Hlogd, Hlogc, Hlogb, Hloga, <- app_assoc. reflexivity.
  - destruct (logStep_run "test_tool" error (smoke_failed spec msg) rd Hpred)
      as (re & Hre & Hpree & Hproce & Hloge & Htce).
    exists re, (entry_at r "create_tool" ok (creating_tool spec)),
      (entry_at rd "test_tool" error (smoke_failed spec msg)).
    split.
    { apply try_catch_Ok.
      rewrite (bind_Ok _ _ _ _ _ Hra), (bind_Ok _ _ _ _ _ Hrb),
        (bind_Ok _ _ _ _ _ Hrc).
      erewrite try_catch_Throw; [exact Hre|].
      erewrite bind_Throw; [reflexivity|exact Hrd]. }
    rewrite Hproce, Hprocd. simpl.
    repeat split; try reflexivity; try assumption.
    + congruence.
    + rewrite Hloge, Hlogd, Hlogc, Hlogb, Hloga, <- app_assoc. reflexivity.
Qed.

Lemma create_tool_item_not_created spec (r : Run W) e :
  run_record r = None ->
  new_Function E (ts_handlerCode spec) = Throw e ->
  exists r' e1 e2,
    create_tool_item E spec r = (Ok tt, r') /\
    run_record r' = None /\ proc r' = proc r /\
    run_toolsCreated r' = run_toolsCreated r /\
    run_log r' = run_log r ++ [e1; e2] /\
    step e2 = "create_tool"%string /\ status e2 = error /\
    detail e2 = create_failed spec e.
Proof.
  intros Hpre Hh. unfold create_tool_item.
  fold (creating_tool spec).
  destruct (logStep_run "create_tool" ok (creating_tool spec) r Hpre)
    as (ra & Hra & Hprea & Hproca & Hloga & Htca).
  pose proof (createAndRegisterTool_not_compiled spec e (proc ra) Hh) as Hcreate.
  destruct (inproc_run _ _ _ _ Hcreate) as (rb & Hrb & Hpreb & Hprocb & Hlogb & Htcb).
  rewrite Hprea in Hpreb.
  destruct (logStep_run "create_tool" error (create_failed spec e) rb Hpreb)
    as (rc & Hrc & Hprec & Hprocc & Hlogc & Htcc).
  exists rc, (entry_at r "create_tool" ok (creating_tool spec)),
    (entry_at rb "create_tool" error (create_failed spec e)).
  split.
  { erewrite try_catch_Throw; [exact Hrc|].
    rewrite (bind_Ok _ _ _ _ _ Hra).
    erewrite bind_Throw; [reflexivity|exact Hrb]. }
  repeat split; try reflexivity; try congruence.
  rewrite Hlogc, Hlogb, Hloga, <- app_assoc. reflexivity.
Qed.


(** *** A run that gets past its fetches *)

(** The loop over the requested tools: every spec whose source compiles
    ends in [toolsCreated], every spec whose source does not compile
    leaves a [create_tool] error step, and the loop goes on. *)
Lemma create_tools_loop (specs : list ToolSpec) (r : Run W) :
  run_record r = None ->
  operator_reachable ->
  exists r',
    for_each (create_tool_item E) specs r = (Ok tt, r') /\
    evolves r r' /\
    (forall spec h, In spec specs ->
       new_Function E (ts_handlerCode spec) = Ok h ->
       In (ts_name spec) (run_toolsCreated r')) /\
    (forall spec e, In spec specs ->
       new_Function E (ts_handlerCode spec) = Throw e ->
       exists entry, In entry (run_log r') /\
         step entry = "create_tool"%string /\ status entry = error /\
         detail entry = create_failed spec e).
Proof.
  intros Hpre Hop. revert r Hpre.
  induction specs as [|spec specs IH]; intros r Hpre.
  - exists r. split; [reflexivity|]. split; [apply evolves_refl|].
    split; intros ? ? [].
  - simpl.
    assert (Hitem : exists r1,
      create_tool_item E spec r = (Ok tt, r1) /\ run_record r1 = None /\
      evolves r r1 /\
      (forall h, new_Function E (ts_handlerCode spec) = Ok h ->
         In (ts_name spec) (run_toolsCreated r1)) /\
      (forall e, new_Function E (ts_handlerCode spec) = Throw e ->
         exists entry, In entry (run_log r1) /\
           step entry = "create_tool"%string /\ status entry = error /\
           detail entry = create_failed spec e)).
    { pose proof (steps_create_tool_item spec r) as Hev.
      destruct (new_Function E (ts_handlerCode spec)) as [h|e] eqn:Hh.
      - destruct (createAndRegisterTool_compiled spec h (proc r) Hh Hop)
          as (s1 & Hcreate & _).
        destruct (create_tool_item_created spec r _ s1 Hpre Hcreate)
          as (r1 & e1 & e2 & Hrun & Hpre1 & _ & _ & _ & Htc & _).
        rewrite Hrun in Hev. exists r1.
        split; [exact Hrun|]. split; [assumption|]. split; [assumption|]. split.
        + intros _ _. rewrite Htc. apply in_or_app. right. now left.
        + intros e [=].
      - destruct (create_tool_item_not_created spec r e Hpre Hh)
          as (r1 & e1 & e2 & Hrun & Hpre1 & _ & _ & Hlog & Hstep & Hst & Hd).
        rewrite Hrun in Hev. exists r1.
        split; [exact Hrun|]. split; [assumption|]. split; [assumption|]. split.
        + intros h [=].
        + intros e' [= <-]. exists e2. rewrite Hlog.
          split; [|now repeat split].
          apply in_or_app. right. right. now left. }
    destruct Hitem as (r1 & Hrun1 & Hpre1 & Hev1 & Hok1 & Hfail1).
    destruct (IH r1 Hpre1) as (r' & Hrun' & Hev' & Hok' & Hfail').
    exists r'. rewrite (bind_Ok _ _ _ _ _ Hrun1). split; [exact Hrun'|].
    split; [eapply evolves_trans; eauto|].
    destruct Hev' as (_ & Hlog' & Htc' & _). split.
    + intros sp h [<-|Hin] Hh.
      * eapply prefix_of_In; [exact Htc'|]. eapply Hok1; eauto.
      * eapply Hok'; eauto.
    + intros sp e [<-|Hin] Hh.
      * destruct (Hfail1 e Hh) as (entry & Hin & Hrest).
        exists entry. split; [|exact Hrest].
        eapply prefix_of_In; eauto.
      * eapply Hfail'; eauto.
Qed.

Lemma nth_error_last {A} (l : list A) x : nth_error (l ++ [x]) (List.length l) = Some x.
Proof. induction l as [|y l IH]; simpl; auto. Qed.

Lemma firstn_last {A} (l : list A) x : firstn (List.length l) (l ++ [x]) = l.
Proof. induction l as [|y l IH]; simpl; auto. now rewrite IH. Qed.

Lemma list_split_last {A} (l : list A) i x :
  List.length l = S i -> nth_error l i = Some x -> l = firstn i l ++ [x].
Proof.
  revert i. induction l as [|y l IH]; intros i Hlen Hn; [discriminate|].
  destruct i as [|i]; simpl in *.
  - injection Hn as ->. destruct l; [reflexivity|discriminate].
  - f_equal. apply IH; [lia|assumption].
Qed.

(** From the workflows step on, a run persists its record: the steps
    before the push cannot throw, and what is created and logged so far is
    in the record that ends in the history. *)
Lemma improve_tail (callId0 assistantId : string) (customerNumber0 : option string)
  (call : Call) (assistant : Assistant) (analysis : AnalysisResult)
  (raw : string) (r : Run W) :
  run_record r = None ->
  operator_reachable ->
  exists record r',
    (requests <- create_workflows E analysis ;;
     request_resources E requests ;;;
     verify_assistant E assistantId ;;;
     record <- persist_record E callId0 customerNumber0 call assistant
                 analysis raw ;;
     notify_summary E callId0 customerNumber0 analysis ;;;
     auto_callback E assistantId customerNumber0 ;;;
     current_record record) r = (Ok record, r') /\
    history (proc r') = history (proc r) ++ [record] /\
    prefix_of (run_toolsCreated r) (toolsCreated record) /\
    prefix_of (run_log r) (pipelineLog record).
Proof.
  intros Hpre Hop.
  destruct (run_total (create_workflows E analysis) r
              (total_create_workflows analysis) (steps_create_workflows analysis))
    as (requests & r1 & Hrun1 & Hev1).
  rewrite (bind_Ok _ _ _ _ _ Hrun1).
  destruct (run_total (request_resources E requests) r1
              (total_request_resources requests Hop)
              (steps_request_resources requests))
    as ([] & r2 & Hrun2 & Hev2).
  rewrite (bind_Ok _ _ _ _ _ Hrun2).
  destruct (run_total (verify_assistant E assistantId) r2
              (total_verify_assistant assistantId)
              (steps_verify_assistant assistantId))
    as ([] & r3 & Hrun3 & Hev3).
  rewrite (bind_Ok _ _ _ _ _ Hrun3).
  pose proof (evolves_trans _ _ _ Hev1 (evolves_trans _ _ _ Hev2 Hev3)) as Hev.
  destruct Hev as (Hrec3 & Hlog3 & Htc3 & Hhist3).
  rewrite Hpre in Hrec3, Hhist3.
  set (record0 :=
         {| callId := callId0;
            customerNumber := customerNumber0;
            timestamp := now E (world (proc r3));
            transcript := call_transcript call;
            rec_failures := failures analysis;
            rec_changes := changes analysis;
            toolsCreated := run_toolsCreated r3;
            workflowsCreated := run_workflowsCreated r3;
            configBefore := config assistant;
            configAfter := configChanges analysis;
            callbackTriggered := false;
            rawAnalysis := Some raw;
            pipelineLog := run_log r3 |}).
  set (r4 := snd (push_record record0 r3)).
  assert (Hrun4 : persist_record E callId0 customerNumber0 call assistant
                    analysis raw r3 = (Ok record0, r4)) by reflexivity.
  rewrite (bind_Ok _ _ _ _ _ Hrun4).
  set (i := List.length (history (proc r3))).
  assert (Hrec4 : run_record r4 = Some i) by reflexivity.
  assert (Hhist4 : history (proc r4) = history (proc r3) ++ [record0]) by reflexivity.
  assert (Hlog4 : run_log r4 = run_log r3) by reflexivity.
  destruct (run_total (notify_summary E callId0 customerNumber0 analysis) r4
              (total_notify_summary callId0 customerNumber0 analysis Hop)
              (steps_notify_summary callId0 customerNumber0 analysis))
    as ([] & r5 & Hrun5 & Hev5).
  rewrite (bind_Ok _ _ _ _ _ Hrun5).
  destruct (run_total (auto_callback E assistantId customerNumber0) r5
              (total_auto_callback assistantId customerNumber0 Hop)
              (steps_auto_callback assistantId customerNumber0))
    as ([] & r6 & Hrun6 & Hev6).
  rewrite (bind_Ok _ _ _ _ _ Hrun6).
  pose proof (evolves_trans _ _ _ Hev5 Hev6) as (Hrec6 & Hlog6 & _ & Hpost).
  rewrite Hrec4 in Hrec6, Hpost.
  destruct Hpost as (Hlen6 & Hfst6 & Hsame).
  destruct (Hsame record0) as (rec' & Hnth & Hplog & Htcs).
  { rewrite Hhist4. apply nth_error_last. }
  { rewrite Hlog4. reflexivity. }
  exists rec', r6. split.
  { unfold current_record, bind, get_run, ret. rewrite Hrec6.
    now rewrite (nth_error_nth _ _ record0 Hnth). }
  split.
  { rewrite (list_split_last (history (proc r6)) i rec').
    - rewrite Hfst6, Hhist4. unfold i. rewrite firstn_last.
      now rewrite Hhist3.
    - rewrite Hlen6, Hhist4, length_app. simpl. unfold i. lia.
    - exact Hnth. }
  split; [now rewrite Htcs|].
  rewrite Hplog. eapply prefix_of_trans; [exact Hlog3|].
  rewrite <- Hlog4. exact Hlog6.
Qed.

Lemma try_catch_bind_Ok {S A B} (m : M S A) (k : A -> M S B) h s a s' :
  m s = (Ok a, s') -> try_catch (bind m k) h s = try_catch (k a) h s'.
Proof. unfold try_catch, bind. now intros ->. Qed.

Definition existing_tools (s : State W) : list (string * string) :=
  map (fun t => (name t, description t)) (JsMap.values (registry s)).

Lemma fetch_and_analyze_returns c a (s s1 s2 s3 : State W) call assistant res :
  getCall E c s = (Ok call, s1) ->
  getAssistant E a s1 = (Ok assistant, s2) ->
  analyzeTranscriptWithRaw E (call_transcript call) (systemMessage assistant)
    (config assistant) (existing_tools s2) s2 = (Ok res, s3) ->
  exists r1,
    fetch_and_analyze E c a (new_run s) = (Ok (call, assistant, res), r1) /\
    run_record r1 = None /\ proc r1 = s3.
Proof.
  intros Hcall Hasst Hres. unfold fetch_and_analyze.
  assert (Hpre : run_record (new_run s) = None) by reflexivity.
  log_step Hpre.
  destruct (fetch_getCall_returns c s s1 call r Hpre0 Hproc Hcall)
    as (r2 & Hrun2 & Hpre2 & Hproc2 & _).
  fold (got_transcript).
  rewrite (bind_Ok _ _ _ _ _ Hrun2).
  log_step Hpre2.
  rewrite <- Hproc2, <- Hproc0 in Hasst.
  destruct (inproc_run _ _ _ _ Hasst) as (r4 & Hrun4 & Hpre4 & Hproc4 & _).
  rewrite Hpre1 in Hpre4.
  rewrite (bind_Ok _ _ _ _ _ Hrun4).
  log_step Hpre4.
  assert (Htools : getAllTools (proc r1) = (Ok (JsMap.values (registry s2)), proc r1)).
  { unfold getAllTools, bind, get_registry, ret. now rewrite Hproc1, Hproc4. }
  destruct (inproc_run _ _ _ _ Htools) as (r5 & Hrun5 & Hpre5 & Hproc5 & _).
  rewrite Hpre3 in Hpre5.
  rewrite (bind_Ok _ _ _ _ _ Hrun5).
  log_step Hpre5. cbv zeta.
  log_step Hpre6.
  log_step Hpre7.
  assert (Hp : proc r7 = s2) by congruence.
  unfold existing_tools in Hres.
  assert (Hres' : analyzeTranscriptWithRaw E (call_transcript call)
                    (systemMessage assistant) (config assistant)
                    (map (fun t => (name t, description t))
                         (JsMap.values (registry s2))) (proc r7)
                  = (Ok res, s3)) by (rewrite Hp; exact Hres).
  destruct (inproc_run _ _ _ _ Hres') as (r9 & Hrun9 & Hpre9 & Hproc9 & _).
  rewrite Hpre8 in Hpre9.
  unfold bind at 1.
  rewrite (try_catch_bind_Ok _ _ _ _ _ _ Hrun9). cbv zeta.
  match goal with
  | |- context [logStep E ?x ?y ?z] =>
      destruct (logStep_run x y z r9 Hpre9) as (r10 & Hrun10 & Hpre10 & Hproc10 & _)
  end.
  exists r10. unfold try_catch. rewrite (bind_Ok _ _ _ _ _ Hrun10).
  simpl. repeat split; congruence.
Qed.

(** C4. A run that gets its call, its assistant and an analysis asking for
    two tools, one of which cannot be built (its handler source does not
    compile) while the other can, still completes: [analyzeAndImprove]
    returns the record and appends it to the history; the record lists the
    name of the tool that was built in [toolsCreated], and its
    [pipelineLog] has a [create_tool] step with status [error] that names
    the tool that was not. (The operator notices are assumed not to
    throw: nothing else fails in the run.) *)
Theorem one_failed_capability_does_not_abort
  (callId0 assistantId : string) (customerNumber0 : option string)
  (s s1 s2 s3 : State W) (call : Call) (assistant : Assistant)
  (analysis : AnalysisResult) (raw : string)
  (tA tB failed other : ToolSpec) (e : string) (h : ToolHandler W) :
  getCall E callId0 s = (Ok call, s1) ->
  getAssistant E assistantId s1 = (Ok assistant, s2) ->
  analyzeTranscriptWithRaw E (call_transcript call) (systemMessage assistant)
    (config assistant) (existing_tools s2) s2 = (Ok (analysis, raw), s3) ->
  newTools analysis = Some [tA; tB] ->
  (failed = tA /\ other = tB) \/ (failed = tB /\ other = tA) ->
  new_Function E (ts_handlerCode failed) = Throw e ->
  new_Function E (ts_handlerCode other) = Ok h ->
  operator_reachable ->
  exists record s',
    analyzeAndImprove E callId0 assistantId customerNumber0 s = (Ok record, s') /\
    history s' = history s ++ [record] /\
    In (ts_name other) (toolsCreated record) /\
    exists entry,
      In entry (pipelineLog record) /\
      step entry = "create_tool"%string /\ status entry = error /\
      detail entry = create_failed failed e.
Proof.
  intros Hcall Hasst Hres Htools Hwhich Hfailed Hother Hop.
  destruct (fetch_and_analyze_returns _ assistantId _ _ _ _ _ _ _ Hcall Hasst Hres)
    as (r1 & Hrun1 & Hpre1 & Hproc1).
  pose proof (steps_fetch_and_analyze callId0 assistantId (new_run s))
    as (_ & _ & _ & Hhist1).
  rewrite Hrun1 in Hhist1. simpl in Hhist1.
  unfold analyzeAndImprove, pipeline.
  rewrite (bind_Ok _ _ _ _ _ Hrun1). simpl fst. simpl snd. unfold improve.
  destruct (run_total (update_config E assistantId analysis) r1
              (total_update_config assistantId analysis)
              (steps_update_config assistantId analysis))
    as ([] & r2 & Hrun2 & Hev2).
  rewrite (bind_Ok _ _ _ _ _ Hrun2).
  destruct Hev2 as (Hpre2 & _ & _ & Hhist2).
  rewrite Hpre1 in Hpre2, Hhist2.
  destruct (create_tools_loop [tA; tB] r2 Hpre2 Hop)
    as (r3 & Hrun3 & Hev3 & Hcreated & Hlogged).
  assert (Hrun3' : create_tools E analysis r2 = (Ok tt, r3)).
  { unfold create_tools. rewrite Htools. exact Hrun3. }
  rewrite (bind_Ok _ _ _ _ _ Hrun3').
  destruct Hev3 as (Hpre3 & _ & _ & Hhist3).
  rewrite Hpre2 in Hpre3, Hhist3.
  destruct (improve_tail callId0 assistantId customerNumber0 call assistant
              analysis raw r3 Hpre3 Hop)
    as (record & r' & Hrun & Hhist & Htc & Hlog).
  rewrite Hrun. exists record, (proc r').
  split; [reflexivity|]. split; [congruence|].
  assert (Hin_failed : In failed [tA; tB])
    by (destruct Hwhich as [[-> _]|[-> _]]; simpl; auto).
  assert (Hin_other : In other [tA; tB])
    by (destruct Hwhich as [[_ ->]|[_ ->]]; simpl; auto).
  split.
  - eapply prefix_of_In; [exact Htc|]. eapply Hcreated; eauto.
  - destruct (Hlogged failed e Hin_failed Hfailed) as (entry & Hin & Hrest).
    exists entry. split; [|exact Hrest]. eapply prefix_of_In; eauto.
Qed.

(** ** baseline.ts: reset *)

Lemma filter_all_true {A} (f : A -> bool) (l : list A) :
  (forall x, In x l -> f x = true) -> filter f l = l.
Proof.
  induction l as [|x l IH]; simpl; intros H; [reflexivity|].
  rewrite (H x (or_introl eq_refl)). f_equal. apply IH. auto.
Qed.

Lemma clear_entries_seed (reg : JsMap.t (RegisteredTool W)) :
  JsMap.wf reg -> clear_entries reg reg = filter is_seed reg.
Proof.
  intros Hwf. apply (clear_entries_filter [] reg); [assumption|].
  intros e [].
Qed.

Lemma resetToBaseline_returns a (s s1 : State W) :
  resetToBaseline E a s = (Ok tt, s1) ->
  registry s1 = clear_entries (registry s) (registry s) /\ history s1 = [].
Proof.
  unfold resetToBaseline, bind.
  pose proof (external_updateAssistant a BASELINE s) as [Hr _].
  destruct (updateAssistant E a BASELINE s) as [[[]|e] s0]; [|discriminate].
  simpl in Hr. cbn. intros [= <-]. cbn. now rewrite Hr.
Qed.

(** A reset whose profile update throws rethrows it and clears nothing. *)
Lemma resetToBaseline_update_throws a (s : State W) e :
  fst (updateAssistant E a BASELINE s) = Throw e ->
  fst (resetToBaseline E a s) = Throw e /\
  registry (snd (resetToBaseline E a s)) = registry s /\
  history (snd (resetToBaseline E a s)) = history s.
Proof.
  unfold resetToBaseline, bind.
  pose proof (external_updateAssistant a BASELINE s) as [Hr Hh].
  destruct (updateAssistant E a BASELINE s) as [[[]|e'] s0]; simpl;
    [discriminate|]. intros [= ->]. auto.
Qed.

Lemma resets_fixed n a (s1 s2 : State W) :
  JsMap.wf (registry s1) ->
  (forall x, In x (registry s1) -> is_seed x = true) ->
  history s1 = [] ->
  resets E n a s1 = (Ok tt, s2) ->
  registry s2 = registry s1 /\ history s2 = [].
Proof.
  revert s1. induction n as [|n IH]; intros s1 Hwf Hseed Hhist; simpl.
  - intros [= <-]. auto.
  - unfold bind at 1.
    destruct (resetToBaseline E a s1) as [[[]|e] s'] eqn:Hreset; [|discriminate].
    destruct (resetToBaseline_returns a s1 s' Hreset) as [Hreg Hh].
    rewrite clear_entries_seed, filter_all_true in Hreg by assumption.
    intros Hrest. rewrite <- Hreg. apply IH; try assumption; now rewrite Hreg.
Qed.

(** C9, as the code has it. After a reset that returns (its profile update
    did not throw), the registry holds exactly the entries that were seed
    entries just before the reset, and the history is empty; any number of
    further resets that return leave that registry and that empty
    history. A seed tool that a dynamic tool of the same name has
    overwritten is not among them: the reset removes the dynamic tool and
    does not bring the seed tool back. *)
Theorem reset_converges (assistantId : string) (s s1 : State W) :
  JsMap.wf (registry s) ->
  resetToBaseline E assistantId s = (Ok tt, s1) ->
  registry s1 = filter is_seed (registry s) /\
  history s1 = [] /\
  forall n s2,
    resets E n assistantId s1 = (Ok tt, s2) ->
    registry s2 = registry s1 /\ history s2 = history s1.
Proof.
  intros Hwf Hreset.
  destruct (resetToBaseline_returns assistantId s s1 Hreset) as [Hreg Hh].
  rewrite clear_entries_seed in Hreg by assumption.
  split; [assumption|]. split; [assumption|].
  intros n s2 Hn. rewrite Hh.
  apply (resets_fixed n assistantId s1 s2); try assumption.
  - rewrite Hreg. now apply JsMapFacts.wf_filter.
  - rewrite Hreg. intros x Hx. now apply filter_In in Hx.
Qed.

(** ** vapi.ts: the write of [maxTokens] *)

(** What [updateAssistant] sends for [{ maxTokens: v }]: under the field it
    found, an object made of [provider], [model] and [maxTokens] alone. The
    [existing] sub-object that [getCurrentLlmConfig] returns is not used. *)
Lemma updateAssistant_maxTokens_patch a v (s : State W) :
  updateAssistant E a [("maxTokens"%string, v)] s =
  (llmConfig <- getCurrentLlmConfig E a ;;
   remote (vapiRequest E (assistant_path a) PATCH
             (Some (JObj [(field llmConfig,
                           JObj (obj_of [("provider"%string, provider llmConfig);
                                         ("model"%string, modelName llmConfig);
                                         ("maxTokens"%string, Some v)]))]))) ;;;
   ret tt) s.
Proof.
  unfold updateAssistant, bind. cbn.
  destruct (getCurrentLlmConfig E a s) as [[c|e] s1]; reflexivity.
Qed.

(** What the earlier revision sent: the current model object with
    [maxTokens] set in it. *)
Lemma updateAssistant_v1_maxTokens_patch a v (s : State W) :
  updateAssistant_v1 E a [("maxTokens"%string, v)] s =
  (current <- remote (vapiRequest E (assistant_path a) GET None) ;;
   let model := prop "model" (Some current) in
   let currentModel := if truthy model then model else Some (JObj []) in
   remote (vapiRequest E (assistant_path a) PATCH
             (Some (JObj [("model"%string,
                           JObj (obj_set "maxTokens" v (spread currentModel)))]))) ;;;
   ret tt) s.
Proof.
  unfold updateAssistant_v1, bind. cbn.
  destruct (remote (vapiRequest E _ GET None) s) as [[c|e] s1];
    reflexivity.
Qed.

Lemma obj_get_set_other k k' v (o : object) :
  k' <> k -> obj_get k' (obj_set k v o) = obj_get k' o.
Proof.
  intros Hne. induction o as [|[k0 v0] o IH]; simpl.
  - apply String.eqb_neq in Hne. now rewrite Hne.
  - destruct (String.eqb k k0) eqn:Hk; simpl.
    + apply String.eqb_eq in Hk. subst k0.
      apply String.eqb_neq in Hne. now rewrite Hne.
    + now rewrite IH.
Qed.

End Properties.

(** * The properties on concrete runs *)

Import Fixture.

Ltac nodup_strings :=
  repeat (constructor; [simpl; intuition discriminate|]); constructor.

Lemma fixture_operator_reachable envf p : operator_reachable (ext envf p).
Proof.
  intros msg s. unfold notifyOperator. cbn [env ext].
  destruct (envf "OPERATOR_PHONE"%string) as [phone|]; [|eexists; reflexivity].
  destruct (truthy_str phone); eexists; reflexivity.
Qed.

(** The process after boot, with the assistant reachable, and the answer
    the reasoning service will give. *)
Definition booted (envf : string -> option string) (p : option json)
  (answer : string) : State sim :=
  boot (ext envf parse) (world_with p answer).

(** A dynamic tool under the name of a seed tool. *)
Definition shadowing_tool : RegisteredTool sim :=
  {| name := "check_shipment_status";
     description := "Check a shipment in the TMS";
     parameters := ts_parameters tool_lookup;
     handler := run_handler "return 'in transit'" (Ok "done"%string);
     createdAt := "2026-02-02T00:00:00.000Z";
     isDynamic := true |}.

Lemma registerTool_last_write_wins_witness :
  let s := booted no_env (Some live_profile) "none" in
  exists old,
    JsMap.get (name shadowing_tool) (registry s) = Some old /\
    fst (getTool (name shadowing_tool) (snd (registerTool shadowing_tool s)))
      = Ok (Some shadowing_tool) /\
    JsMap.keys (registry (snd (registerTool shadowing_tool s)))
      = JsMap.keys (registry s).
Proof.
  intros s. eexists. split; [reflexivity|].
  destruct (registerTool_last_write_wins s shadowing_tool _ eq_refl)
    as (_ & Hget & Hkeys & _).
  split; assumption.
Defined.

(** A process with four seed tools and one dynamic tool. *)
Definition with_dynamic_tool : State sim :=
  snd (createAndRegisterTool (ext no_env parse) tool_lookup
         (booted no_env (Some live_profile) "none")).

Lemma clearDynamicTools_keeps_exactly_seed_witness :
  JsMap.wf (registry with_dynamic_tool) /\
  JsMap.keys (registry with_dynamic_tool)
    = ["check_shipment_status"; "send_customer_whatsapp";
       "send_email_notification"; "escalate_to_operator"; "lookup_eta"]%string /\
  JsMap.keys (registry (snd (clearDynamicTools with_dynamic_tool)))
    = ["check_shipment_status"; "send_customer_whatsapp";
       "send_email_notification"; "escalate_to_operator"]%string.
Proof.
  assert (Hwf : JsMap.wf (registry with_dynamic_tool)).
  { unfold JsMap.wf. vm_compute. nodup_strings. }
  split; [exact Hwf|]. split; [reflexivity|].
  destruct (clearDynamicTools_keeps_exactly_seed with_dynamic_tool Hwf)
    as (_ & Hreg & _).
  rewrite Hreg. reflexivity.
Defined.

Lemma fetch_failure_aborts_without_record_witness :
  let E := ext full_env parse in
  let s := booted full_env (Some live_profile) "none" in
  let down := booted full_env None "none" in
  let e := "Vapi GET /call/call-9 failed (404): not found"%string in
  let e' := "Vapi GET /assistant/asst-1 failed (503): unavailable"%string in
  (* an unknown call *)
  fst (getCall E "call-9" s) = Throw e /\
  fst (analyzeAndImprove E "call-9" "asst-1" None s) = Throw e /\
  history (snd (analyzeAndImprove E "call-9" "asst-1" None s)) = history s /\
  (* a known call, an assistant that cannot be read *)
  (exists call s1, getCall E "call-1" down = (Ok call, s1) /\
                   fst (getAssistant E "asst-1" s1) = Throw e') /\
  fst (analyzeAndImprove E "call-1" "asst-1" None down) = Throw e' /\
  history (snd (analyzeAndImprove E "call-1" "asst-1" None down)) = history down.
Proof.
  intros E s down e e'. split; [reflexivity|].
  destruct (fetch_failure_aborts_without_record E "call-9" "asst-1" None s e
              (or_introl eq_refl)) as (Hres & Hhist & _).
  split; [assumption|]. split; [assumption|].
  assert (H : exists call s1, getCall E "call-1" down = (Ok call, s1) /\
                              fst (getAssistant E "asst-1" s1) = Throw e').
  { eexists. eexists. split; reflexivity. }
  split; [exact H|].
  destruct (fetch_failure_aborts_without_record E "call-1" "asst-1" None down e'
              (or_intror H)) as (Hres' & Hhist' & _).
  split; assumption.
Defined.

Lemma createAndRegisterTool_survives_provider_failure_witness :
  let E := ext full_env parse in
  let s := booted full_env None "none" in
  (* the provider is down: creating the tool on it throws *)
  fst (createVapiTool E (ts_name tool_lookup) (ts_description tool_lookup)
         (ts_parameters tool_lookup) "https://ruya.test/vapi/tool-calls" s)
    = Throw "Vapi POST /tool failed (503): unavailable"%string /\
  new_Function E (ts_handlerCode tool_lookup)
    = Ok (run_handler (ts_handlerCode tool_lookup) (Ok "done"%string)) /\
  operator_reachable E /\
  exists tool s',
    createAndRegisterTool E tool_lookup s = (Ok tool, s') /\
    name tool = ts_name tool_lookup /\
    isDynamic tool = true /\
    fst (getTool (ts_name tool_lookup) s') = Ok (Some tool).
Proof.
  intros E s. split; [reflexivity|]. split; [reflexivity|].
  split; [apply fixture_operator_reachable|].
  destruct (createAndRegisterTool_survives_provider_failure E tool_lookup _ s
              eq_refl (fixture_operator_reachable full_env parse))
    as (tool & s' & Hrun & Hname & _ & Hdyn & Hget & _).
  exists tool, s'. repeat split; assumption.
Defined.

(** The reply of the reasoning service, fenced as it usually is. *)
Definition fenced (text : string) : string :=
  ("```json" ++ nl ++ text ++ nl ++ "```")%string.

Lemma one_failed_capability_does_not_abort_witness :
  let E := ext full_env parse in
  let s := booted full_env (Some live_profile) (fenced "{two tools}") in
  let analysis := analysis_of (Some [tool_broken; tool_lookup]) None in
  (exists call s1 assistant s2 s3,
     getCall E "call-1" s = (Ok call, s1) /\
     getAssistant E "asst-1" s1 = (Ok assistant, s2) /\
     analyzeTranscriptWithRaw E (call_transcript call) (systemMessage assistant)
       (config assistant) (existing_tools s2) s2
     = (Ok (analysis, fenced "{two tools}"), s3)) /\
  new_Function E (ts_handlerCode tool_broken) = Throw "Unexpected identifier"%string /\
  (exists h, new_Function E (ts_handlerCode tool_lookup) = Ok h) /\
  operator_reachable E /\
  exists record s',
    analyzeAndImprove E "call-1" "asst-1" (Some "+971501234567"%string) s
      = (Ok record, s') /\
    history s' = history s ++ [record] /\
    In "lookup_eta"%string (toolsCreated record) /\
    exists entry,
      In entry (pipelineLog record) /\
      step entry = "create_tool"%string /\ status entry = error /\
      detail entry = create_failed tool_broken "Unexpected identifier".
Proof.
  intros E s analysis.
  split; [do 5 eexists; repeat split; reflexivity|].
  split; [reflexivity|]. split; [eexists; reflexivity|].
  split; [apply fixture_operator_reachable|].
  eapply (one_failed_capability_does_not_abort E "call-1" "asst-1"
            (Some "+971501234567"%string) s _ _ _ _ _ analysis
            (fenced "{two tools}") tool_broken tool_lookup tool_broken tool_lookup).
  - reflexivity.
  - reflexivity.
  - reflexivity.
  - reflexivity.
  - left. split; reflexivity.
  - reflexivity.
  - reflexivity.
  - apply fixture_operator_reachable.
Defined.

(** The tool that [tool_throwing] becomes. *)
Definition throwing_tool : RegisteredTool sim :=
  {| name := ts_name tool_throwing;
     description := ts_description tool_throwing;
     parameters := ts_parameters tool_throwing;
     handler := run_handler (ts_handlerCode tool_throwing) (Throw "boom"%string);
     createdAt := "2026-02-01T00:00:00.000Z";
     isDynamic := true |}.


Definition bad_ending_report : Payload :=
  {| message := Some {| type := "end-of-call-report";
                        call := Some {| id := Some "call-1"%string;
                                        assistantId_of := None;
                                        customer := Some {| number := Some "+971501234567"%string |} |};
                        endedReason := Some "customer-busy"%string |} |}.

Definition good_ending_report : Payload :=
  {| message := Some {| type := "end-of-call-report";
                        call := Some {| id := Some "call-1"%string;
                                        assistantId_of := Some "asst-1"%string;
                                        customer := None |};
                        endedReason := Some "assistant-ended-call"%string |} |}.

Lemma webhook_triggers_iff_bad_ending_witness :
  let E := ext full_env parse in
  let s := booted full_env (Some live_profile) "none" in
  pipeline_trigger E bad_ending_report
    = Some ("call-1", "asst-1", Some "+971501234567")%string /\
  pipeline_trigger E good_ending_report = None /\
  server_message E good_ending_report s = (Ok ack, s) /\
  history (snd (server_message E good_ending_report s)) = [] /\
  server_message E bad_ending_report s
  = (Ok ack, snd (analyzeAndImprove E "call-1" "asst-1"
                    (Some "+971501234567"%string) s)) /\
  history s = [] /\
  List.length (history (snd (server_message E bad_ending_report s))) = 1.
Proof.
  intros E s.
  destruct (webhook_triggers_iff_bad_ending E good_ending_report _ s
              eq_refl eq_refl) as (_ & _ & Hnone & _).
  destruct (webhook_triggers_iff_bad_ending E bad_ending_report _ s
              eq_refl eq_refl) as (_ & _ & _ & _ & Hsome & _).
  split; [reflexivity|]. split; [reflexivity|].
  split; [exact (Hnone eq_refl)|].
  split; [now rewrite (Hnone eq_refl)|].
  split; [exact (Hsome _ _ _ eq_refl)|].
  split; [reflexivity|].
  rewrite (Hsome _ _ _ eq_refl). vm_compute. reflexivity.
Defined.

Lemma parse_failure_gives_fixed_result_witness :
  let E := ext no_env parse in
  let answer := "I could not analyze this call."%string in
  let s := booted no_env (Some live_profile) answer in
  existing_workflows E s = (Ok N8nNotConfigured, s) /\
  JSON_parse E (clean (block_text (TextBlock answer))) = None /\
  exists parsed s2,
    analyzeTranscriptWithRaw E (Some "User: hello"%string) "Be brief." live_profile [] s
      = (Ok (parsed, answer), s2) /\
    failures parsed = ["Could not parse analysis output"%string] /\
    configChanges parsed = [("systemMessage"%string, JStr "Be brief.")] /\
    newTools parsed = None /\ newWorkflows parsed = None /\
    resourceRequests parsed = None.
Proof.
  intros E answer s. split; [reflexivity|]. split; [reflexivity|].
  destruct (parse_failure_gives_fixed_result E (Some "User: hello"%string)
              "Be brief." live_profile [] s s N8nNotConfigured
              (TextBlock answer) [] (world s) eq_refl eq_refl eq_refl)
    as (parsed & s2 & Hrun & Hf & _ & Hc & Ht & Hw & Hr & _).
  exists parsed, s2. repeat split; assumption.
Defined.

(** The process after one reset, and after three more. *)
Definition reset_once : State sim :=
  snd (resetToBaseline (ext no_env parse) "asst-1" with_dynamic_tool).

Definition reset_again : State sim :=
  snd (resets (ext no_env parse) 3 "asst-1" reset_once).

Lemma reset_converges_witness :
  let E := ext no_env parse in
  JsMap.wf (registry with_dynamic_tool) /\
  resetToBaseline E "asst-1" with_dynamic_tool = (Ok tt, reset_once) /\
  JsMap.keys (registry reset_once)
    = ["check_shipment_status"; "send_customer_whatsapp";
       "send_email_notification"; "escalate_to_operator"]%string /\
  history reset_once = [] /\
  resets E 3 "asst-1" reset_once = (Ok tt, reset_again) /\
  registry reset_again = registry reset_once /\
  history reset_again = history reset_once.
Proof.
  intros E.
  assert (Hwf : JsMap.wf (registry with_dynamic_tool)).
  { unfold JsMap.wf. vm_compute. nodup_strings. }
  assert (H1 : resetToBaseline E "asst-1" with_dynamic_tool = (Ok tt, reset_once))
    by (vm_compute; reflexivity).
  assert (H3 : resets E 3 "asst-1" reset_once = (Ok tt, reset_again))
    by (vm_compute; reflexivity).
  destruct (reset_converges E "asst-1" with_dynamic_tool reset_once Hwf H1)
    as (Hreg & Hh & Hn).
  split; [exact Hwf|]. split; [exact H1|].
  split; [vm_compute; reflexivity|]. split; [exact Hh|].
  split; [exact H3|]. exact (Hn 3 reset_again H3).
Defined.

(** ** Where the code departs from the stated properties *)

(** C1. One [updateAssistant] with [{ maxTokens: 500 }] on a live
    assistant whose model object holds a temperature and the system
    message: the model object that is written back holds the provider, the
    model name and the new limit only. The temperature and the messages
    are gone from the stored assistant, and with them its system prompt.
    The earlier revision of the function, run on the same assistant,
    writes the whole model object back with the limit changed. *)
Lemma updateAssistant_drops_model_siblings :
  let E := ext no_env parse in
  let s := booted no_env (Some live_profile) "none" in
  let changes := [("maxTokens"%string, JNum 500%Q)] in
  let after := profile (world (snd (updateAssistant E "asst-1" changes s))) in
  let after_v1 := profile (world (snd (updateAssistant_v1 E "asst-1" changes s))) in
  fst (updateAssistant E "asst-1" changes s) = Ok tt /\
  prop "model" (profile (world s)) = Some (JObj live_model) /\
  prop "temperature" (prop "model" (profile (world s))) = Some (JNum (7 # 10)) /\
  prop "model" after
    = Some (JObj [("provider"%string, JStr "anthropic");
                  ("model"%string, JStr "claude-sonnet-4-5-20250929");
                  ("maxTokens"%string, JNum 500%Q)]) /\
  prop "temperature" (prop "model" after) = None /\
  prop "messages" (prop "model" after) = None /\
  option_map extractSystemMessage (profile (world s))
    = Some "You are a logistics assistant."%string /\
  option_map extractSystemMessage after = Some EmptyString /\
  prop "model" after_v1
    = Some (JObj (obj_set "maxTokens" (JNum 500%Q) live_model)) /\
  prop "temperature" (prop "model" after_v1) = Some (JNum (7 # 10)).
Proof. vm_compute. repeat split. Qed.

(** C2. A reply that does not parse: the failures list of the result is
    not the text that the specification quotes. *)
Lemma parse_failure_text_differs :
  let E := ext no_env parse in
  let answer := "I could not analyze this call."%string in
  let s := booted no_env (Some live_profile) answer in
  let run := analyzeTranscriptWithRaw E (Some "User: hello"%string) "Be brief."
               live_profile [] s in
  JSON_parse E (clean answer) = None /\
  fst run = Ok (parse_error_result "Be brief.", answer) /\
  failures (parse_error_result "Be brief.") <> ["could not parse output"%string].
Proof.
  intros E answer s run. split; [reflexivity|]. split; [vm_compute; reflexivity|].
  simpl. intros H. discriminate H.
Qed.

(** A run whose analysis asks for the workflow that the prompt gives as
    its example, in a deployment with n8n configured. *)
Definition workflow_run : Result ImprovementRecord * State sim :=
  analyzeAndImprove (ext full_env parse) "call-1" "asst-1" None
    (booted full_env (Some live_profile) (fenced "{whatsapp workflow}")).


(** C9. After that run the seed tool [send_customer_whatsapp] has been
    overwritten by the wiring tool of the same name; a reset then removes
    it, and the registry is left with three of the four seed tools. *)
Lemma reset_does_not_restore_overwritten_seed :
  let E := ext full_env parse in
  let started := booted full_env (Some live_profile) (fenced "{whatsapp workflow}") in
  let after_reset := snd (resetToBaseline E "asst-1" (snd workflow_run)) in
  JsMap.keys (registry started)
    = ["check_shipment_status"; "send_customer_whatsapp";
       "send_email_notification"; "escalate_to_operator"]%string /\
  option_map (@isDynamic sim)
    (JsMap.get "send_customer_whatsapp" (registry started)) = Some false /\
  fst (resetToBaseline E "asst-1" (snd workflow_run)) = Ok tt /\
  JsMap.keys (registry after_reset)
    = ["check_shipment_status"; "send_email_notification";
       "escalate_to_operator"]%string /\
  JsMap.keys (registry after_reset) <> JsMap.keys (registry started) /\
  history after_reset = [].
Proof.
  vm_compute. repeat split. intros H. discriminate H.
Qed.

(** * Further properties of the backend *)

Section MoreProperties.

Context {W : Type}.
Variable E : Ext W.

(** ** vapi.ts *)

(** The fields of [AssistantConfig] that [updateAssistant] looks at. *)
Definition known_fields : list string :=
  ["systemMessage"; "maxTokens"; "toolIds"; "voiceSpeed"; "firstMessage";
   "silenceTimeoutSeconds"; "maxDurationSeconds"; "messagePlan"]%string.

(** The process state with another outside world. *)
Definition in_world (w : W) (s : State W) : State W :=
  {| world := w; registry := registry s; history := history s |}.

Lemma remote_run {A} (f : W -> Result A * W) (s : State W) res w :
  f (world s) = (res, w) -> remote f s = (res, in_world w s).
Proof. intros H. unfold remote. now rewrite H. Qed.

(** X1. Changes that set none of the fields [updateAssistant] knows
    (the empty object among them) make no request at all: the call
    returns and the process and the outside world are as before. *)
Theorem updateAssistant_without_known_field
  (assistantId : string) (changes : object) (s : State W) :
  (forall k, In k known_fields -> obj_get k changes = None) ->
  updateAssistant E assistantId changes s = (Ok tt, s).
Proof.
  intros H. unfold updateAssistant, patch_voice, send_patch, copy_field.
  rewrite !H by (simpl; tauto). reflexivity.
Qed.

Lemma getCurrentLlmConfig_throws a (s : State W) e w :
  vapiRequest E (assistant_path a) GET None (world s) = (Throw e, w) ->
  getCurrentLlmConfig E a s = (Throw e, in_world w s).
Proof.
  intros H. unfold getCurrentLlmConfig.
  erewrite bind_Throw; [reflexivity|]. now apply remote_run.
Qed.

(** X2. When the changes set [maxTokens] or [voiceSpeed], the live
    assistant is read before anything is written; if that read throws,
    [updateAssistant] throws the same error and the outside world is as
    the failed read left it: no PATCH is sent, not even for the other
    fields of the changes. *)
Theorem updateAssistant_read_failure_writes_nothing
  (assistantId : string) (changes : object) (s : State W) (e : string) (w : W) :
  obj_get "maxTokens" changes <> None \/ obj_get "voiceSpeed" changes <> None ->
  vapiRequest E (assistant_path assistantId) GET None (world s) = (Throw e, w) ->
  updateAssistant E assistantId changes s = (Throw e, in_world w s).
Proof.
  intros Hsome Hget. unfold updateAssistant.
  destruct (obj_get "maxTokens" changes) as [v|] eqn:Hmax.
  - erewrite bind_Throw; [reflexivity|].
    erewrite bind_Throw; [reflexivity|].
    now apply getCurrentLlmConfig_throws.
  - erewrite bind_Ok; [|reflexivity].
    destruct Hsome as [Hsome|Hsome]; [congruence|].
    unfold patch_voice.
    destruct (obj_get "voiceSpeed" changes) as [v|]; [|congruence].
    erewrite bind_Throw; [reflexivity|].
    erewrite bind_Throw; [reflexivity|]. now apply remote_run.
Qed.

Lemma obj_get_set_same k v (o : object) : obj_get k (obj_set k v o) = Some v.
Proof.
  induction o as [|[k' v'] o IH]; simpl.
  - now rewrite String.eqb_refl.
  - destruct (String.eqb k k') eqn:Hk; simpl.
    + now rewrite String.eqb_refl.
    + now rewrite Hk.
Qed.

Lemma obj_get_set_diff k k' v (o : object) :
  k' <> k -> obj_get k' (obj_set k v o) = obj_get k' o.
Proof.
  intros Hne. induction o as [|[k0 v0] o IH]; simpl.
  - apply String.eqb_neq in Hne. now rewrite Hne.
  - destruct (String.eqb k k0) eqn:Hk; simpl.
    + apply String.eqb_eq in Hk. subst k0.
      apply String.eqb_neq in Hne. now rewrite Hne.
    + now rewrite IH.
Qed.

Lemma length_obj_set k v (o : object) :
  List.length o <= List.length (obj_set k v o).
Proof.
  induction o as [|[k' v'] o IH]; simpl; [lia|].
  destruct (String.eqb k k'); simpl; lia.
Qed.

(** X3. A change of [voiceSpeed] alone reads the live assistant and sends
    one PATCH whose only field is [voice]: the current voice object with
    [speed] set to the new value and every other field of it as it was. *)
Theorem updateAssistant_voiceSpeed_keeps_voice_fields
  (assistantId : string) (v : json) (s : State W)
  (result : json) (voice : object) (w : W) :
  vapiRequest E (assistant_path assistantId) GET None (world s) = (Ok result, w) ->
  prop "voice" (Some result) = Some (JObj voice) ->
  exists written,
    updateAssistant E assistantId [("voiceSpeed"%string, v)] s
    = (remote (vapiRequest E (assistant_path assistantId) PATCH
                 (Some (JObj [("voice"%string, JObj written)]))) ;;;
       ret tt) (in_world w s) /\
    obj_get "speed" written = Some v /\
    (forall k, k <> "speed"%string -> obj_get k written = obj_get k voice) /\
    List.length voice <= List.length written.
Proof.
  intros Hget Hvoice. exists (obj_set "speed" v voice).
  split; [|split; [apply obj_get_set_same|split]].
  - unfold updateAssistant, patch_voice.
    erewrite bind_Ok; [|reflexivity]. cbn [obj_get String.eqb Ascii.eqb Bool.eqb copy_field].
    erewrite bind_Ok.
    2:{ erewrite bind_Ok; [|apply remote_run; exact Hget]. rewrite Hvoice.
        reflexivity. }
    reflexivity.
  - intros k Hk. now apply obj_get_set_diff.
  - apply length_obj_set.
Qed.

(** X4. Where the system prompt is read from: a string under
    "instructions" at the root is the prompt, whatever else the assistant
    holds, so an assistant with "instructions" set to [p] reads back as
    [p]; an assistant with no "instructions" string and neither a "model"
    nor an "llm" object has the empty prompt. *)
Theorem extractSystemMessage_reads_root_instructions (o : object) (p : string) :
  extractSystemMessage (JObj (obj_set "instructions" (JStr p) o)) = p /\
  (obj_get "instructions" o = None ->
   obj_get "model" o = None -> obj_get "llm" o = None ->
   extractSystemMessage (JObj o) = EmptyString).
Proof.
  split.
  - unfold extractSystemMessage. cbn [prop]. now rewrite obj_get_set_same.
  - intros Hi Hm Hl. unfold extractSystemMessage. cbn [prop].
    now rewrite Hi, Hm, Hl.
Qed.

(** X5. The place of the LLM settings is probed in a fixed order. When
    the live assistant names a provider neither under "model" nor under
    "llm", a change of [maxTokens] writes a "model" object with the
    provider "openai" and the model "gpt-4o" beside the new limit. *)
Theorem updateAssistant_maxTokens_falls_back_to_openai
  (assistantId : string) (v : json) (s : State W) (result : json) (w : W) :
  vapiRequest E (assistant_path assistantId) GET None (world s) = (Ok result, w) ->
  truthy (prop "provider" (prop "model" (Some result))) = false ->
  truthy (prop "provider" (prop "llm" (Some result))) = false ->
  updateAssistant E assistantId [("maxTokens"%string, v)] s
  = (remote (vapiRequest E (assistant_path assistantId) PATCH
               (Some (JObj [("model"%string,
                             JObj [("provider"%string, JStr "openai");
                                   ("model"%string, JStr "gpt-4o");
                                   ("maxTokens"%string, v)])]))) ;;;
     ret tt) (in_world w s).
Proof.
  intros Hget Hm Hl. rewrite updateAssistant_maxTokens_patch.
  erewrite bind_Ok.
  2:{ unfold getCurrentLlmConfig.
      erewrite bind_Ok; [|apply remote_run; exact Hget].
      rewrite Hm, Hl. reflexivity. }
  reflexivity.
Qed.

(** X6. The same probe when "llm" names a provider and "model" does
    not: a change of [maxTokens] writes the limit under "llm", beside the
    provider that was read there. *)
Theorem updateAssistant_maxTokens_under_llm
  (assistantId : string) (v : json) (s : State W) (result : json) (w : W) :
  vapiRequest E (assistant_path assistantId) GET None (world s) = (Ok result, w) ->
  truthy (prop "provider" (prop "model" (Some result))) = false ->
  truthy (prop "provider" (prop "llm" (Some result))) = true ->
  exists written,
    updateAssistant E assistantId [("maxTokens"%string, v)] s
    = (remote (vapiRequest E (assistant_path assistantId) PATCH
                 (Some (JObj [("llm"%string, JObj written)]))) ;;;
       ret tt) (in_world w s) /\
    obj_get "provider" written = prop "provider" (prop "llm" (Some result)) /\
    obj_get "maxTokens" written = Some v.
Proof.
  intros Hget Hm Hl.
  destruct (prop "provider" (prop "llm" (Some result))) as [pv|] eqn:Hp;
    [|discriminate].
  eexists. split.
  - rewrite updateAssistant_maxTokens_patch.
    erewrite bind_Ok.
    2:{ unfold getCurrentLlmConfig.
        erewrite bind_Ok; [|apply remote_run; exact Hget].
        rewrite Hm, Hp, Hl. reflexivity. }
    reflexivity.
  - cbn [provider modelName obj_of flat_map snd fst app].
    split; [reflexivity|].
    destruct (prop "model" (prop "llm" (Some result))); reflexivity.
Qed.

(** ** tools.ts *)

Lemma set_fresh {V} k (v : V) (m : JsMap.t V) :
  JsMap.get k m = None -> JsMap.set k v m = m ++ [(k, v)].
Proof.
  induction m as [|[k' v'] m IH]; simpl; [reflexivity|].
  destruct (String.eqb k k'); [discriminate|].
  intros H. now rewrite IH.
Qed.

Lemma keys_set_in {V} k k0 (v : V) (m : JsMap.t V) :
  In k0 (JsMap.keys (JsMap.set k v m)) -> k0 = k \/ In k0 (JsMap.keys m).
Proof.
  unfold JsMap.keys. induction m as [|[k' v'] m IH]; simpl.
  - intros [<-|[]]. now left.
  - destruct (String.eqb k k') eqn:Hk; simpl.
    + apply String.eqb_eq in Hk. subst k'. tauto.
    + intros [<-|H]; [tauto|]. destruct (IH H); tauto.
Qed.

Lemma wf_set {V} k (v : V) (m : JsMap.t V) :
  JsMap.wf m -> JsMap.wf (JsMap.set k v m).
Proof.
  unfold JsMap.wf. induction m as [|[k' v'] m IH]; simpl; intros Hwf.
  - constructor; [tauto|constructor].
  - inversion Hwf as [|? ? Hnotin Hwf']; subst.
    destruct (String.eqb k k') eqn:Hk; simpl.
    + apply String.eqb_eq in Hk. subst k'. now constructor.
    + constructor; [|now apply IH].
      intros Hin. apply (keys_set_in k k' v m) in Hin as [->|Hin].
      * now rewrite String.eqb_refl in Hk.
      * now apply Hnotin.
Qed.

(** X7. The tools are listed in the order in which their names were
    first registered: a tool registered under a name that is not yet in
    the registry goes to the end of [getAllTools], and the tools already
    there keep their places. *)
Theorem getAllTools_keeps_insertion_order (tool : RegisteredTool W) (s : State W) :
  fst (getTool (name tool) s) = Ok None ->
  fst (getAllTools (snd (registerTool tool s)))
  = Ok (JsMap.values (registry s) ++ [tool]).
Proof.
  cbn. intros [= H]. rewrite (set_fresh _ _ _ H).
  unfold JsMap.values. now rewrite map_app.
Qed.

Lemma createAndRegisterTool_registry spec (s : State W) :
  registry (snd (createAndRegisterTool E spec s))
  = match new_Function E (ts_handlerCode spec) with
    | Ok h => JsMap.set (ts_name spec)
                (dynamic_tool spec h (now E (world s))) (registry s)
    | Throw _ => registry s
    end.
Proof.
  rewrite createAndRegisterTool_unfold.
  destruct (new_Function E (ts_handlerCode spec)) as [h|e] eqn:Hh.
  - erewrite bind_Ok; [|unfold buildHandler; now rewrite Hh].
    erewrite bind_Ok; [|reflexivity]. cbv zeta.
    erewrite bind_Ok; [|reflexivity].
    match goal with
    | |- registry (snd (?m ?s1)) = _ =>
        assert (Hext : external m);
        [|exact (proj1 (Hext s1))]
    end.
    apply external_bind; [apply external_provider_sync|]. intros _.
    apply external_bind; [apply external_notifyOperator|]. intros _.
    apply external_ret.
  - erewrite bind_Throw; [reflexivity|]. unfold buildHandler. now rewrite Hh.
Qed.

(** X8. The names in the registry stay unique: registering a tool,
    clearing the dynamic tools and creating a tool from a spec each take a
    registry with unique names to one with unique names, and the registry
    that [seedTools] builds from the empty one has unique names. *)
Theorem registry_names_stay_unique (s : State W) :
  JsMap.wf (registry s) ->
  (forall tool, JsMap.wf (registry (snd (registerTool tool s)))) /\
  JsMap.wf (registry (snd (clearDynamicTools s))) /\
  (forall spec, JsMap.wf (registry (snd (createAndRegisterTool E spec s)))) /\
  (registry s = [] -> JsMap.wf (registry (snd (seedTools E s)))).
Proof.
  intros Hwf. split; [|split; [|split]].
  - intros tool. cbn. now apply wf_set.
  - cbn. rewrite clear_entries_seed by assumption.
    now apply JsMapFacts.wf_filter.
  - intros spec. rewrite createAndRegisterTool_registry.
    destruct (new_Function E (ts_handlerCode spec)); [now apply wf_set|assumption].
  - intros Hempty. cbn. rewrite Hempty. cbn.
    unfold JsMap.wf. cbn.
    repeat (constructor; [simpl; intuition discriminate|]). constructor.
Qed.

(** X9. A spec whose handler source does not compile changes nothing:
    [createAndRegisterTool] throws the compile error before it registers
    the tool, calls the provider or notifies the operator. *)
Theorem createAndRegisterTool_rejects_bad_source
  (spec : ToolSpec) (s : State W) (e : string) :
  new_Function E (ts_handlerCode spec) = Throw e ->
  createAndRegisterTool E spec s = (Throw e, s) /\
  fst (getTool (ts_name spec) (snd (createAndRegisterTool E spec s)))
  = fst (getTool (ts_name spec) s).
Proof.
  intros Hh.
  assert (H : createAndRegisterTool E spec s = (Throw e, s)).
  { rewrite createAndRegisterTool_unfold.
    erewrite bind_Throw; [reflexivity|]. unfold buildHandler. now rewrite Hh. }
  split; [exact H|]. now rewrite H.
Qed.

(** X10. A tool is registered before the provider is called and before
    the operator is told: once its source compiles, the tool is in the
    registry after [createAndRegisterTool], also when the call ends in a
    thrown error (the operator notice failed), and the call throws only
    if that notice throws. *)
Theorem createAndRegisterTool_registers_first
  (spec : ToolSpec) (h : ToolHandler W) (s : State W) :
  new_Function E (ts_handlerCode spec) = Ok h ->
  fst (getTool (ts_name spec) (snd (createAndRegisterTool E spec s)))
  = Ok (Some (dynamic_tool spec h (now E (world s)))) /\
  history (snd (createAndRegisterTool E spec s)) = history s /\
  (forall e, fst (createAndRegisterTool E spec s) = Throw e ->
     exists msg s1, fst (notifyOperator E msg s1) = Throw e).
Proof.
  intros Hh. split; [|split].
  - cbn. rewrite createAndRegisterTool_registry, Hh.
    now rewrite JsMapFacts.get_set_same.
  - apply keeps_history_createAndRegisterTool.
  - intros e. rewrite createAndRegisterTool_unfold.
    erewrite bind_Ok; [|unfold buildHandler; now rewrite Hh].
    erewrite bind_Ok; [|reflexivity]. cbv zeta.
    erewrite bind_Ok; [|reflexivity].
    match goal with
    | |- context [provider_sync E spec ;;; _] =>
        match goal with
        | |- fst (bind _ _ ?s1) = _ -> _ =>
            destruct (provider_sync_returns E spec s1) as [s2 Hs2];
            rewrite (bind_Ok _ _ _ _ _ Hs2)
        end
    end.
    match goal with
    | |- context [notifyOperator E ?msg] =>
        destruct (notifyOperator E msg s2) as [[[]|e'] s3] eqn:Hn
    end.
    + erewrite bind_Ok; [|exact Hn]. discriminate.
    + erewrite bind_Throw; [|exact Hn]. intros [= ->].
      eexists. exists s2. now rewrite Hn.
Qed.

(** ** integrations.ts *)

(** The chat id that [sendWhatsApp] sends to. *)
Definition chat_id (to : string) : string :=
  if includes_char "@"%char to then to else (to ++ "@s.whatsapp.net")%string.

Lemma includes_char_app c (a b : string) :
  includes_char c (a ++ b)%string = includes_char c a || includes_char c b.
Proof.
  induction a as [|x a IH]; simpl; [reflexivity|].
  destruct (Ascii.eqb x c); [reflexivity|exact IH].
Qed.

Lemma sendWhatsApp_unfold to body :
  sendWhatsApp E to body =
  (res <- remote (whapi_send_text E (chat_id to) body) ;;
   match res with
   | WhapiNotOk => ret {| sent := Some (JBool false); sent_id := None |}
   | WhapiBody data =>
       ret {| sent := prop "sent" (Some data);
              sent_id := prop "id" (prop "message" (Some data)) |}
   end).
Proof. reflexivity. Qed.

(** X11. [sendWhatsApp] addresses a chat id: a recipient without "@" gets
    the suffix "@s.whatsapp.net", one with "@" is used as it is, so the
    address it sends to always holds an "@" and addressing is idempotent.
    A reply that is not [ok] is not an exception: the call returns
    [{ sent: false }]. *)
Theorem sendWhatsApp_addresses_chat_id (to body : string) (s : State W) :
  includes_char "@"%char (chat_id to) = true /\
  chat_id (chat_id to) = chat_id to /\
  (forall w, whapi_send_text E (chat_id to) body (world s) = (Ok WhapiNotOk, w) ->
     sendWhatsApp E to body s
     = (Ok {| sent := Some (JBool false); sent_id := None |}, in_world w s)) /\
  (forall e w, whapi_send_text E (chat_id to) body (world s) = (Throw e, w) ->
     sendWhatsApp E to body s = (Throw e, in_world w s)).
Proof.
  assert (Hat : includes_char "@"%char (chat_id to) = true).
  { unfold chat_id. destruct (includes_char "@"%char to) eqn:H; [exact H|].
    rewrite includes_char_app. simpl. apply orb_true_r. }
  split; [exact Hat|]. split; [|split].
  - unfold chat_id at 1. now rewrite Hat.
  - intros w Hw. rewrite sendWhatsApp_unfold.
    erewrite bind_Ok; [|apply remote_run; exact Hw]. reflexivity.
  - intros e w Hw. rewrite sendWhatsApp_unfold.
    erewrite bind_Throw; [reflexivity|]. apply remote_run. exact Hw.
Qed.

(** X12. Without an operator phone ([OPERATOR_PHONE] unset or empty)
    [notifyOperator] sends nothing and returns; with one, it sends exactly
    the message, prefixed, to the chat id of that phone. *)
Theorem notifyOperator_needs_a_phone (msg : string) (s : State W) :
  (truthy_ostr (env E "OPERATOR_PHONE") = false ->
   notifyOperator E msg s = (Ok tt, s)) /\
  (forall phone, env E "OPERATOR_PHONE" = Some phone -> truthy_str phone = true ->
   forall rep w,
     whapi_send_text E (chat_id phone) ("ðŸ¤– Agent: " ++ msg)%string (world s)
       = (Ok rep, w) ->
     notifyOperator E msg s = (Ok tt, in_world w s)).
Proof.
  split.
  - unfold notifyOperator.
    destruct (env E "OPERATOR_PHONE") as [phone|]; [|reflexivity].
    simpl. now intros ->.
  - intros phone Hp Ht rep w Hw. unfold notifyOperator. rewrite Hp, Ht.
    rewrite sendWhatsApp_unfold.
    destruct rep as [|data].
    + erewrite bind_Ok.
      2:{ erewrite bind_Ok; [|apply remote_run; exact Hw]. reflexivity. }
      reflexivity.
    + erewrite bind_Ok.
      2:{ erewrite bind_Ok; [|apply remote_run; exact Hw]. reflexivity. }
      reflexivity.
Qed.

(** ** self-improve.ts: cleaning the reply of the reasoning service *)

Lemma append_empty_r (s : string) : (s ++ EmptyString)%string = s.
Proof. induction s as [|a s IH]; simpl; [reflexivity|now rewrite IH]. Qed.

Lemma append_assoc (a b c : string) : ((a ++ b) ++ c = a ++ (b ++ c))%string.
Proof. induction a as [|x a IH]; simpl; [reflexivity|now rewrite IH]. Qed.

Lemma length_append (a b : string) :
  String.length (a ++ b) = String.length a + String.length b.
Proof. induction a as [|x a IH]; simpl; [reflexivity|now rewrite IH]. Qed.

Lemma starts_with_app (p r : string) : starts_with p (p ++ r) = true.
Proof.
  induction p as [|a p IH]; simpl; [reflexivity|].
  now rewrite Ascii.eqb_refl, IH.
Qed.

Lemma starts_with_refl (s : string) : starts_with s s = true.
Proof.
  induction s as [|a s IH]; simpl; [reflexivity|].
  now rewrite Ascii.eqb_refl, IH.
Qed.

Lemma starts_with_inv (p s : string) :
  starts_with p s = true -> exists r, s = (p ++ r)%string.
Proof.
  revert s. induction p as [|a p IH]; intros s H.
  - now exists s.
  - destruct s as [|b s]; [discriminate|]. simpl in H.
    apply andb_prop in H as [Hab Hp]. apply Ascii.eqb_eq in Hab. subst b.
    destruct (IH s Hp) as [r ->]. now exists r.
Qed.

(** A prefix of [t ++ x] is a prefix of [t], or [t] and a prefix of [x]. *)
Lemma starts_with_app_inv (w t x : string) :
  starts_with w (t ++ x) = true ->
  starts_with w t = true \/
  exists r, w = (t ++ r)%string /\ starts_with r x = true.
Proof.
  revert t. induction w as [|a w IH]; intros t H; [now left|].
  destruct t as [|b t].
  - right. now exists (String a w).
  - simpl in H. apply andb_prop in H as [Hab Hw].
    destruct (IH t Hw) as [Hl|(r & -> & Hr)].
    + left. simpl. now rewrite Hab, Hl.
    + right. exists r. apply Ascii.eqb_eq in Hab. subst b. now split.
Qed.

(** [s.slice(n)] *)
Fixpoint string_drop (n : nat) (s : string) : string :=
  match n, s with
  | O, _ => s
  | S n', String _ s' => string_drop n' s'
  | S _, EmptyString => EmptyString
  end.

Lemma string_drop_app (p r : string) : string_drop (String.length p) (p ++ r) = r.
Proof. induction p as [|a p IH]; simpl; [reflexivity|exact IH]. Qed.

Lemma reverse_app (a b : string) :
  reverse (a ++ b) = (reverse b ++ reverse a)%string.
Proof.
  induction a as [|x a IH]; simpl.
  - now rewrite append_empty_r.
  - now rewrite IH, append_assoc.
Qed.

Lemma reverse_involutive (s : string) : reverse (reverse s) = s.
Proof.
  induction s as [|a s IH]; simpl; [reflexivity|].
  now rewrite reverse_app, IH.
Qed.

(** [w] is a suffix of [t]. *)
Definition ends_with (w t : string) : bool := starts_with (reverse w) (reverse t).

Section Strip.

(** The patterns taken off: none of them is empty. *)
Variable pats : list string.
Hypothesis pats_nonempty : forall p, In p pats -> p <> EmptyString.

(** A run of patterns, one after the other. *)
Inductive run : string -> Prop :=
| run_nil : run EmptyString
| run_cons p r : In p pats -> run r -> run (p ++ r).

Lemma run_app a b : run a -> run b -> run (a ++ b).
Proof.
  induction 1 as [|p r Hp Hr IH]; intros Hb; [exact Hb|].
  rewrite append_assoc. constructor; [exact Hp|now apply IH].
Qed.

Lemma match_len_none s :
  match_len pats s = 0 <-> forall p, In p pats -> starts_with p s = false.
Proof.
  unfold match_len. split.
  - destruct (find (fun p => starts_with p s) pats) as [p|] eqn:Hf.
    + apply find_some in Hf as [Hin _]. intros Hlen.
      destruct p; [now apply pats_nonempty in Hin|discriminate].
    + intros _ p Hin. exact (find_none _ _ Hf p Hin).
  - intros Hall.
    destruct (find (fun p => starts_with p s) pats) as [p|] eqn:Hf;
      [|reflexivity].
    apply find_some in Hf as [Hin Hp]. rewrite (Hall p Hin) in Hp. discriminate.
Qed.

Lemma match_len_some s k :
  match_len pats s = S k ->
  exists p r, In p pats /\ s = (p ++ r)%string /\ String.length p = S k.
Proof.
  unfold match_len.
  destruct (find (fun p => starts_with p s) pats) as [p|] eqn:Hf;
    [|discriminate].
  apply find_some in Hf as [Hin Hp]. intros Hlen.
  destruct (starts_with_inv p s Hp) as [r ->]. now exists p, r.
Qed.

Lemma strip_skip f k s : strip f k s = strip f 0 (string_drop k s).
Proof.
  revert k. induction s as [|a s IH]; intros k.
  - destruct k; reflexivity.
  - destruct k as [|k]; [reflexivity|]. simpl. apply IH.
Qed.

Lemma strip_unfold f s :
  strip f 0 s = match f s with
                | O => s
                | S k => strip f 0 (string_drop (S k) s)
                end.
Proof.
  destruct s as [|a s]; simpl.
  - destruct (f EmptyString); reflexivity.
  - destruct (f (String a s)); [reflexivity|apply strip_skip].
Qed.

Lemma strip_fixed s :
  match_len pats s = 0 -> strip (match_len pats) 0 s = s.
Proof. intros H. now rewrite strip_unfold, H. Qed.

(** What [strip] takes off is a run of patterns, and what it leaves
    starts with none. *)
Lemma strip_split s :
  exists p,
    run p /\ s = (p ++ strip (match_len pats) 0 s)%string /\
    match_len pats (strip (match_len pats) 0 s) = 0.
Proof.
  remember (String.length s) as n eqn:Hn.
  revert s Hn. induction n as [n IH] using lt_wf_ind. intros s Hn.
  rewrite strip_unfold.
  destruct (match_len pats s) as [|k] eqn:Hlen.
  - exists EmptyString. split; [constructor|]. now split.
  - destruct (match_len_some s k Hlen) as (w & r & Hin & -> & Hw).
    rewrite <- Hw, string_drop_app.
    destruct (IH (String.length r)) with (s := r) as (p & Hp & Hr & Hnone);
      [|reflexivity|].
    { subst n. rewrite length_append, Hw. lia. }
    exists (w ++ p)%string. split; [now constructor|].
    split; [|exact Hnone]. rewrite append_assoc. now rewrite <- Hr.
Qed.

End Strip.

(** A run of white space. *)
Definition spaces : string -> Prop := run white_space.

Lemma white_space_nonempty p : In p white_space -> p <> EmptyString.
Proof.
  intros Hin ->. revert Hin.
  assert (H : forallb (fun p => negb (String.eqb p EmptyString)) white_space = true)
    by reflexivity.
  intros Hin. rewrite forallb_forall in H. specialize (H _ Hin). discriminate.
Qed.

Lemma reversed_nonempty p : In p (map reverse white_space) -> p <> EmptyString.
Proof.
  intros Hin ->. revert Hin.
  assert (H : forallb (fun p => negb (String.eqb p EmptyString))
                (map reverse white_space) = true) by reflexivity.
  intros Hin. rewrite forallb_forall in H. specialize (H _ Hin). discriminate.
Qed.

Lemma spaces_of_reversed q : run (map reverse white_space) q -> spaces (reverse q).
Proof.
  induction 1 as [|p r Hp Hr IH]; [constructor|].
  rewrite reverse_app. apply run_app; [exact IH|].
  apply in_map_iff in Hp as (w & <- & Hw). rewrite reverse_involutive.
  rewrite <- (append_empty_r w). constructor; [exact Hw|constructor].
Qed.

(** What [trim] does: it takes a run of white space off each end, and what
    it leaves neither starts nor ends with white space. *)
Lemma trim_facts (s : string) :
  (exists p q, spaces p /\ spaces q /\ s = (p ++ trim s ++ q)%string) /\
  (forall w, In w white_space -> starts_with w (trim s) = false) /\
  (forall w, In w white_space -> ends_with w (trim s) = false).
Proof.
  unfold trim, trim_end, trim_start.
  destruct (strip_split white_space s) as (p & Hp & Hs & Hu).
  set (u := strip (match_len white_space) 0 s) in *.
  destruct (strip_split (map reverse white_space) (reverse u))
    as (q & Hq & Hru & Hv).
  set (v := strip (match_len (map reverse white_space)) 0 (reverse u)) in *.
  assert (Hu' : u = (reverse v ++ reverse q)%string).
  { rewrite <- (reverse_involutive u), Hru. apply reverse_app. }
  split; [|split].
  - exists p, (reverse q). split; [exact Hp|].
    split; [now apply spaces_of_reversed|]. now rewrite <- Hu'.
  - intros w Hw. destruct (starts_with w (reverse v)) eqn:Hsw; [|reflexivity].
    destruct (starts_with_inv _ _ Hsw) as [r Hr].
    assert (Hwu : starts_with w u = true)
      by (rewrite Hu', Hr, append_assoc; apply starts_with_app).
    rewrite (proj1 (match_len_none _ white_space_nonempty u) Hu w Hw) in Hwu.
    discriminate.
  - intros w Hw. unfold ends_with. rewrite reverse_involutive.
    apply (proj1 (match_len_none _ reversed_nonempty v) Hv).
    now apply in_map.
Qed.

(** A string that neither starts nor ends with white space is left as it
    is. *)
Lemma trim_fixed (t : string) :
  (forall w, In w white_space -> starts_with w t = false) ->
  (forall w, In w white_space -> ends_with w t = false) ->
  trim t = t.
Proof.
  intros Hstart Hend. unfold trim, trim_end, trim_start.
  rewrite (strip_fixed white_space t)
    by (now apply match_len_none; [apply white_space_nonempty|]).
  rewrite (strip_fixed (map reverse white_space)).
  - apply reverse_involutive.
  - apply match_len_none; [apply reversed_nonempty|].
    intros p Hp. apply in_map_iff in Hp as (w & <- & Hw). now apply Hend.
Qed.

(** X13. [trim] takes white space off both ends and nothing else, where
    white space is the WhiteSpace and LineTerminator code points of the
    language, the ones beyond ASCII among them: the string is a run of
    white space, the trimmed string, and a run of white space; the
    trimmed string neither starts nor ends with white space; and trimming
    again changes nothing. *)
Theorem trim_takes_off_both_ends (s : string) :
  (exists p q, spaces p /\ spaces q /\ s = (p ++ trim s ++ q)%string) /\
  (forall w, In w white_space -> starts_with w (trim s) = false) /\
  (forall w, In w white_space -> ends_with w (trim s) = false) /\
  trim (trim s) = trim s.
Proof.
  destruct (trim_facts s) as (Hsplit & Hstart & Hend).
  split; [exact Hsplit|]. split; [exact Hstart|]. split; [exact Hend|].
  now apply trim_fixed.
Qed.

Definition no_backquote (s : string) : bool := negb (includes_char "`"%char s).

Lemma remove_matches_skip f (p s : string) :
  remove_matches f (String.length p) (p ++ s)%string = remove_matches f 0 s.
Proof.
  induction p as [|a p IH]; simpl; [reflexivity|exact IH].
Qed.

Lemma fence_open_len_other a s :
  Ascii.eqb "`"%char a = false -> fence_open_len (String a s) = 0.
Proof.
  intros H. unfold fence_open_len.
  change (starts_with "```jso" (String a s))
    with (Ascii.eqb "`"%char a && starts_with "``jso" s).
  now rewrite H.
Qed.

Lemma fence_len_other a s :
  Ascii.eqb "`"%char a = false -> fence_len (String a s) = 0.
Proof.
  intros H. unfold fence_len.
  change (starts_with "```" (String a s))
    with (Ascii.eqb "`"%char a && starts_with "``" s).
  now rewrite H.
Qed.

Lemma remove_matches_plain f (t s : string) :
  (forall a r, Ascii.eqb "`"%char a = false -> f (String a r) = 0) ->
  no_backquote t = true ->
  remove_matches f 0 (t ++ s)%string = (t ++ remove_matches f 0 s)%string.
Proof.
  intros Hf. unfold no_backquote.
  induction t as [|a t IH]; simpl; [reflexivity|].
  destruct (Ascii.eqb a "`"%char) eqn:Ha; [discriminate|].
  intros Ht. rewrite Hf by (now rewrite Ascii.eqb_sym).
  now rewrite IH.
Qed.

(** A line feed after a trimmed text is taken off, and nothing else. *)
Lemma trim_line (t : string) : trim t = t -> trim (t ++ nl) = t.
Proof.
  intros Htrim.
  destruct (trim_facts t) as (_ & Hstart & Hend). rewrite Htrim in Hstart, Hend.
  destruct t as [|a r]; [reflexivity|].
  set (t := String a r) in *.
  assert (Hfront : match_len white_space (t ++ nl) = 0).
  { apply match_len_none; [apply white_space_nonempty|]. intros w Hw.
    destruct (starts_with w (t ++ nl)) eqn:Hsw; [exfalso|reflexivity].
    apply starts_with_app_inv in Hsw as [Hl|(r' & Hwr & Hr)].
    - rewrite (Hstart w Hw) in Hl. discriminate.
    - destruct r' as [|c r''].
      + rewrite append_empty_r in Hwr. subst w.
        specialize (Hstart t Hw). rewrite starts_with_refl in Hstart.
        discriminate.
      + simpl in Hr. apply andb_prop in Hr as [Hc Hr].
        destruct r''; [|discriminate]. apply Ascii.eqb_eq in Hc. subst c.
        assert (Hcheck : forallb (fun w => Nat.leb (String.length w) 1
                                           || negb (ends_with nl w))
                           white_space = true) by reflexivity.
        rewrite forallb_forall in Hcheck. specialize (Hcheck w Hw).
        subst w. unfold ends_with in Hcheck.
        rewrite length_append, reverse_app, starts_with_app in Hcheck.
        unfold t in Hcheck. simpl in Hcheck.
        rewrite Nat.add_comm in Hcheck. discriminate. }
  assert (Hback : match_len (map reverse white_space) (reverse t) = 0).
  { apply match_len_none; [apply reversed_nonempty|]. intros p Hp.
    apply in_map_iff in Hp as (w & <- & Hw). now apply Hend. }
  unfold trim, trim_start, trim_end.
  rewrite (strip_fixed white_space _ Hfront), reverse_app.
  change (reverse nl ++ reverse t)%string
    with (String (ascii_of_nat 10) (reverse t)).
  rewrite strip_unfold.
  replace (match_len (map reverse white_space)
             (String (ascii_of_nat 10) (reverse t))) with 1 by reflexivity.
  cbn [string_drop].
  rewrite (strip_fixed _ _ Hback). apply reverse_involutive.
Qed.

(** The reply of the reasoning service in a fence. *)
Definition in_fence (text : string) : string :=
  ("```json" ++ nl ++ text ++ nl ++ "```")%string.

(** X14. What [clean] gives to [JSON.parse]: for a text without a
    backquote that [trim] leaves as it is (it has no white space at its
    ends, ASCII or not), the text itself, whether the service sent it
    bare or inside a json fence. *)
Theorem clean_takes_the_text_out_of_its_fence (t : string) :
  no_backquote t = true ->
  trim t = t ->
  clean (in_fence t) = t /\ clean t = t.
Proof.
  intros Hnb Htrim.
  assert (Hplain : forall f,
            (forall a r, Ascii.eqb "`"%char a = false -> f (String a r) = 0) ->
            remove_matches f 0 t = t).
  { intros f Hf. rewrite <- (append_empty_r t) at 1.
    rewrite (remove_matches_plain f t EmptyString Hf Hnb). simpl.
    apply append_empty_r. }
  split.
  - unfold clean, in_fence.
    assert (H1 : remove_matches fence_open_len 0
                   ("```json" ++ nl ++ t ++ nl ++ "```")%string
                 = (t ++ nl ++ "```")%string).
    { change ("```json" ++ nl ++ t ++ nl ++ "```")%string
        with (String "`" ("``json" ++ nl ++ t ++ nl ++ "```"))%string.
      cbn [remove_matches].
      replace (fence_open_len (String "`" ("``json" ++ nl ++ t ++ nl ++ "```")))
        with 8 by reflexivity.
      change ("``json" ++ nl ++ t ++ nl ++ "```")%string
        with (("``json" ++ nl) ++ (t ++ nl ++ "```"))%string.
      rewrite (remove_matches_skip fence_open_len ("``json" ++ nl)%string).
      rewrite (remove_matches_plain fence_open_len t _ fence_open_len_other Hnb).
      reflexivity. }
    rewrite H1.
    rewrite (remove_matches_plain fence_len t _ fence_len_other Hnb).
    change (remove_matches fence_len 0 (nl ++ "```")%string) with nl.
    now apply trim_line.
  - unfold clean. rewrite (Hplain _ fence_open_len_other).
    rewrite (Hplain _ fence_len_other). exact Htrim.
Qed.

(** ** self-improve.ts: a run after its fetches *)

(** The fields of a record that are set when it is built and that no
    later step of the run writes. *)
Definition core_fields (r : ImprovementRecord) :=
  (callId r, customerNumber r, transcript r, rec_failures r, rec_changes r,
   configBefore r, configAfter r, rawAnalysis r, workflowsCreated r).

Lemma update_nth_last {A} (f : A -> A) (l : list A) x :
  update_nth (List.length l) f (l ++ [x]) = l ++ [f x].
Proof. induction l as [|y l IH]; simpl; [reflexivity|now rewrite IH]. Qed.

Section Pushed.

(** The run has pushed its record at the end of the history [h0]. *)
Variable h0 : list ImprovementRecord.
Variable c : string * option string * option string * list string * list string
             * json * object * option string * list string.
Variable tc : list string.
Variable l0 : list PipelineStep.

(** What holds of the run and of its record from the push on: the record
    is the last of the history, it has the fields it was built with, the
    log of the run, and [callbackTriggered] at [b]. *)
Definition pushed (b : bool) (r : Run W) : Prop :=
  run_record r = Some (List.length h0) /\
  prefix_of l0 (run_log r) /\
  exists rec,
    history (proc r) = h0 ++ [rec] /\
    core_fields rec = c /\ toolsCreated rec = tc /\
    callbackTriggered rec = b /\ pipelineLog rec = run_log r.

Definition keeps (P : Run W -> Prop) {A} (m : M (Run W) A) : Prop :=
  forall r, P r -> P (snd (m r)).

Lemma keeps_ret P {A} (a : A) : keeps P (ret a).
Proof. now intros r. Qed.

Lemma keeps_throw P {A} e : keeps P (@throw (Run W) A e).
Proof. now intros r. Qed.

Lemma keeps_bind P {A B} (m : M (Run W) A) (k : A -> M (Run W) B) :
  keeps P m -> (forall a, keeps P (k a)) -> keeps P (bind m k).
Proof.
  intros Hm Hk r HP. unfold bind. specialize (Hm r HP).
  destruct (m r) as [[a|e] r1]; simpl in *; [now apply Hk|assumption].
Qed.

Lemma keeps_try_catch P {A} (m : M (Run W) A) h :
  keeps P m -> (forall e, keeps P (h e)) -> keeps P (try_catch m h).
Proof.
  intros Hm Hh r HP. unfold try_catch. specialize (Hm r HP).
  destruct (m r) as [[a|e] r1]; simpl in *; [assumption|now apply Hh].
Qed.

Lemma pushed_logStep b stp st d : keeps (pushed b) (logStep E stp st d).
Proof.
  intros r (Hrec & Hl0 & rec & Hh & Hc & Ht & Hb & Hlog).
  unfold logStep. simpl. rewrite Hrec. simpl.
  split; [reflexivity|].
  split; [eapply prefix_of_trans; [exact Hl0|now eexists]|].
  exists (with_pipelineLog (run_log r ++ [{| step := stp; status := st; detail := d;
                                            ps_timestamp := now E (world (proc r)) |}]) rec).
  rewrite Hh, update_nth_last. repeat split; assumption.
Qed.

Lemma pushed_inproc b {A} (m : M (State W) A) :
  keeps_history m -> keeps (pushed b) (inproc m).
Proof.
  intros Hm r (Hrec & Hl0 & rec & Hh & Hrest). unfold inproc.
  specialize (Hm (proc r)). destruct (m (proc r)) as [a s1]. simpl in *.
  split; [assumption|]. split; [assumption|].
  exists rec. split; [simpl; congruence|assumption].
Qed.

Lemma pushed_get_run b : keeps (pushed b) (@get_run W).
Proof. now intros r. Qed.

Lemma pushed_mark_callback b r :
  pushed b r -> pushed true (snd (mark_callback r)).
Proof.
  intros (Hrec & Hl0 & rec & Hh & Hc & Ht & Hb & Hlog).
  unfold mark_callback. simpl. rewrite Hrec. simpl.
  split; [reflexivity|]. split; [assumption|].
  exists (with_callbackTriggered true rec).
  rewrite Hh, update_nth_last. repeat split; assumption.
Qed.

(** The same, whatever [callbackTriggered] is. *)
Definition pushed_any (r : Run W) : Prop := exists b, pushed b r.

Lemma pushed_any_logStep stp st d : keeps pushed_any (logStep E stp st d).
Proof. intros r [b H]. exists b. now apply pushed_logStep. Qed.

Lemma pushed_any_inproc {A} (m : M (State W) A) :
  keeps_history m -> keeps pushed_any (inproc m).
Proof. intros Hm r [b H]. exists b. now apply pushed_inproc. Qed.

Lemma pushed_any_mark_callback : keeps pushed_any (@mark_callback W).
Proof. intros r [b H]. exists true. now apply pushed_mark_callback with b. Qed.

Lemma pushed_notify_summary b cid n analysis :
  keeps (pushed b) (notify_summary E cid n analysis).
Proof.
  unfold notify_summary. apply keeps_bind; [apply pushed_get_run|]. intros r0.
  apply pushed_inproc, external_keeps_history, (external_notifyOperator E).
Qed.

Lemma pushed_any_auto_callback a n : keeps pushed_any (auto_callback E a n).
Proof.
  unfold auto_callback.
  destruct n as [number|]; [|apply pushed_any_logStep].
  destruct (truthy_str number); [|apply pushed_any_logStep].
  apply keeps_bind; [apply pushed_any_logStep|]. intros _.
  apply keeps_bind.
  { apply pushed_any_inproc, external_keeps_history, (external_settle E). }
  intros _. apply keeps_try_catch.
  - apply keeps_bind.
    { apply pushed_any_inproc, external_keeps_history, (external_createOutboundCall E). }
    intros cb. apply keeps_bind; [apply pushed_any_mark_callback|]. intros _.
    apply pushed_any_logStep.
  - intros e. apply keeps_bind; [apply pushed_any_logStep|]. intros _.
    apply pushed_any_inproc, external_keeps_history, (external_notifyOperator E).
Qed.

Lemma current_record_pushed b (record0 : ImprovementRecord) r :
  pushed b r ->
  exists rec,
    current_record record0 r = (Ok rec, r) /\
    history (proc r) = h0 ++ [rec] /\
    core_fields rec = c /\ toolsCreated rec = tc /\
    callbackTriggered rec = b /\ prefix_of l0 (pipelineLog rec) /\
    pipelineLog rec = run_log r.
Proof.
  intros (Hrec & Hl0 & rec & Hh & Hc & Ht & Hb & Hlog).
  exists rec. split.
  - unfold current_record, bind, get_run, ret. rewrite Hrec, Hh.
    rewrite (nth_error_nth _ _ record0 (nth_error_last h0 rec)). reflexivity.
  - repeat split; try assumption. now rewrite Hlog.
Qed.

End Pushed.

Lemma keeps_run (P : Run W -> Prop) {A} (m : M (Run W) A) r res r' :
  keeps P m -> m r = (res, r') -> P r -> P r'.
Proof. intros Hk Hrun HP. specialize (Hk r HP). now rewrite Hrun in Hk. Qed.

Lemma keeps_for_each (P : Run W -> Prop) {A} (f : A -> M (Run W) unit) xs :
  (forall x, keeps P (f x)) -> keeps P (for_each f xs).
Proof.
  intros Hf. induction xs as [|x xs IH]; simpl.
  - apply keeps_ret.
  - apply keeps_bind; [apply Hf|]. intros _. exact IH.
Qed.

Lemma keeps_for_each_in (P : Run W -> Prop) {A} (f : A -> M (Run W) unit) xs :
  (forall x, In x xs -> keeps P (f x)) -> keeps P (for_each f xs).
Proof.
  induction xs as [|x xs IH]; intros Hf; simpl.
  - apply keeps_ret.
  - apply keeps_bind; [apply Hf; now left|]. intros _.
    apply IH. intros y Hy. apply Hf. now right.
Qed.

(** The arrays [toolsCreated] and [workflowsCreated] of a run: the first
    is as [P] says, the second is [wc]. *)
Definition arrays (P : list string -> Prop) (wc : list string) (r : Run W) : Prop :=
  P (run_toolsCreated r) /\ run_workflowsCreated r = wc.

Lemma arrays_logStep P wc stp st d : keeps (arrays P wc) (logStep E stp st d).
Proof. now intros r. Qed.

Lemma arrays_inproc P wc {A} (m : M (State W) A) : keeps (arrays P wc) (inproc m).
Proof. intros r H. unfold inproc. now destruct (m (proc r)). Qed.

Lemma arrays_push_toolsCreated (P : list string -> Prop) wc x :
  (forall l, P l -> P (l ++ [x])) ->
  keeps (arrays P wc) (@push_toolsCreated W x).
Proof. intros HP r [Ht Hw]. split; [now apply HP|exact Hw]. Qed.

Ltac arrays_kept :=
  repeat match goal with
  | |- keeps _ (bind _ _) => apply keeps_bind; [|intros ?]
  | |- keeps _ (try_catch _ _) => apply keeps_try_catch; [|intros ?]
  | |- keeps _ (for_each _ _) => apply keeps_for_each; intros ?
  | |- keeps _ (ret _) => apply keeps_ret
  | |- keeps _ (throw _) => apply keeps_throw
  | |- keeps _ (inproc _) => apply arrays_inproc
  | |- keeps _ (logStep _ _ _ _) => apply arrays_logStep
  | |- keeps _ (let _ := _ in _) => cbv zeta
  end.

Lemma arrays_fetch_and_analyze P wc c a :
  keeps (arrays P wc) (fetch_and_analyze E c a).
Proof. unfold fetch_and_analyze. arrays_kept. Qed.

Lemma arrays_update_config P wc a analysis :
  keeps (arrays P wc) (update_config E a analysis).
Proof. unfold update_config. arrays_kept. Qed.

Lemma arrays_request_resources P wc requests :
  keeps (arrays P wc) (request_resources E requests).
Proof. unfold request_resources. arrays_kept. Qed.

Lemma arrays_verify_assistant P wc a :
  keeps (arrays P wc) (verify_assistant E a).
Proof. unfold verify_assistant. arrays_kept. Qed.

(** The loop over the tools of the analysis lists the names of these tools
    only. *)
Lemma arrays_create_tools names wc analysis :
  incl (map ts_name (items (newTools analysis))) names ->
  keeps (arrays (fun l => incl l names) wc) (create_tools E analysis).
Proof.
  intros Hnames. unfold create_tools.
  destruct (items (newTools analysis)) as [|sp specs] eqn:Hitems;
    [apply arrays_logStep|].
  apply keeps_for_each_in. intros spec Hin.
  unfold create_tool_item. apply keeps_try_catch; [|intros ?; apply arrays_logStep].
  apply keeps_bind; [apply arrays_logStep|]. intros _.
  apply keeps_bind; [apply arrays_inproc|]. intros tool.
  apply keeps_bind.
  { apply arrays_push_toolsCreated. intros l Hl x Hx.
    apply in_app_or in Hx. destruct Hx as [Hx|[<-|[]]]; [now apply Hl|].
    apply Hnames. now apply in_map. }
  intros _. arrays_kept.
Qed.

(** The call, the assistant and the analysis a run gets before it changes
    anything. *)
Definition analysed (callId0 assistantId : string) (s : State W)
  (call : Call) (assistant : Assistant) (analysis : AnalysisResult)
  (raw : string) (s3 : State W) : Prop :=
  exists s1 s2,
    getCall E callId0 s = (Ok call, s1) /\
    getAssistant E assistantId s1 = (Ok assistant, s2) /\
    analyzeTranscriptWithRaw E (call_transcript call) (systemMessage assistant)
      (config assistant) (existing_tools s2) s2 = (Ok (analysis, raw), s3).

Definition given_fields (callId0 : string) (customerNumber0 : option string)
  (call : Call) (assistant : Assistant) (analysis : AnalysisResult)
  (raw : string) (workflows : list string) :=
  (callId0, customerNumber0, call_transcript call, failures analysis,
   changes analysis, config assistant, configChanges analysis, Some raw,
   workflows).

(** The callback step, run on a pushed record, returns, and leaves
    [callbackTriggered] and the log as [R] says. *)
Definition callback_runs (assistantId : string) (customerNumber0 : option string)
  (R : bool -> list PipelineStep -> Prop) : Prop :=
  forall h0 c tc l0 r5,
    pushed h0 c tc l0 false r5 ->
    exists b r6,
      auto_callback E assistantId customerNumber0 r5 = (Ok tt, r6) /\
      pushed h0 c tc l0 b r6 /\ R b (run_log r6).

Lemma evolves_log (r r' : Run W) x :
  evolves r r' -> In x (run_log r) -> In x (run_log r').
Proof. intros (_ & Hlog & _) Hin. eapply prefix_of_In; eauto. Qed.

Lemma evolves_tools (r r' : Run W) x :
  evolves r r' -> In x (run_toolsCreated r) -> In x (run_toolsCreated r').
Proof. intros (_ & _ & Htc & _) Hin. eapply prefix_of_In; eauto. Qed.

Lemma evolves_before_push (r r' : Run W) :
  run_record r = None -> evolves r r' ->
  run_record r' = None /\ history (proc r') = history (proc r).
Proof. intros Hpre (Hrec & _ & _ & Hh). rewrite Hpre in Hrec, Hh. now split. Qed.

Lemma analysed_run c a n s call assistant analysis raw s3 :
  analysed c a s call assistant analysis raw s3 ->
  exists r1,
    run_record r1 = None /\ proc r1 = s3 /\ history (proc r1) = history s /\
    analyzeAndImprove E c a n s =
      (let (res, r) := improve E c a n call assistant analysis raw r1 in
       (res, proc r)) /\
    fetch_and_analyze E c a (new_run s) = (Ok (call, assistant, (analysis, raw)), r1) /\
    arrays (eq []) [] r1.
Proof.
  intros (s1 & s2 & Hcall & Hasst & Hres).
  destruct (fetch_and_analyze_returns E c a s s1 s2 s3 call assistant
              (analysis, raw) Hcall Hasst Hres) as (r1 & Hrun & Hpre & Hproc).
  exists r1. split; [assumption|]. split; [assumption|]. split; [|split; [|split]].
  - pose proof (steps_fetch_and_analyze E c a (new_run s)) as Hev.
    rewrite Hrun in Hev. now apply evolves_before_push in Hev.
  - unfold analyzeAndImprove, pipeline. rewrite (bind_Ok _ _ _ _ _ Hrun).
    reflexivity.
  - exact Hrun.
  - pose proof (arrays_fetch_and_analyze (eq []) [] c a (new_run s)) as Hk.
    rewrite Hrun in Hk. apply Hk. now split.
Qed.

Lemma callback_runs_anyhow a n :
  operator_reachable E -> callback_runs a n (fun _ _ => True).
Proof.
  intros Hop h0 c tc l0 r5 Hp.
  destruct (total_auto_callback E a n Hop r5) as ([] & Ht).
  destruct (pushed_any_auto_callback h0 c tc l0 a n r5 (ex_intro _ false Hp))
    as [b Hb].
  destruct (auto_callback E a n r5) as [res r6]. simpl in *. subst res.
  exists b, r6. split; [reflexivity|]. split; [exact Hb|exact I].
Qed.

Definition no_number : string := "No customer number available"%string.

Lemma callback_runs_skipped a n :
  truthy_ostr n = false ->
  callback_runs a n
    (fun b log => b = false /\
       exists l entry, log = l ++ [entry] /\
         step entry = "callback"%string /\ status entry = skipped /\
         detail entry = no_number).
Proof.
  intros Hn h0 c tc l0 r5 Hp.
  assert (Hrun : auto_callback E a n r5 =
                 (Ok tt, snd (logStep E "callback" skipped no_number r5))).
  { unfold auto_callback. destruct n as [x|]; [|reflexivity].
    simpl in Hn. rewrite Hn. reflexivity. }
  exists false, (snd (logStep E "callback" skipped no_number r5)).
  split; [exact Hrun|]. split; [now apply pushed_logStep|].
  split; [reflexivity|]. simpl. eexists _, _. split; [reflexivity|].
  now repeat split.
Qed.

Lemma callback_runs_placed a number :
  truthy_str number = true ->
  (forall s, exists id s',
     createOutboundCall E a number (env E "VAPI_PHONE_NUMBER_ID") s = (Ok id, s')) ->
  callback_runs a (Some number)
    (fun b log => b = true /\
       exists l entry id, log = l ++ [entry] /\
         step entry = "callback"%string /\ status entry = ok /\
         detail entry = ("Callback initiated: " ++ show_ostr id)%string).
Proof.
  intros Hn Hcall h0 c tc l0 r5 Hp.
  unfold auto_callback. rewrite Hn.
  match goal with
  | |- context [bind (logStep E ?x ?y ?z)] =>
      pose proof (pushed_logStep h0 c tc l0 false x y z r5 Hp) as Hp1;
      set (r51 := snd (logStep E x y z r5)) in *;
      assert (Hrun1 : logStep E x y z r5 = (Ok tt, r51)) by reflexivity
  end.
  rewrite (bind_Ok _ _ _ _ _ Hrun1).
  pose proof (pushed_inproc h0 c tc l0 false (settle E 3000)
                (external_keeps_history _ (external_settle E 3000)) r51 Hp1) as Hp2.
  set (r52 := snd (inproc (settle E 3000) r51)) in *.
  assert (Hrun2 : inproc (settle E 3000) r51 = (Ok tt, r52)) by reflexivity.
  rewrite (bind_Ok _ _ _ _ _ Hrun2).
  destruct (Hcall (proc r52)) as (id & s' & Hc).
  pose proof (pushed_inproc h0 c tc l0 false _
                (external_keeps_history _
                   (external_createOutboundCall E a number
                      (env E "VAPI_PHONE_NUMBER_ID"))) r52 Hp2) as Hp3.
  destruct (inproc_run _ _ _ _ Hc) as (r53 & Hrun3 & _).
  rewrite Hrun3 in Hp3. simpl in Hp3.
  apply pushed_mark_callback in Hp3.
  set (r54 := snd (mark_callback r53)) in *.
  assert (Hrun4 : mark_callback r53 = (Ok tt, r54)) by reflexivity.
  pose proof (pushed_logStep h0 c tc l0 true "callback" ok
                ("Callback initiated: " ++ show_ostr id)%string r54 Hp3) as Hp5.
  exists true, (snd (logStep E "callback" ok
                       ("Callback initiated: " ++ show_ostr id)%string r54)).
  split.
  { apply try_catch_Ok. rewrite (bind_Ok _ _ _ _ _ Hrun3).
    rewrite (bind_Ok _ _ _ _ _ Hrun4). reflexivity. }
  split; [exact Hp5|]. split; [reflexivity|].
  simpl. eexists _, _, id. split; [reflexivity|]. now repeat split.
Qed.

Lemma callback_runs_failed a number e :
  truthy_str number = true ->
  operator_reachable E ->
  (forall s, exists s',
     createOutboundCall E a number (env E "VAPI_PHONE_NUMBER_ID") s = (Throw e, s')) ->
  callback_runs a (Some number)
    (fun b log => b = false /\
       exists entry, In entry log /\
         step entry = "callback"%string /\ status entry = error /\
         detail entry = ("Callback failed: " ++ e)%string).
Proof.
  intros Hn Hop Hcall h0 c tc l0 r5 Hp.
  unfold auto_callback. rewrite Hn.
  match goal with
  | |- context [bind (logStep E ?x ?y ?z)] =>
      pose proof (pushed_logStep h0 c tc l0 false x y z r5 Hp) as Hp1;
      set (r51 := snd (logStep E x y z r5)) in *;
      assert (Hrun1 : logStep E x y z r5 = (Ok tt, r51)) by reflexivity
  end.
  rewrite (bind_Ok _ _ _ _ _ Hrun1).
  pose proof (pushed_inproc h0 c tc l0 false (settle E 3000)
                (external_keeps_history _ (external_settle E 3000)) r51 Hp1) as Hp2.
  set (r52 := snd (inproc (settle E 3000) r51)) in *.
  assert (Hrun2 : inproc (settle E 3000) r51 = (Ok tt, r52)) by reflexivity.
  rewrite (bind_Ok _ _ _ _ _ Hrun2).
  destruct (Hcall (proc r52)) as (s' & Hc).
  pose proof (pushed_inproc h0 c tc l0 false _
                (external_keeps_history _
                   (external_createOutboundCall E a number
                      (env E "VAPI_PHONE_NUMBER_ID"))) r52 Hp2) as Hp3.
  destruct (inproc_run _ _ _ _ Hc) as (r53 & Hrun3 & _).
  rewrite Hrun3 in Hp3. simpl in Hp3.
  rewrite (try_catch_Throw _ _ _ _ _ (bind_Throw _ _ _ _ _ Hrun3)).
  pose proof (pushed_logStep h0 c tc l0 false "callback" error
                ("Callback failed: " ++ e)%string r53 Hp3) as Hp4.
  set (r54 := snd (logStep E "callback" error ("Callback failed: " ++ e)%string r53)) in *.
  assert (Hrun4 : logStep E "callback" error ("Callback failed: " ++ e)%string r53
                  = (Ok tt, r54)) by reflexivity.
  rewrite (bind_Ok _ _ _ _ _ Hrun4).
  match goal with
  | |- context [inproc (notifyOperator E ?msg)] =>
      destruct (Hop msg (proc r54)) as (s'' & Hnote);
      pose proof (pushed_inproc h0 c tc l0 false _
                    (external_keeps_history _ (external_notifyOperator E msg))
                    r54 Hp4) as Hp6;
      destruct (inproc_run _ _ _ _ Hnote) as (r6 & Hrun6 & _ & _ & Hlog6 & _)
  end.
  rewrite Hrun6 in Hp6. simpl in Hp6.
  exists false, r6. split; [exact Hrun6|]. split; [exact Hp6|].
  split; [reflexivity|]. rewrite Hlog6.
  eexists. split; [apply in_or_app; right; left; reflexivity|].
  now repeat split.
Qed.

(** The steps of a run after the analysis, one by one, and the record it
    returns. *)
Lemma improve_phases (R : bool -> list PipelineStep -> Prop)
  c a n call assistant analysis raw (r1 : Run W) :
  run_record r1 = None ->
  operator_reachable E ->
  callback_runs a n R ->
  exists r2 r3 requests r4 r5 record r',
    update_config E a analysis r1 = (Ok tt, r2) /\
    create_tools E analysis r2 = (Ok tt, r3) /\
    create_workflows E analysis r3 = (Ok requests, r4) /\
    request_resources E requests r4 = (Ok tt, r5) /\
    evolves r1 r2 /\ evolves r2 r3 /\ evolves r3 r4 /\ evolves r4 r5 /\
    improve E c a n call assistant analysis raw r1 = (Ok record, r') /\
    history (proc r') = history (proc r1) ++ [record] /\
    core_fields record
    = given_fields c n call assistant analysis raw (run_workflowsCreated r5) /\
    prefix_of (run_toolsCreated r5) (toolsCreated record) /\
    prefix_of (run_log r5) (pipelineLog record) /\
    R (callbackTriggered record) (pipelineLog record) /\
    toolsCreated record = run_toolsCreated r5.
Proof.
  intros Hpre Hop Hcb. unfold improve.
  destruct (run_total (update_config E a analysis) r1
              (total_update_config E a analysis) (steps_update_config E a analysis))
    as ([] & r2 & Hrun2 & Hev2).
  destruct (run_total (create_tools E analysis) r2
              (total_create_tools E analysis) (steps_create_tools E analysis))
    as ([] & r3 & Hrun3 & Hev3).
  destruct (run_total (create_workflows E analysis) r3
              (total_create_workflows E analysis) (steps_create_workflows E analysis))
    as (requests & r4 & Hrun4 & Hev4).
  destruct (run_total (request_resources E requests) r4
              (total_request_resources E requests Hop)
              (steps_request_resources E requests))
    as ([] & r5 & Hrun5 & Hev5).
  destruct (run_total (verify_assistant E a) r5
              (total_verify_assistant E a) (steps_verify_assistant E a))
    as ([] & r6 & Hrun6 & Hev6).
  rewrite (bind_Ok _ _ _ _ _ Hrun2), (bind_Ok _ _ _ _ _ Hrun3).
  rewrite (bind_Ok _ _ _ _ _ Hrun4), (bind_Ok _ _ _ _ _ Hrun5).
  rewrite (bind_Ok _ _ _ _ _ Hrun6).
  pose proof (evolves_trans _ _ _ Hev2 (evolves_trans _ _ _ Hev3
               (evolves_trans _ _ _ Hev4 (evolves_trans _ _ _ Hev5 Hev6)))) as Hev.
  destruct (evolves_before_push _ _ Hpre Hev) as (Hrec6 & Hhist6).
  destruct Hev6 as (_ & Hlog56 & Htc56 & _).
  assert (Harr6 : arrays (eq (run_toolsCreated r5)) (run_workflowsCreated r5) r6).
  { pose proof (arrays_verify_assistant (eq (run_toolsCreated r5))
                  (run_workflowsCreated r5) a r5) as Hk.
    rewrite Hrun6 in Hk. apply Hk. now split. }
  destruct Harr6 as [Htc6 Hwc6].
  set (record0 :=
         {| callId := c;
            customerNumber := n;
            timestamp := now E (world (proc r6));
            transcript := call_transcript call;
            rec_failures := failures analysis;
            rec_changes := changes analysis;
            toolsCreated := run_toolsCreated r6;
            workflowsCreated := run_workflowsCreated r6;
            configBefore := config assistant;
            configAfter := configChanges analysis;
            callbackTriggered := false;
            rawAnalysis := Some raw;
            pipelineLog := run_log r6 |}).
  set (r7 := snd (push_record record0 r6)).
  assert (Hrun7 : persist_record E c n call assistant analysis raw r6
                  = (Ok record0, r7)) by reflexivity.
  rewrite (bind_Ok _ _ _ _ _ Hrun7).
  assert (Hp7 : pushed (history (proc r6))
                  (given_fields c n call assistant analysis raw
                     (run_workflowsCreated r5))
                  (run_toolsCreated r6) (run_log r6) false r7).
  { split; [reflexivity|]. split; [apply prefix_of_refl|].
    exists record0. split; [reflexivity|].
    split; [unfold core_fields, given_fields, record0; simpl; now rewrite Hwc6|].
    now repeat split. }
  destruct (total_notify_summary E c n analysis Hop r7) as ([] & Hn).
  pose proof (pushed_notify_summary _ _ _ _ false c n analysis r7 Hp7) as Hp8.
  destruct (notify_summary E c n analysis r7) as [res8 r8] eqn:Hrun8.
  simpl in Hn, Hp8. subst res8.
  rewrite (bind_Ok _ _ _ _ _ Hrun8).
  destruct (Hcb _ _ _ _ r8 Hp8) as (b & r9 & Hrun9 & Hp9 & HR).
  rewrite (bind_Ok _ _ _ _ _ Hrun9).
  destruct (current_record_pushed _ _ _ _ b record0 r9 Hp9)
    as (rec & Hcur & Hh & Hc & Ht & Hb & Hl & Hlog).
  exists r2, r3, requests, r4, r5, rec, r9.
  split; [assumption|]. split; [assumption|]. split; [assumption|].
  split; [assumption|]. split; [assumption|]. split; [assumption|].
  split; [assumption|]. split; [assumption|]. split; [assumption|].
  split; [now rewrite Hh, Hhist6|]. split; [assumption|].
  split; [now rewrite Ht|].
  split; [eapply prefix_of_trans; eauto|].
  split; [now rewrite Hb, Hlog|]. now rewrite Ht, Htc6.
Qed.

Lemma analyzeAndImprove_phases (R : bool -> list PipelineStep -> Prop)
  c a n s call assistant analysis raw s3 :
  analysed c a s call assistant analysis raw s3 ->
  operator_reachable E ->
  callback_runs a n R ->
  exists r1 r2 r3 requests r4 r5 record s',
    run_record r1 = None /\ proc r1 = s3 /\
    update_config E a analysis r1 = (Ok tt, r2) /\
    create_tools E analysis r2 = (Ok tt, r3) /\
    create_workflows E analysis r3 = (Ok requests, r4) /\
    request_resources E requests r4 = (Ok tt, r5) /\
    evolves r1 r2 /\ evolves r2 r3 /\ evolves r3 r4 /\ evolves r4 r5 /\
    analyzeAndImprove E c a n s = (Ok record, s') /\
    history s' = history s ++ [record] /\
    core_fields record
    = given_fields c n call assistant analysis raw (run_workflowsCreated r5) /\
    prefix_of (run_toolsCreated r5) (toolsCreated record) /\
    prefix_of (run_log r5) (pipelineLog record) /\
    R (callbackTriggered record) (pipelineLog record) /\
    toolsCreated record = run_toolsCreated r5 /\
    arrays (eq []) [] r1.
Proof.
  intros Han Hop Hcb.
  destruct (analysed_run c a n s call assistant analysis raw s3 Han)
    as (r1 & Hpre & Hproc & Hhist & Hrun & _ & Harr).
  destruct (improve_phases R c a n call assistant analysis raw r1 Hpre Hop Hcb)
    as (r2 & r3 & requests & r4 & r5 & record & r' & H2 & H3 & H4 & H5
        & E2 & E3 & E4 & E5 & Himp & Hh & Hrest).
  exists r1, r2, r3, requests, r4, r5, record, (proc r').
  rewrite Hrun, Himp, <- Hhist.
  repeat (split; [assumption|]). split; [reflexivity|].
  split; [assumption|].
  destruct Hrest as (Hc & Ht & Hl & HR & Htc).
  repeat (split; [assumption|]). exact Harr.
Qed.

Lemma core_fields_workflows record c n call assistant analysis raw wc :
  core_fields record = given_fields c n call assistant analysis raw wc ->
  workflowsCreated record = wc.
Proof. unfold core_fields, given_fields. now intros [= _ _ _ _ _ _ _ _ H]. Qed.

Lemma core_fields_inv record c n call assistant analysis raw wc :
  core_fields record = given_fields c n call assistant analysis raw wc ->
  callId record = c /\ customerNumber record = n /\
  transcript record = call_transcript call /\
  rec_failures record = failures analysis /\
  rec_changes record = changes analysis /\
  configBefore record = config assistant /\
  configAfter record = configChanges analysis /\
  rawAnalysis record = Some raw.
Proof.
  unfold core_fields, given_fields. intros H. injection H. intros. now repeat split.
Qed.

(** X15. A run that gets its call, its assistant and an analysis returns a
    record and appends it to the history, whatever the later steps meet
    (the operator notices apart); the record has the call id and customer
    number of the run, the transcript of the call, the failures and
    changes of the analysis, the configuration read before any change as
    [configBefore], the requested changes as [configAfter] and the raw
    reply. *)
Theorem run_records_what_it_was_given c a n s call assistant analysis raw s3 :
  analysed c a s call assistant analysis raw s3 ->
  operator_reachable E ->
  exists record s',
    analyzeAndImprove E c a n s = (Ok record, s') /\
    history s' = history s ++ [record] /\
    callId record = c /\ customerNumber record = n /\
    transcript record = call_transcript call /\
    rec_failures record = failures analysis /\
    rec_changes record = changes analysis /\
    configBefore record = config assistant /\
    configAfter record = configChanges analysis /\
    rawAnalysis record = Some raw.
Proof.
  intros Han Hop.
  destruct (analyzeAndImprove_phases (fun _ _ => True) c a n s call assistant
              analysis raw s3 Han Hop (callback_runs_anyhow a n Hop))
    as (r1 & r2 & r3 & requests & r4 & r5 & record & s' & _ & _ & _ & _ & _ & _
        & _ & _ & _ & _ & Hrun & Hhist & Hcore & _).
  exists record, s'. split; [assumption|]. split; [assumption|].
  now apply core_fields_inv with (1 := Hcore).
Qed.

Definition update_failed (e : string) : string :=
  ("Failed to update assistant: " ++ e)%string.

Lemma update_config_failed a analysis (r1 r2 : Run W) e s4 :
  run_record r1 = None ->
  updateAssistant E a (configChanges analysis) (proc r1) = (Throw e, s4) ->
  update_config E a analysis r1 = (Ok tt, r2) ->
  exists entry, In entry (run_log r2) /\
    step entry = "update_assistant"%string /\ status entry = error /\
    detail entry = update_failed e.
Proof.
  intros Hpre Hupd. unfold update_config.
  match goal with
  | |- context [bind (logStep E ?x ?y ?z)] =>
      destruct (logStep_run E x y z r1 Hpre) as (r' & Hrun & _ & Hproc & _)
  end.
  rewrite (bind_Ok _ _ _ _ _ Hrun). rewrite <- Hproc in Hupd.
  destruct (inproc_run _ _ _ _ Hupd) as (r'' & Hrun' & _).
  rewrite (try_catch_Throw _ _ _ _ _ (bind_Throw _ _ _ _ _ Hrun')).
  intros [= <-]. simpl. eexists. split; [apply in_or_app; right; left; reflexivity|].
  now repeat split.
Qed.

(** X16. When the update of the assistant throws, the run logs an
    [update_assistant] step with status [error] that carries the message,
    and goes on to its record, which still lists the requested changes as
    [configAfter]. *)
Theorem failed_update_is_logged_and_survived
  c a n s call assistant analysis raw s3 e s4 :
  analysed c a s call assistant analysis raw s3 ->
  updateAssistant E a (configChanges analysis) s3 = (Throw e, s4) ->
  operator_reachable E ->
  exists record s',
    analyzeAndImprove E c a n s = (Ok record, s') /\
    history s' = history s ++ [record] /\
    configAfter record = configChanges analysis /\
    exists entry,
      In entry (pipelineLog record) /\
      step entry = "update_assistant"%string /\ status entry = error /\
      detail entry = update_failed e.
Proof.
  intros Han Hupd Hop.
  destruct (analyzeAndImprove_phases (fun _ _ => True) c a n s call assistant
              analysis raw s3 Han Hop (callback_runs_anyhow a n Hop))
    as (r1 & r2 & r3 & requests & r4 & r5 & record & s' & Hpre & Hproc & H2 & _
        & _ & _ & _ & E3 & E4 & E5 & Hrun & Hhist & Hcore & _ & Hlog & _).
  rewrite <- Hproc in Hupd.
  destruct (update_config_failed a analysis r1 r2 e s4 Hpre Hupd H2)
    as (entry & Hin & Hentry).
  exists record, s'. split; [assumption|]. split; [assumption|].
  split; [now apply core_fields_inv with (1 := Hcore)|].
  exists entry. split; [|exact Hentry].
  eapply prefix_of_In; [exact Hlog|].
  eapply evolves_log; [exact E5|]. eapply evolves_log; [exact E4|].
  eapply evolves_log; [exact E3|]. exact Hin.
Qed.

Definition need_n8n : string :=
  "Need N8N_API_URL and N8N_API_KEY to create workflows programmatically"%string.

Lemma request_resources_logs reqs :
  operator_reachable E ->
  forall (r : Run W) req, In req reqs ->
    exists entry, In entry (run_log (snd (request_resources E (Some reqs) r))) /\
      step entry = "resource_request"%string /\ status entry = ok /\
      detail entry = req.
Proof.
  intros Hop. unfold request_resources. cbn [items].
  induction reqs as [|x xs IH]; intros r req Hin; [destruct Hin|].
  cbn [for_each].
  match goal with
  | |- context [inproc (notifyOperator E ?msg)] =>
      destruct (Hop msg (proc r)) as (s' & Hnote)
  end.
  destruct (inproc_run _ _ _ _ Hnote) as (r1 & Hrun1 & _).
  set (r2 := snd (logStep E "resource_request" ok x r1)).
  assert (Hrun2 : (inproc (notifyOperator E ("🔑 RESOURCE REQUEST: " ++ x)%string) ;;;
                   logStep E "resource_request" ok x) r = (Ok tt, r2)).
  { rewrite (bind_Ok _ _ _ _ _ Hrun1). reflexivity. }
  rewrite (bind_Ok _ _ _ _ _ Hrun2).
  destruct Hin as [<-|Hin].
  - eexists. split.
    + eapply evolves_log.
      * apply steps_for_each. intros y. apply steps_bind.
        { apply steps_inproc, external_keeps_history, (external_notifyOperator E). }
        intros _. apply (steps_logStep E).
      * unfold r2. simpl. apply in_or_app. right. left. reflexivity.
    + now repeat split.
  - apply IH. exact Hin.
Qed.

Lemma create_workflows_unconfigured analysis wf wfs (r : Run W) :
  newWorkflows analysis = Some (wf :: wfs) ->
  isN8nConfigured E = false ->
  exists r',
    create_workflows E analysis r
    = (Ok (Some (items (resourceRequests analysis) ++ [need_n8n])), r') /\
    (forall P wc, arrays P wc r -> arrays P wc r') /\
    exists entry, In entry (run_log r') /\
      step entry = "create_workflow"%string /\ status entry = error.
Proof.
  intros Hwf Hn8n. unfold create_workflows. rewrite Hwf, Hn8n. simpl items.
  eexists. split; [reflexivity|]. split; [now intros P wc HP|]. simpl.
  eexists. split; [apply in_or_app; right; left; reflexivity|]. now split.
Qed.

(** [E0] with another service in the place of [createCustomWorkflow]. *)
Definition with_createCustomWorkflow
  (f : WorkflowSpec -> W -> Result (string * string) * W) (E0 : Ext W) : Ext W :=
  {| env := env E0; now := now E0; vapiRequest := vapiRequest E0;
     whapi_send_text := whapi_send_text E0;
     messages_create := messages_create E0; JSON_parse := JSON_parse E0;
     new_Function := new_Function E0; listWorkflows := listWorkflows E0;
     getWorkflow := getWorkflow E0; createCustomWorkflow := f;
     sleep := sleep E0; seed_handler := seed_handler E0 |}.

Definition not_configured : string :=
  "n8n not configured (N8N_API_URL or N8N_API_KEY missing) — cannot create workflows"%string.

(** Without the n8n settings the workflow step is the log entry and the
    added request, and nothing else. *)
Lemma create_workflows_unconfigured_step (E0 : Ext W) analysis wf wfs :
  newWorkflows analysis = Some (wf :: wfs) ->
  isN8nConfigured E0 = false ->
  create_workflows E0 analysis
  = (logStep E0 "create_workflow" error not_configured ;;;
     ret (Some (items (resourceRequests analysis) ++ [need_n8n]))).
Proof.
  intros Hwf Hn8n. unfold create_workflows. rewrite Hwf, Hn8n. reflexivity.
Qed.

Lemma unconfigured_run_ignores_createCustomWorkflow
  f c a n s call assistant analysis raw s3 wf wfs :
  analysed c a s call assistant analysis raw s3 ->
  newWorkflows analysis = Some (wf :: wfs) ->
  isN8nConfigured E = false ->
  analyzeAndImprove (with_createCustomWorkflow f E) c a n s
  = analyzeAndImprove E c a n s.
Proof.
  intros Han Hwf Hn8n.
  destruct (analysed_run c a n s call assistant analysis raw s3 Han)
    as (r1 & _ & _ & _ & Hrun & Hfetch & _).
  rewrite Hrun. unfold analyzeAndImprove, pipeline.
  change (fetch_and_analyze (with_createCustomWorkflow f E) c a)
    with (fetch_and_analyze E c a).
  rewrite (bind_Ok _ _ _ _ _ Hfetch). cbn [fst snd].
  unfold improve.
  rewrite (create_workflows_unconfigured_step E analysis wf wfs Hwf Hn8n).
  rewrite (create_workflows_unconfigured_step (with_createCustomWorkflow f E)
             analysis wf wfs Hwf Hn8n).
  reflexivity.
Qed.

(** X17. When the analysis asks for workflows and n8n is not configured,
    no workflow is attempted: the run is the same whatever
    [createCustomWorkflow] would do, the record lists no workflow in
    [workflowsCreated] and no tool in [toolsCreated] beside the tools the
    analysis asks for. The run logs a [create_workflow] step with status
    [error], adds a request for the n8n settings to the resource requests
    of the analysis, sends and logs every one of them as a
    [resource_request] step, and completes. *)
Theorem workflows_without_n8n_become_a_request
  c a n s call assistant analysis raw s3 wf wfs :
  analysed c a s call assistant analysis raw s3 ->
  newWorkflows analysis = Some (wf :: wfs) ->
  isN8nConfigured E = false ->
  operator_reachable E ->
  (forall f, analyzeAndImprove (with_createCustomWorkflow f E) c a n s
             = analyzeAndImprove E c a n s) /\
  exists record s',
    analyzeAndImprove E c a n s = (Ok record, s') /\
    history s' = history s ++ [record] /\
    workflowsCreated record = [] /\
    (forall x, In x (toolsCreated record) ->
       In x (map ts_name (items (newTools analysis)))) /\
    (exists entry, In entry (pipelineLog record) /\
       step entry = "create_workflow"%string /\ status entry = error) /\
    forall req, In req (items (resourceRequests analysis) ++ [need_n8n]) ->
      exists entry, In entry (pipelineLog record) /\
        step entry = "resource_request"%string /\ status entry = ok /\
        detail entry = req.
Proof.
  intros Han Hwf Hn8n Hop. split.
  { intros f.
    now apply unconfigured_run_ignores_createCustomWorkflow
      with call assistant analysis raw s3 wf wfs. }
  destruct (analyzeAndImprove_phases (fun _ _ => True) c a n s call assistant
              analysis raw s3 Han Hop (callback_runs_anyhow a n Hop))
    as (r1 & r2 & r3 & requests & r4 & r5 & record & s' & Hpre & Hproc & H2 & H3
        & H4 & H5 & _ & _ & _ & E5 & Hrun & Hhist & Hcore & _ & Hlog & _ & Htc
        & Harr1).
  destruct (create_workflows_unconfigured analysis wf wfs r3 Hwf Hn8n)
    as (r4' & H4' & Hkept & entry & Hin & Hentry).
  rewrite H4 in H4'. injection H4' as -> <-.
  set (names := map ts_name (items (newTools analysis))).
  assert (Harr5 : arrays (fun l => incl l names) [] r5).
  { apply (keeps_run _ _ _ _ _ (arrays_request_resources _ _ _) H5).
    apply Hkept.
    apply (keeps_run _ _ _ _ _
             (arrays_create_tools names [] analysis (incl_refl _)) H3).
    apply (keeps_run _ _ _ _ _ (arrays_update_config _ _ a analysis) H2).
    destruct Harr1 as [Ht1 Hw]. split; [|exact Hw].
    cbv beta. rewrite <- Ht1. intros x []. }
  destruct Harr5 as [Htools Hwfs].
  exists record, s'. split; [assumption|]. split; [assumption|].
  split; [now rewrite (core_fields_workflows _ _ _ _ _ _ _ _ Hcore)|].
  split; [intros x Hx; apply Htools; now rewrite <- Htc|].
  split.
  - exists entry. split; [|exact Hentry].
    eapply prefix_of_In; [exact Hlog|]. eapply evolves_log; eauto.
  - intros req Hreq.
    destruct (request_resources_logs _ Hop r4 req Hreq) as (e' & Hin' & He').
    rewrite H5 in Hin'. exists e'. split; [|exact He'].
    eapply prefix_of_In; eauto.
Qed.

(** [E0] with another answer to POST /call/phone, the request of
    [createOutboundCall]. *)
Definition with_call_service (f : option json -> W -> Result json * W)
  (E0 : Ext W) : Ext W :=
  {| env := env E0; now := now E0;
     vapiRequest := fun path m body =>
       match m with
       | POST => if String.eqb path "/call/phone" then f body
                 else vapiRequest E0 path m body
       | _ => vapiRequest E0 path m body
       end;
     whapi_send_text := whapi_send_text E0;
     messages_create := messages_create E0; JSON_parse := JSON_parse E0;
     new_Function := new_Function E0; listWorkflows := listWorkflows E0;
     getWorkflow := getWorkflow E0;
     createCustomWorkflow := createCustomWorkflow E0;
     sleep := sleep E0; seed_handler := seed_handler E0 |}.

(** Without a customer number the callback step is its log entry, and
    nothing else. *)
Lemma auto_callback_skipped (E0 : Ext W) a n :
  truthy_ostr n = false ->
  auto_callback E0 a n = logStep E0 "callback" skipped no_number.
Proof.
  intros Hn. unfold auto_callback. destruct n as [x|]; [|reflexivity].
  simpl in Hn. now rewrite Hn.
Qed.

Lemma run_without_number_ignores_call_service f c a n s :
  truthy_ostr n = false ->
  analyzeAndImprove (with_call_service f E) c a n s = analyzeAndImprove E c a n s.
Proof.
  intros Hn. unfold analyzeAndImprove, pipeline, improve.
  rewrite (auto_callback_skipped E a n Hn).
  rewrite (auto_callback_skipped (with_call_service f E) a n Hn).
  reflexivity.
Qed.

(** X18. Without a customer number the run places no call: it is the same
    whatever the provider would answer to POST /call/phone, the request of
    [createOutboundCall]; the returned record, which is the one stored, has
    [callbackTriggered] false, and the last step of its log is the skipped
    [callback], logged after the record was pushed. *)
Theorem no_customer_number_no_callback
  c a n s call assistant analysis raw s3 :
  analysed c a s call assistant analysis raw s3 ->
  truthy_ostr n = false ->
  operator_reachable E ->
  (forall f, analyzeAndImprove (with_call_service f E) c a n s
             = analyzeAndImprove E c a n s) /\
  exists record s',
    analyzeAndImprove E c a n s = (Ok record, s') /\
    history s' = history s ++ [record] /\
    callbackTriggered record = false /\
    exists l entry,
      pipelineLog record = l ++ [entry] /\
      step entry = "callback"%string /\ status entry = skipped /\
      detail entry = no_number.
Proof.
  intros Han Hn Hop. split.
  { intros f. now apply run_without_number_ignores_call_service. }
  destruct (analyzeAndImprove_phases _ c a n s call assistant
              analysis raw s3 Han Hop (callback_runs_skipped a n Hn))
    as (r1 & r2 & r3 & requests & r4 & r5 & record & s' & _ & _ & _ & _ & _ & _
        & _ & _ & _ & _ & Hrun & Hhist & _ & _ & _ & (Hb & HR) & _).
  exists record, s'. now repeat (split; [assumption|]).
Qed.

(** X19. With a customer number and a provider that places the call, the
    record the run returns and stores has [callbackTriggered] true, though
    it was pushed with false, and its log ends with the [callback] step
    that names the new call. *)
Theorem callback_marks_the_stored_record
  c a number s call assistant analysis raw s3 :
  analysed c a s call assistant analysis raw s3 ->
  truthy_str number = true ->
  (forall s0, exists id s',
     createOutboundCall E a number (env E "VAPI_PHONE_NUMBER_ID") s0 = (Ok id, s')) ->
  operator_reachable E ->
  exists record s',
    analyzeAndImprove E c a (Some number) s = (Ok record, s') /\
    history s' = history s ++ [record] /\
    callbackTriggered record = true /\
    exists l entry id,
      pipelineLog record = l ++ [entry] /\
      step entry = "callback"%string /\ status entry = ok /\
      detail entry = ("Callback initiated: " ++ show_ostr id)%string.
Proof.
  intros Han Hn Hcall Hop.
  destruct (analyzeAndImprove_phases _ c a (Some number) s call assistant
              analysis raw s3 Han Hop (callback_runs_placed a number Hn Hcall))
    as (r1 & r2 & r3 & requests & r4 & r5 & record & s' & _ & _ & _ & _ & _ & _
        & _ & _ & _ & _ & Hrun & Hhist & _ & _ & _ & (Hb & HR) & _).
  exists record, s'. now repeat (split; [assumption|]).
Qed.

(** X20. When the provider refuses the callback, the run still returns
    and stores its record: [callbackTriggered] stays false and the log has
    a [callback] step with status [error] that carries the message. *)
Theorem failed_callback_is_survived
  c a number s call assistant analysis raw s3 e :
  analysed c a s call assistant analysis raw s3 ->
  truthy_str number = true ->
  (forall s0, exists s',
     createOutboundCall E a number (env E "VAPI_PHONE_NUMBER_ID") s0 = (Throw e, s')) ->
  operator_reachable E ->
  exists record s',
    analyzeAndImprove E c a (Some number) s = (Ok record, s') /\
    history s' = history s ++ [record] /\
    callbackTriggered record = false /\
    exists entry,
      In entry (pipelineLog record) /\
      step entry = "callback"%string /\ status entry = error /\
      detail entry = ("Callback failed: " ++ e)%string.
Proof.
  intros Han Hn Hcall Hop.
  destruct (analyzeAndImprove_phases _ c a (Some number) s call assistant
              analysis raw s3 Han Hop (callback_runs_failed a number e Hn Hop Hcall))
    as (r1 & r2 & r3 & requests & r4 & r5 & record & s' & _ & _ & _ & _ & _ & _
        & _ & _ & _ & _ & Hrun & Hhist & _ & _ & _ & (Hb & HR) & _).
  exists record, s'. now repeat (split; [assumption|]).
Qed.

(** X21. Every tool the analysis asks for is tried, however many there
    are and whatever happens to the others: each one whose source compiles
    is listed in [toolsCreated] of the record, each one whose source does
    not compile leaves a [create_tool] step with status [error] in its
    log. *)
Theorem every_requested_tool_is_tried
  c a n s call assistant analysis raw s3 :
  analysed c a s call assistant analysis raw s3 ->
  operator_reachable E ->
  exists record s',
    analyzeAndImprove E c a n s = (Ok record, s') /\
    history s' = history s ++ [record] /\
    forall spec, In spec (items (newTools analysis)) ->
      (forall h, new_Function E (ts_handlerCode spec) = Ok h ->
         In (ts_name spec) (toolsCreated record)) /\
      (forall e, new_Function E (ts_handlerCode spec) = Throw e ->
         exists entry, In entry (pipelineLog record) /\
           step entry = "create_tool"%string /\ status entry = error /\
           detail entry = create_failed spec e).
Proof.
  intros Han Hop.
  destruct (analyzeAndImprove_phases (fun _ _ => True) c a n s call assistant
              analysis raw s3 Han Hop (callback_runs_anyhow a n Hop))
    as (r1 & r2 & r3 & requests & r4 & r5 & record & s' & Hpre & _ & _ & H3
        & _ & _ & E2 & _ & E4 & E5 & Hrun & Hhist & _ & Htc & Hlog & _).
  exists record, s'. split; [assumption|]. split; [assumption|].
  intros spec Hin.
  destruct (evolves_before_push _ _ Hpre E2) as (Hpre2 & _).
  unfold create_tools in H3.
  destruct (items (newTools analysis)) as [|sp specs] eqn:Hitems; [destruct Hin|].
  destruct (create_tools_loop E (sp :: specs) r2 Hpre2 Hop)
    as (r3' & H3' & _ & Hok & Hfail).
  rewrite H3 in H3'. injection H3' as <-.
  split.
  - intros h Hh. eapply prefix_of_In; [exact Htc|].
    eapply evolves_tools; [exact E5|]. eapply evolves_tools; [exact E4|].
    eapply Hok; eauto.
  - intros e He. destruct (Hfail spec e Hin He) as (entry & Hin' & Hentry).
    exists entry. split; [|exact Hentry].
    eapply prefix_of_In; [exact Hlog|].
    eapply evolves_log; [exact E5|]. eapply evolves_log; [exact E4|]. exact Hin'.
Qed.

Lemma create_workflows_requests analysis (r r' : Run W) requests :
  create_workflows E analysis r = (Ok requests, r') ->
  prefix_of (items (resourceRequests analysis)) (items requests).
Proof.
  unfold create_workflows.
  destruct (items (newWorkflows analysis)) as [|wf wfs].
  - intros [= <- _]. apply prefix_of_refl.
  - destruct (isN8nConfigured E).
    + unfold bind. destruct (for_each _ _ r) as [[[]|e] r1]; [|discriminate].
      intros [= <- _]. apply prefix_of_refl.
    + intros [= <- _]. simpl. now eexists.
Qed.

(** X22. The notices of the resource requests are not guarded: when the
    analysis has a resource request and the operator channel throws, the
    run throws the same error before it builds its record, and the
    history is left as it was. *)
Theorem failed_resource_notice_aborts_before_the_record
  c a n s call assistant analysis raw s3 req reqs e :
  analysed c a s call assistant analysis raw s3 ->
  resourceRequests analysis = Some (req :: reqs) ->
  (forall msg s0, exists s', notifyOperator E msg s0 = (Throw e, s')) ->
  exists s',
    analyzeAndImprove E c a n s = (Throw e, s') /\
    history s' = history s.
Proof.
  intros Han Hreq Hdown.
  destruct (analysed_run c a n s call assistant analysis raw s3 Han)
    as (r1 & Hpre & Hproc & Hhist & Hrun & _).
  rewrite Hrun. clear Hrun. unfold improve.
  destruct (run_total (update_config E a analysis) r1
              (total_update_config E a analysis) (steps_update_config E a analysis))
    as ([] & r2 & Hrun2 & Hev2).
  destruct (run_total (create_tools E analysis) r2
              (total_create_tools E analysis) (steps_create_tools E analysis))
    as ([] & r3 & Hrun3 & Hev3).
  destruct (run_total (create_workflows E analysis) r3
              (total_create_workflows E analysis) (steps_create_workflows E analysis))
    as (requests & r4 & Hrun4 & Hev4).
  rewrite (bind_Ok _ _ _ _ _ Hrun2), (bind_Ok _ _ _ _ _ Hrun3).
  rewrite (bind_Ok _ _ _ _ _ Hrun4).
  destruct (create_workflows_requests analysis r3 r4 requests Hrun4) as [t Ht].
  rewrite Hreq in Ht. simpl in Ht.
  pose proof (steps_request_resources E requests r4) as Hev5.
  assert (Hthrow : exists r5, request_resources E requests r4 = (Throw e, r5)).
  { unfold request_resources. rewrite Ht. cbn [for_each app].
    match goal with
    | |- context [inproc (notifyOperator E ?msg)] =>
        destruct (Hdown msg (proc r4)) as (s5 & Hnote)
    end.
    destruct (inproc_run _ _ _ _ Hnote) as (r5 & Hrun5 & _).
    exists r5. now rewrite (bind_Throw _ _ _ _ _ (bind_Throw _ _ _ _ _ Hrun5)). }
  destruct Hthrow as (r5 & Hrun5). rewrite Hrun5 in Hev5. simpl in Hev5.
  rewrite (bind_Throw _ _ _ _ _ Hrun5).
  exists (proc r5). split; [reflexivity|].
  pose proof (evolves_trans _ _ _ Hev2 (evolves_trans _ _ _ Hev3
               (evolves_trans _ _ _ Hev4 Hev5))) as Hev.
  destruct (evolves_before_push _ _ Hpre Hev) as (_ & Hh). congruence.
Qed.

End MoreProperties.

(** * The manual trigger and the routes of the server *)

Ltac run_steps :=
  repeat lazymatch goal with
  | |- steps (bind _ _) => apply steps_bind; [|intros ?]
  | |- steps (try_catch _ _) => apply steps_try_catch; [|intros ?]
  | |- steps (for_each _ _) => apply steps_for_each; intros ?
  | |- steps (ret _) => apply steps_ret
  | |- steps get_run => apply steps_get_run
  | |- steps mark_callback => apply steps_mark_callback
  | |- steps (push_toolsCreated _) => apply steps_push_toolsCreated
  | |- steps (push_workflowsCreated _) => apply steps_push_workflowsCreated
  | |- steps (inproc _) => apply steps_inproc
  | |- steps (match ?x with _ => _ end) => destruct x
  | |- steps (let _ := _ in _) => cbv zeta
  end.

Ltac run_totals :=
  repeat lazymatch goal with
  | |- total (bind _ _) => apply total_bind; [|intros ?]
  | |- total (try_catch _ _) => apply total_try_catch; intros ?
  | |- total (for_each _ _) => apply total_for_each; intros ?
  | |- total (ret _) => apply total_ret
  | |- total (inproc _) => apply total_inproc
  | |- total (match ?x with _ => _ end) => destruct x
  | |- total (let _ := _ in _) => cbv zeta
  end.

Section ManualProperties.

Context {W : Type}.
Variable E : Ext W.

(** The run has logged nothing. *)
Definition quiet (r : Run W) : Prop := run_log r = [].

Lemma quiet_inproc {A} (m : M (State W) A) : keeps quiet (inproc m).
Proof. intros r H. unfold inproc. destruct (m (proc r)). exact H. Qed.

Lemma quiet_push_toolsCreated n : keeps quiet (@push_toolsCreated W n).
Proof. intros r H. exact H. Qed.

Lemma quiet_push_workflowsCreated x : keeps quiet (@push_workflowsCreated W x).
Proof. intros r H. exact H. Qed.

Ltac run_quiet :=
  repeat lazymatch goal with
  | |- keeps quiet (bind _ _) => apply keeps_bind; [|intros ?]
  | |- keeps quiet (try_catch _ _) => apply keeps_try_catch; [|intros ?]
  | |- keeps quiet (for_each _ _) => apply keeps_for_each; intros ?
  | |- keeps quiet (ret _) => apply keeps_ret
  | |- keeps quiet (inproc _) => apply quiet_inproc
  | |- keeps quiet (push_toolsCreated _) => apply quiet_push_toolsCreated
  | |- keeps quiet (push_workflowsCreated _) => apply quiet_push_workflowsCreated
  | |- keeps quiet (match ?x with _ => _ end) => destruct x
  | |- keeps quiet (let _ := _ in _) => cbv zeta
  end.

(** A step of the manual trigger before its record is pushed. *)
Lemma before_push (m : M (Run W) unit) (r : Run W) :
  total m -> steps m -> keeps quiet m ->
  run_record r = None -> quiet r ->
  exists r',
    m r = (Ok tt, r') /\ run_record r' = None /\ quiet r' /\
    history (proc r') = history (proc r) /\
    prefix_of (run_toolsCreated r) (run_toolsCreated r').
Proof.
  intros Ht Hs Hq Hpre Hquiet.
  destruct (run_total m r Ht Hs) as ([] & r' & Hrun & Hev).
  specialize (Hq r Hquiet). rewrite Hrun in Hq.
  destruct (evolves_before_push _ _ Hpre Hev) as (Hpre' & Hh).
  destruct Hev as (_ & _ & Htc & _).
  exists r'. now repeat split.
Qed.

Definition manual_tools (analysis : AnalysisResult) : M (Run W) unit :=
  for_each (manual_tool_item E) (items (newTools analysis)).

Definition manual_workflows (analysis : AnalysisResult) : M (Run W) unit :=
  if isN8nConfigured E
  then for_each (manual_workflow_item E) (items (newWorkflows analysis))
  else ret tt.

Definition manual_requests (analysis : AnalysisResult) : M (Run W) unit :=
  for_each (fun req =>
              inproc (notifyOperator E ("🔑 RESOURCE REQUEST: " ++ req)%string))
           (items (resourceRequests analysis)).

Lemma manual_tools_run analysis (r : Run W) :
  run_record r = None -> quiet r ->
  exists r',
    manual_tools analysis r = (Ok tt, r') /\ run_record r' = None /\ quiet r' /\
    history (proc r') = history (proc r) /\
    prefix_of (run_toolsCreated r) (run_toolsCreated r').
Proof.
  apply before_push; unfold manual_tools, manual_tool_item.
  - run_totals.
  - run_steps. apply (keeps_history_createAndRegisterTool E).
  - run_quiet.
Qed.

Lemma manual_workflows_run analysis (r : Run W) :
  run_record r = None -> quiet r ->
  exists r',
    manual_workflows analysis r = (Ok tt, r') /\ run_record r' = None /\
    quiet r' /\ history (proc r') = history (proc r) /\
    prefix_of (run_toolsCreated r) (run_toolsCreated r').
Proof.
  apply before_push; unfold manual_workflows, manual_workflow_item.
  - run_totals.
  - run_steps.
    + apply keeps_history_remote.
    + apply (keeps_history_createAndRegisterTool E).
  - run_quiet.
Qed.

Lemma manual_requests_run analysis (r : Run W) :
  operator_reachable E ->
  run_record r = None -> quiet r ->
  exists r',
    manual_requests analysis r = (Ok tt, r') /\ run_record r' = None /\
    quiet r' /\ history (proc r') = history (proc r) /\
    prefix_of (run_toolsCreated r) (run_toolsCreated r').
Proof.
  intros Hop. apply before_push; unfold manual_requests.
  - run_totals. now apply total_notifyOperator.
  - run_steps. apply external_keeps_history, (external_notifyOperator E).
  - run_quiet.
Qed.

Lemma inproc_new_run {A} (m : M (State W) A) (s s1 : State W) res :
  m s = (res, s1) -> inproc m (new_run s) = (res, new_run s1).
Proof. intros H. unfold inproc. cbn [proc new_run]. now rewrite H. Qed.

(** The manual trigger up to its update of the assistant. *)
Lemma manual_pipeline_head t a n (s s1 s2 : State W) assistant analysis raw :
  getAssistant E a s = (Ok assistant, s1) ->
  analyzeTranscriptWithRaw E (Some t) (systemMessage assistant)
    (config assistant) (existing_tools s1) s1 = (Ok (analysis, raw), s2) ->
  manual_pipeline E t a n (new_run s)
  = (inproc (updateAssistant E a (configChanges analysis)) ;;;
     manual_tools analysis ;;;
     manual_workflows analysis ;;;
     manual_requests analysis ;;;
     r <- get_run ;;
     let record :=
       {| callId := "manual";
          customerNumber := n;
          timestamp := now E (world (proc r));
          transcript := None;
          rec_failures := failures analysis;
          rec_changes := changes analysis;
          toolsCreated := run_toolsCreated r;
          workflowsCreated := run_workflowsCreated r;
          configBefore := config assistant;
          configAfter := configChanges analysis;
          callbackTriggered := false;
          rawAnalysis := Some raw;
          pipelineLog := [] |} in
     push_record record ;;;
     inproc (notifyOperator E (manual_summary analysis (run_toolsCreated r))) ;;;
     manual_callback E a n ;;;
     current_record record) (new_run s2).
Proof.
  intros Hasst Hres. unfold manual_pipeline.
  rewrite (bind_Ok _ _ _ _ _ (inproc_new_run _ _ _ _ Hasst)).
  assert (Htools : getAllTools s1 = (Ok (JsMap.values (registry s1)), s1))
    by reflexivity.
  rewrite (bind_Ok _ _ _ _ _ (inproc_new_run _ _ _ _ Htools)).
  unfold existing_tools in Hres.
  rewrite (bind_Ok _ _ _ _ _ (inproc_new_run _ _ _ _ Hres)).
  reflexivity.
Qed.

(** X23. The manual trigger does not guard its update of the assistant:
    when that update throws, [analyzeFromTranscript] throws the same error
    at once. No tool is created and no record is stored: the registry and
    the history are as they were. *)
Theorem manual_update_failure_stores_nothing
  t a n (s s1 s2 s3 : State W) assistant analysis raw e :
  getAssistant E a s = (Ok assistant, s1) ->
  analyzeTranscriptWithRaw E (Some t) (systemMessage assistant)
    (config assistant) (existing_tools s1) s1 = (Ok (analysis, raw), s2) ->
  updateAssistant E a (configChanges analysis) s2 = (Throw e, s3) ->
  analyzeFromTranscript E t a n s = (Throw e, s3) /\
  registry s3 = registry s /\ history s3 = history s.
Proof.
  intros Hasst Hres Hupd. split.
  - unfold analyzeFromTranscript.
    rewrite (manual_pipeline_head t a n s s1 s2 assistant analysis raw Hasst Hres).
    rewrite (bind_Throw _ _ _ _ _ (inproc_new_run _ _ _ _ Hupd)). reflexivity.
  - pose proof (external_getAssistant E a s) as [R1 H1].
    pose proof (external_analyzeTranscriptWithRaw E (Some t)
                  (systemMessage assistant) (config assistant)
                  (existing_tools s1) s1) as [R2 H2].
    pose proof (external_updateAssistant E a (configChanges analysis) s2)
      as [R3 H3].
    rewrite Hasst in R1, H1. rewrite Hres in R2, H2. rewrite Hupd in R3, H3.
    simpl in *. split; congruence.
Qed.

Lemma quiet_manual_callback a n : keeps quiet (manual_callback E a n).
Proof.
  unfold manual_callback.
  destruct n as [x|]; [|apply keeps_ret].
  destruct (truthy_str x); [|apply keeps_ret].
  apply keeps_bind; [apply quiet_inproc|]. intros _.
  apply keeps_try_catch; [|intros _; apply keeps_ret].
  apply keeps_bind; [apply quiet_inproc|]. intros _.
  intros r H. exact H.
Qed.

Lemma manual_callback_runs a n h0 c tc l0 (r : Run W) :
  pushed h0 c tc l0 false r ->
  exists b r',
    manual_callback E a n r = (Ok tt, r') /\ pushed h0 c tc l0 b r' /\
    (b = true -> truthy_ostr n = true).
Proof.
  intros Hp. unfold manual_callback.
  destruct n as [x|]; [|exists false, r; split; [reflexivity|split; [exact Hp|discriminate]]].
  simpl. destruct (truthy_str x);
    [|exists false, r; split; [reflexivity|split; [exact Hp|discriminate]]].
  pose proof (pushed_inproc h0 c tc l0 false (settle E 3000)
                (external_keeps_history _ (external_settle E 3000)) r Hp) as Hp1.
  set (r1 := snd (inproc (settle E 3000) r)) in *.
  assert (Hrun1 : inproc (settle E 3000) r = (Ok tt, r1)) by reflexivity.
  rewrite (bind_Ok _ _ _ _ _ Hrun1).
  pose proof (pushed_inproc h0 c tc l0 false _
                (external_keeps_history _
                   (external_createOutboundCall E a x
                      (env E "VAPI_PHONE_NUMBER_ID"))) r1 Hp1) as Hp2.
  destruct (createOutboundCall E a x (env E "VAPI_PHONE_NUMBER_ID") (proc r1))
    as [[id|e] s'] eqn:Hc;
    destruct (inproc_run _ _ _ _ Hc) as (r2 & Hrun2 & _);
    rewrite Hrun2 in Hp2; simpl in Hp2.
  - apply pushed_mark_callback in Hp2.
    exists true, (snd (mark_callback r2)). split.
    + apply try_catch_Ok. rewrite (bind_Ok _ _ _ _ _ Hrun2). reflexivity.
    + split; [exact Hp2|reflexivity].
  - exists false, r2. split.
    + rewrite (try_catch_Throw _ _ _ _ _ (bind_Throw _ _ _ _ _ Hrun2)).
      reflexivity.
    + split; [exact Hp2|discriminate].
Qed.

(** X24. A manual run whose reads and update succeed returns a record and
    appends exactly it to the history. The record is filed under the call
    id "manual", holds no transcript and an empty log, the configuration
    read before the update as [configBefore], and the requested changes
    and the raw reply of the analysis; failures while tools or workflows
    are created or the callback is placed do not stop it, and
    [callbackTriggered] is true only if a customer number was given. *)
Theorem manual_run_stores_its_record
  t a n (s s1 s2 s3 : State W) assistant analysis raw :
  getAssistant E a s = (Ok assistant, s1) ->
  analyzeTranscriptWithRaw E (Some t) (systemMessage assistant)
    (config assistant) (existing_tools s1) s1 = (Ok (analysis, raw), s2) ->
  updateAssistant E a (configChanges analysis) s2 = (Ok tt, s3) ->
  operator_reachable E ->
  exists record s',
    analyzeFromTranscript E t a n s = (Ok record, s') /\
    history s' = history s ++ [record] /\
    callId record = "manual"%string /\ customerNumber record = n /\
    transcript record = None /\ pipelineLog record = [] /\
    rec_failures record = failures analysis /\
    rec_changes record = changes analysis /\
    configBefore record = config assistant /\
    configAfter record = configChanges analysis /\
    rawAnalysis record = Some raw /\
    (callbackTriggered record = true -> truthy_ostr n = true).
Proof.
  intros Hasst Hres Hupd Hop.
  assert (Hhist : history s3 = history s).
  { pose proof (external_getAssistant E a s) as [_ H1].
    pose proof (external_analyzeTranscriptWithRaw E (Some t)
                  (systemMessage assistant) (config assistant)
                  (existing_tools s1) s1) as [_ H2].
    pose proof (external_updateAssistant E a (configChanges analysis) s2)
      as [_ H3].
    rewrite Hasst in H1. rewrite Hres in H2. rewrite Hupd in H3.
    simpl in *. congruence. }
  unfold analyzeFromTranscript.
  rewrite (manual_pipeline_head t a n s s1 s2 assistant analysis raw Hasst Hres).
  rewrite (bind_Ok _ _ _ _ _ (inproc_new_run _ _ _ _ Hupd)).
  destruct (manual_tools_run analysis (new_run s3) eq_refl eq_refl)
    as (r1 & Hrun1 & Hpre1 & Hq1 & Hh1 & _).
  rewrite (bind_Ok _ _ _ _ _ Hrun1).
  destruct (manual_workflows_run analysis r1 Hpre1 Hq1)
    as (r2 & Hrun2 & Hpre2 & Hq2 & Hh2 & _).
  rewrite (bind_Ok _ _ _ _ _ Hrun2).
  destruct (manual_requests_run analysis r2 Hop Hpre2 Hq2)
    as (r3 & Hrun3 & Hpre3 & Hq3 & Hh3 & _).
  rewrite (bind_Ok _ _ _ _ _ Hrun3).
  assert (Hget : get_run r3 = (Ok r3, r3)) by reflexivity.
  rewrite (bind_Ok _ _ _ _ _ Hget). cbv zeta.
  set (record0 :=
         {| callId := "manual";
            customerNumber := n;
            timestamp := now E (world (proc r3));
            transcript := None;
            rec_failures := failures analysis;
            rec_changes := changes analysis;
            toolsCreated := run_toolsCreated r3;
            workflowsCreated := run_workflowsCreated r3;
            configBefore := config assistant;
            configAfter := configChanges analysis;
            callbackTriggered := false;
            rawAnalysis := Some raw;
            pipelineLog := [] |}).
  set (r4 := snd (push_record record0 r3)).
  assert (Hrun4 : push_record record0 r3 = (Ok tt, r4)) by reflexivity.
  rewrite (bind_Ok _ _ _ _ _ Hrun4).
  assert (Hp4 : pushed (history (proc r3))
                  ("manual"%string, n, None, failures analysis, changes analysis,
                   config assistant, configChanges analysis, Some raw,
                   run_workflowsCreated r3)
                  (run_toolsCreated r3) [] false r4).
  { split; [reflexivity|]. split; [now exists (run_log r4)|].
    exists record0. repeat split. unfold r4. simpl. symmetry. exact Hq3. }
  match goal with
  | |- context [inproc (notifyOperator E ?msg)] =>
      destruct (Hop msg (proc r4)) as (s5 & Hnote);
      pose proof (pushed_inproc _ _ _ _ false _
                    (external_keeps_history _ (external_notifyOperator E msg))
                    r4 Hp4) as Hp5
  end.
  destruct (inproc_run _ _ _ _ Hnote) as (r5 & Hrun5 & _).
  rewrite Hrun5 in Hp5. simpl in Hp5.
  rewrite (bind_Ok _ _ _ _ _ Hrun5).
  destruct (manual_callback_runs a n _ _ _ _ r5 Hp5)
    as (b & r6 & Hrun6 & Hp6 & Hb).
  rewrite (bind_Ok _ _ _ _ _ Hrun6).
  destruct (current_record_pushed _ _ _ _ b record0 r6 Hp6)
    as (rec & Hcur & Hh & Hc & _ & Hcb & _ & Hlog).
  rewrite Hcur. exists rec, (proc r6).
  split; [reflexivity|].
  split; [rewrite Hh; cbn [proc new_run] in Hh1; congruence|].
  unfold core_fields in Hc. injection Hc. intros.
  repeat (split; [assumption|]).
  split.
  { rewrite Hlog.
    assert (Hq4 : quiet r4) by exact Hq3.
    pose proof (quiet_inproc (notifyOperator E
                  (manual_summary analysis (run_toolsCreated r3))) r4 Hq4) as Hq5.
    rewrite Hrun5 in Hq5.
    pose proof (quiet_manual_callback a n r5 Hq5) as Hq6.
    rewrite Hrun6 in Hq6. exact Hq6. }
  repeat (split; [assumption|]).
  intros Htrue. apply Hb. congruence.
Qed.

(** ** server.ts: POST /improve and POST /reset *)

(** X25. POST /improve always answers. Without [VAPI_ASSISTANT_ID], or
    with neither a call id nor a transcript, it answers 400 and nothing
    has happened; a call id takes precedence over a transcript, which is
    then ignored; and an error thrown by the run is answered as 500 with
    its message. *)
Theorem improve_route_always_replies (body : ImproveBody) (s : State W) :
  (exists reply s', improve_route E body s = (Ok reply, s')) /\
  (truthy_ostr (env E "VAPI_ASSISTANT_ID") = false ->
   improve_route E body s = (Ok (ErrorReply 400 "VAPI_ASSISTANT_ID not set"), s)) /\
  (truthy_ostr (ib_callId body) = false ->
   truthy_ostr (ib_transcript body) = false ->
   exists reason, improve_route E body s = (Ok (ErrorReply 400 reason), s)) /\
  (truthy_ostr (ib_callId body) = true ->
   forall t, improve_route E body s
             = improve_route E {| ib_callId := ib_callId body;
                                  ib_transcript := t;
                                  ib_customerNumber := ib_customerNumber body |} s) /\
  (forall a c e s',
     env E "VAPI_ASSISTANT_ID" = Some a -> truthy_str a = true ->
     ib_callId body = Some c -> truthy_str c = true ->
     analyzeAndImprove E c a (ib_customerNumber body) s = (Throw e, s') ->
     improve_route E body s = (Ok (ErrorReply 500 e), s')).
Proof.
  split; [|split; [|split; [|split]]].
  - unfold improve_route.
    destruct (env E "VAPI_ASSISTANT_ID") as [a|]; [|eexists; eexists; reflexivity].
    destruct (truthy_str a); [|eexists; eexists; reflexivity].
    unfold try_catch.
    match goal with
    | |- context [let (_, _) := ?m s in _] => destruct (m s) as [[reply|e] s']
    end; eexists; eexists; reflexivity.
  - unfold improve_route.
    destruct (env E "VAPI_ASSISTANT_ID") as [a|]; [|reflexivity].
    simpl. now intros ->.
  - intros Hc Ht. unfold improve_route.
    destruct (env E "VAPI_ASSISTANT_ID") as [a|]; [|eexists; reflexivity].
    destruct (truthy_str a); [|eexists; reflexivity].
    rewrite Hc, Ht. eexists. reflexivity.
  - intros Hc t. unfold improve_route. cbn [ib_callId ib_customerNumber].
    now rewrite Hc.
  - intros a c e s' Ha Hta Hc Htc Hrun. unfold improve_route.
    rewrite Ha, Hta, Hc. cbn [truthy_ostr show_ostr]. rewrite Htc.
    rewrite (try_catch_Throw _ _ _ _ _ (bind_Throw _ _ _ _ _ Hrun)).
    reflexivity.
Qed.

(** X26. POST /reset always answers, and clears all or nothing. When it
    answers with the baseline, the history is empty and the registry is
    the old one without its dynamic tools; when it answers with an error,
    the registry and the history are as they were, and for a 400 nothing
    at all has happened. *)
Theorem reset_route_clears_all_or_nothing (s : State W) :
  exists reply s',
    reset_route E s = (Ok reply, s') /\
    match reply with
    | JsonReply done =>
        rd_ok done = true /\ rd_baseline done = BASELINE /\
        history s' = [] /\
        registry s' = clear_entries (registry s) (registry s)
    | ErrorReply code _ =>
        registry s' = registry s /\ history s' = history s /\
        (code = 400 -> s' = s)
    end.
Proof.
  unfold reset_route.
  destruct (env E "VAPI_ASSISTANT_ID") as [a|];
    [|eexists; eexists; split; [reflexivity|now repeat split]].
  destruct (truthy_str a);
    [|eexists; eexists; split; [reflexivity|now repeat split]].
  destruct (resetToBaseline E a s) as [[[]|e] s1] eqn:Hreset.
  - exists (JsonReply
              {| rd_ok := true;
                 rd_message := "Reset to baseline. Assistant prompt is weak, tools cleared, history wiped.";
                 rd_baseline := BASELINE |}), s1.
    split.
    + apply try_catch_Ok. now rewrite (bind_Ok _ _ _ _ _ Hreset).
    + destruct (resetToBaseline_returns E a s s1 Hreset) as [Hreg Hh].
      now repeat split.
  - exists (ErrorReply 500 e), s1. split.
    + now rewrite (try_catch_Throw _ _ _ _ _ (bind_Throw _ _ _ _ _ Hreset)).
    + destruct (updateAssistant E a BASELINE s) as [[[]|e'] s0] eqn:Hupd.
      * exfalso. revert Hreset. unfold resetToBaseline.
        rewrite (bind_Ok _ _ _ _ _ Hupd). discriminate.
      * destruct (resetToBaseline_update_throws E a s e') as (_ & Hreg & Hh);
          [now rewrite Hupd|].
        rewrite Hreset in Hreg, Hh. simpl in *.
        split; [assumption|]. split; [assumption|discriminate].
Qed.

End ManualProperties.

(** * The workflow that n8n.ts builds *)














(** * The brain and the tool-call webhook *)

Section BrainProperties.

Context {W : Type}.
Variable E : Ext W.
Variable B : BrainServices W.

(** What the webhook answers for a call of the registered tool [t]: what
    the handler returns, or the text that carries what it throws. *)
Definition answer_of (t : RegisteredTool W) (toolCall : ToolCall) (w : W) : string :=
  match fst (handler t (tc_arguments toolCall) w) with
  | Ok out => out
  | Throw msg => ("Error executing " ++ tc_name toolCall ++ ": " ++ msg)%string
  end.

(** [result] answers [toolCall] from a process with the registry of [s]. *)
Definition answers (s : State W) (toolCall : ToolCall) (result : string * string)
  : Prop :=
  fst result = tc_id toolCall /\
  exists t w,
    JsMap.get (tc_name toolCall) (registry s) = Some t /\
    snd result = answer_of t toolCall w.

Lemma tool_call_result_registered m toolCall t (s : State W) :
  JsMap.get (tc_name toolCall) (registry s) = Some t ->
  exists s',
    tool_call_result E B m toolCall s
    = (Ok (tc_id toolCall, answer_of t toolCall (world s)), s') /\
    registry s' = registry s /\ history s' = history s.
Proof.
  intros Hget. unfold tool_call_result, answer_of.
  assert (Htool : getTool (tc_name toolCall) s = (Ok (Some t), s)).
  { unfold getTool, bind, get_registry, ret. now rewrite Hget. }
  rewrite (bind_Ok _ _ _ _ _ Htool).
  destruct (handler t (tc_arguments toolCall) (world s)) as [[out|msg] w] eqn:Hh.
  - exists (in_world w s). split; [|now split].
    apply try_catch_Ok. rewrite (bind_Ok _ _ _ _ _ (remote_run _ _ _ _ Hh)).
    reflexivity.
  - exists (in_world w s). split; [|now split].
    rewrite (try_catch_Throw _ _ _ _ _
               (bind_Throw _ _ _ _ _ (remote_run _ _ _ _ Hh))).
    reflexivity.
Qed.

Lemma collect_registered m (s : State W) calls :
  (forall toolCall, In toolCall calls ->
     JsMap.get (tc_name toolCall) (registry s) <> None) ->
  forall s0, registry s0 = registry s -> history s0 = history s ->
  exists results s',
    collect (tool_call_result E B m) calls s0 = (Ok results, s') /\
    registry s' = registry s /\ history s' = history s /\
    Forall2 (answers s) calls results.
Proof.
  induction calls as [|toolCall calls IH]; intros Hall s0 Hreg Hhist.
  - exists [], s0. repeat split; [assumption|assumption|constructor].
  - destruct (JsMap.get (tc_name toolCall) (registry s)) as [t|] eqn:Hget;
      [|exfalso; apply (Hall toolCall); [now left|exact Hget]].
    destruct (tool_call_result_registered m toolCall t s0) as (s1 & Hrun & Hr1 & Hh1).
    { now rewrite Hreg. }
    destruct (IH (fun tc H => Hall tc (or_intror H)) s1) as
      (results & s' & Hrest & Hr' & Hh' & Hans); [congruence|congruence|].
    exists ((tc_id toolCall, answer_of t toolCall (world s0)) :: results), s'.
    split.
    + cbn [collect]. rewrite (bind_Ok _ _ _ _ _ Hrun).
      rewrite (bind_Ok _ _ _ _ _ Hrest). reflexivity.
    + split; [assumption|]. split; [assumption|].
      constructor; [|exact Hans].
      split; [reflexivity|]. exists t, (world s0). now split.
Qed.

Lemma answers_ids (s : State W) calls results :
  Forall2 (answers s) calls results -> map fst results = map tc_id calls.
Proof.
  induction 1 as [|toolCall r calls rs [Hid _] _ IH]; [reflexivity|].
  simpl. now rewrite Hid, IH.
Qed.

(** X29. POST /vapi/tool-calls with calls of registered tools only
    answers every call: one result per call, in the order of the calls
    and under their ids, each the output of the tool's handler or, when
    the handler throws, the text "Error executing <name>: <message>". A
    throwing handler neither fails the request nor stops the later
    calls, and the registry and the history are not touched. *)
Theorem tool_calls_answers_every_call
  (payload : ToolCallPayload) (m : ToolCallMessage) (s : State W) :
  tcp_message payload = Some m ->
  tcm_type m = "tool-calls"%string ->
  (forall toolCall, In toolCall (toolCallList m) ->
     JsMap.get (tc_name toolCall) (registry s) <> None) ->
  exists results s',
    tool_calls E B payload s = (Ok (JsonReply results), s') /\
    map fst results = map tc_id (toolCallList m) /\
    Forall2 (answers s) (toolCallList m) results /\
    registry s' = registry s /\ history s' = history s.
Proof.
  intros Hm Htype Hall.
  destruct (collect_registered m s (toolCallList m) Hall s eq_refl eq_refl)
    as (results & s' & Hrun & Hreg & Hhist & Hans).
  exists results, s'. split.
  - unfold tool_calls. rewrite Hm, Htype, String.eqb_refl.
    now rewrite (bind_Ok _ _ _ _ _ Hrun).
  - split; [now apply (answers_ids s)|]. split; [assumption|]. now split.
Qed.

(** The tool context that [decide] puts in its prompt. *)
Definition tool_context (s : State W) : string :=
  match JsMap.values (registry s) with
  | [] => "No tools available."%string
  | _ :: _ => join nl (map (@tool_line W) (JsMap.values (registry s)))
  end.

Definition not_found (n : string) : string :=
  ("Tool " ++ dq ++ n ++ dq ++ " not found. Something went wrong.")%string.

Lemma decide_unfold msg ctx (s : State W) content w :
  brain_create B (decide_prompt (tool_context s) msg ctx) (world s)
  = (Ok content, w) ->
  decide E B msg ctx s
  = match content with
    | [] => throw "Cannot read properties of undefined (reading 'type')"%string
    | block :: _ =>
        match decision_parse B (clean (block_text block)) with
        | None => ret (respond_with (block_text block), block_text block)
        | Some decision =>
            result <- executeDecision E decision ;;
            ret (decision, result)
        end
    end (in_world w s).
Proof.
  intros Hb. unfold decide.
  assert (Hctx : buildToolContext s = (Ok (tool_context s), s)).
  { unfold buildToolContext.
    assert (Htools : getAllTools s = (Ok (JsMap.values (registry s)), s))
      by reflexivity.
    rewrite (bind_Ok _ _ _ _ _ Htools). unfold tool_context, ret.
    destruct (JsMap.values (registry s)); reflexivity. }
  rewrite (bind_Ok _ _ _ _ _ Hctx).
  rewrite (bind_Ok _ _ _ _ _ (remote_run _ _ _ _ Hb)). reflexivity.
Qed.

(** X30. What [decide] leaves behind, once the reasoning service has
    answered. A reply that does not parse is itself the response and the
    result, and the process is untouched. A decision to execute a tool
    that is not registered gives the not-found text, and the process is
    untouched. A decision to create a tool whose source compiles
    registers the tool before it runs it: the tool is in the registry
    afterwards whatever its first run does, also when that run throws and
    [decide] throws with it. *)
Theorem decide_outcomes msg ctx (s : State W) block rest w :
  brain_create B (decide_prompt (tool_context s) msg ctx) (world s)
  = (Ok (block :: rest), w) ->
  let text := block_text block in
  (decision_parse B (clean text) = None ->
   decide E B msg ctx s = (Ok (respond_with text, text), in_world w s)) /\
  (forall d n,
     decision_parse B (clean text) = Some d ->
     action d = "execute_tool"%string -> toolName d = Some n ->
     JsMap.get n (registry s) = None ->
     decide E B msg ctx s = (Ok (d, not_found n), in_world w s)) /\
  (forall d spec h,
     decision_parse B (clean text) = Some d ->
     action d = "create_tool"%string -> newTool d = Some spec ->
     new_Function E (ts_handlerCode spec) = Ok h ->
     operator_reachable E ->
     let tool := dynamic_tool spec h (now E w) in
     fst (getTool (ts_name spec) (snd (decide E B msg ctx s))) = Ok (Some tool) /\
     exists s1,
       createAndRegisterTool E spec (in_world w s) = (Ok tool, s1) /\
       fst (decide E B msg ctx s)
       = match fst (h (args_of d) (world s1)) with
         | Ok out => Ok (d, out)
         | Throw e => Throw e
         end).
Proof.
  intros Hb text. rewrite (decide_unfold msg ctx s _ w Hb). fold text.
  split; [|split].
  - intros ->. reflexivity.
  - intros d n -> Hact Hname Hget. unfold executeDecision.
    rewrite Hact, Hname, String.eqb_refl.
    assert (Htool : getTool n (in_world w s) = (Ok None, in_world w s)).
    { unfold getTool, bind, get_registry, ret. cbn [registry in_world].
      now rewrite Hget. }
    erewrite bind_Ok.
    2:{ erewrite bind_Ok; [|exact Htool]. reflexivity. }
    reflexivity.
  - intros d spec h -> Hact Hspec Hh Hop tool.
    destruct (createAndRegisterTool_compiled E spec h (in_world w s) Hh Hop)
      as (s1 & Hcreate & Hreg & _).
    cbn [world in_world] in Hcreate, Hreg. fold tool in Hcreate, Hreg.
    assert (Hexec : executeDecision E d (in_world w s)
                    = remote (h (args_of d)) s1).
    { unfold executeDecision. rewrite Hact, Hspec.
      replace (String.eqb "create_tool" "execute_tool") with false by reflexivity.
      rewrite String.eqb_refl.
      rewrite (bind_Ok _ _ _ _ _ Hcreate). reflexivity. }
    unfold bind. rewrite Hexec. unfold remote.
    destruct (h (args_of d) (world s1)) as [[out|e] w1] eqn:Hfirst; cbn.
    + split; [|exists s1; split; [exact Hcreate|now rewrite Hfirst]].
      rewrite Hreg. now rewrite JsMapFacts.get_set_same.
    + split; [|exists s1; split; [exact Hcreate|now rewrite Hfirst]].
      rewrite Hreg. now rewrite JsMapFacts.get_set_same.
Qed.

End BrainProperties.

(** * The further properties on concrete runs *)

(** Stand-ins for a provider that refuses writes, one that places no
    calls, and a WhatsApp gateway that cannot be reached. *)
Definition vapi_read_only (path : string) (m : Method) (body : option json)
  (w : sim) : Result json * sim :=
  match m with
  | PATCH => (Throw (failed m path "(403): read only"), w)
  | _ => vapi path m body w
  end.

Definition vapi_no_calls (path : string) (m : Method) (body : option json)
  (w : sim) : Result json * sim :=
  if String.eqb path "/call/phone"
  then (Throw (failed m path "(402): no credit"), w)
  else vapi path m body w.

Definition whapi_down (to body : string) (w : sim) : Result WhapiReply * sim :=
  (Throw "fetch failed"%string, w).

Definition ext_of (envf : string -> option string)
  (parse0 : string -> option AnalysisResult)
  (v : string -> Method -> option json -> sim -> Result json * sim)
  (wh : string -> string -> sim -> Result WhapiReply * sim) : Ext sim :=
  let E := ext envf parse0 in
  {| env := env E; now := now E; vapiRequest := v; whapi_send_text := wh;
     messages_create := messages_create E; JSON_parse := JSON_parse E;
     new_Function := new_Function E; listWorkflows := listWorkflows E;
     getWorkflow := getWorkflow E;
     createCustomWorkflow := createCustomWorkflow E;
     sleep := sleep E; seed_handler := seed_handler E |}.

Definition analysis_with_request : AnalysisResult :=
  {| failures := ["Agent could not send an SMS"%string];
     changes := ["Asked for an SMS gateway"%string];
     configChanges := [];
     newTools := None;
     newWorkflows := None;
     resourceRequests := Some ["Need an SMS gateway API key"%string] |}.

Definition parse_request (text : string) : option AnalysisResult :=
  if String.eqb text "{resource request}" then Some analysis_with_request
  else parse text.

(** What a run reads before it changes anything. *)
Definition read_call (E : Ext sim) (c : string) (s : State sim) : Call :=
  match fst (getCall E c s) with
  | Ok call => call
  | Throw _ => {| call_status := None; call_transcript := None;
                  call_endedReason := None |}
  end.

Definition read_assistant (E : Ext sim) (a : string) (s : State sim) : Assistant :=
  match fst (getAssistant E a s) with
  | Ok assistant => assistant
  | Throw _ => {| systemMessage := EmptyString; config := JNull |}
  end.

Definition after_analysis (E : Ext sim) (c a : string) (s : State sim) : State sim :=
  let s1 := snd (getCall E c s) in
  let s2 := snd (getAssistant E a s1) in
  snd (analyzeTranscriptWithRaw E (call_transcript (read_call E c s))
         (systemMessage (read_assistant E a s1))
         (config (read_assistant E a s1)) (existing_tools s2) s2).

Ltac fixture_analysed E c a s :=
  exists (snd (getCall E c s)), (snd (getAssistant E a (snd (getCall E c s))));
  split; [vm_compute; reflexivity|]; split; vm_compute; reflexivity.

Lemma updateAssistant_without_known_field_witness :
  let E := ext no_env parse in
  let s := booted no_env (Some live_profile) "none" in
  let changes := [("metadata"%string, JObj [("team"%string, JStr "ops")])] in
  (forall k, In k known_fields -> obj_get k changes = None) /\
  updateAssistant E "asst-1" changes s = (Ok tt, s).
Proof.
  intros E s changes.
  assert (H : forall k, In k known_fields -> obj_get k changes = None).
  { intros k Hk. simpl in Hk.
    repeat (destruct Hk as [<-|Hk]; [reflexivity|]). destruct Hk. }
  split; [exact H|].
  exact (updateAssistant_without_known_field E "asst-1" changes s H).
Defined.

Lemma updateAssistant_read_failure_writes_nothing_witness :
  let E := ext no_env parse in
  let s := booted no_env None "none" in
  let changes := [("firstMessage"%string, JStr "Hi"); ("maxTokens"%string, JNum 500%Q)] in
  let e := "Vapi GET /assistant/asst-1 failed (503): unavailable"%string in
  vapiRequest E (assistant_path "asst-1") GET None (world s) = (Throw e, world s) /\
  updateAssistant E "asst-1" changes s = (Throw e, in_world (world s) s).
Proof.
  intros E s changes e.
  assert (H : vapiRequest E (assistant_path "asst-1") GET None (world s)
              = (Throw e, world s)) by reflexivity.
  split; [exact H|].
  apply (updateAssistant_read_failure_writes_nothing E "asst-1" changes s e (world s)).
  - left. discriminate.
  - exact H.
Defined.

Lemma updateAssistant_voiceSpeed_keeps_voice_fields_witness :
  let E := ext no_env parse in
  let s := booted no_env (Some live_profile) "none" in
  let voice := [("provider"%string, JStr "11labs");
                ("voiceId"%string, JStr "kdmDKE6EkgrWrrykO9Qt")] in
  vapiRequest E (assistant_path "asst-1") GET None (world s)
    = (Ok live_profile, world s) /\
  exists written,
    updateAssistant E "asst-1" [("voiceSpeed"%string, JNum (9 # 10))] s
    = (remote (vapiRequest E (assistant_path "asst-1") PATCH
                 (Some (JObj [("voice"%string, JObj written)]))) ;;;
       ret tt) (in_world (world s) s) /\
    obj_get "speed" written = Some (JNum (9 # 10)) /\
    obj_get "voiceId" written = obj_get "voiceId" voice.
Proof.
  intros E s voice.
  assert (H : vapiRequest E (assistant_path "asst-1") GET None (world s)
              = (Ok live_profile, world s)) by reflexivity.
  split; [exact H|].
  destruct (updateAssistant_voiceSpeed_keeps_voice_fields E "asst-1"
              (JNum (9 # 10)) s live_profile voice (world s) H eq_refl)
    as (written & Hrun & Hspeed & Hother & _).
  exists written. split; [exact Hrun|]. split; [exact Hspeed|].
  apply Hother. discriminate.
Defined.

(** An assistant that names no provider, and one that names it under
    "llm". *)
Definition bare_profile : json :=
  JObj [("id"%string, JStr "asst-1"); ("name"%string, JStr "Ruya Logistics")].

Definition llm_profile : json :=
  JObj [("id"%string, JStr "asst-1");
        ("llm"%string, JObj [("provider"%string, JStr "openai");
                             ("model"%string, JStr "gpt-4o-mini");
                             ("temperature"%string, JNum (7 # 10))])].

Lemma updateAssistant_maxTokens_falls_back_to_openai_witness :
  let E := ext no_env parse in
  let s := booted no_env (Some bare_profile) "none" in
  vapiRequest E (assistant_path "asst-1") GET None (world s)
    = (Ok bare_profile, world s) /\
  updateAssistant E "asst-1" [("maxTokens"%string, JNum 500%Q)] s
  = (remote (vapiRequest E (assistant_path "asst-1") PATCH
               (Some (JObj [("model"%string,
                             JObj [("provider"%string, JStr "openai");
                                   ("model"%string, JStr "gpt-4o");
                                   ("maxTokens"%string, JNum 500%Q)])]))) ;;;
     ret tt) (in_world (world s) s).
Proof.
  intros E s.
  assert (H : vapiRequest E (assistant_path "asst-1") GET None (world s)
              = (Ok bare_profile, world s)) by reflexivity.
  split; [exact H|].
  exact (updateAssistant_maxTokens_falls_back_to_openai E "asst-1" (JNum 500%Q) s
           bare_profile (world s) H eq_refl eq_refl).
Defined.

Lemma updateAssistant_maxTokens_under_llm_witness :
  let E := ext no_env parse in
  let s := booted no_env (Some llm_profile) "none" in
  vapiRequest E (assistant_path "asst-1") GET None (world s)
    = (Ok llm_profile, world s) /\
  exists written,
    updateAssistant E "asst-1" [("maxTokens"%string, JNum 500%Q)] s
    = (remote (vapiRequest E (assistant_path "asst-1") PATCH
                 (Some (JObj [("llm"%string, JObj written)]))) ;;;
       ret tt) (in_world (world s) s) /\
    obj_get "provider" written = Some (JStr "openai") /\
    obj_get "maxTokens" written = Some (JNum 500%Q).
Proof.
  intros E s.
  assert (H : vapiRequest E (assistant_path "asst-1") GET None (world s)
              = (Ok llm_profile, world s)) by reflexivity.
  split; [exact H|].
  exact (updateAssistant_maxTokens_under_llm E "asst-1" (JNum 500%Q) s
           llm_profile (world s) H eq_refl eq_refl).
Defined.

Lemma getAllTools_keeps_insertion_order_witness :
  let s := booted no_env (Some live_profile) "none" in
  fst (getTool (name throwing_tool) s) = Ok None /\
  fst (getAllTools (snd (registerTool throwing_tool s)))
  = Ok (JsMap.values (registry s) ++ [throwing_tool]).
Proof.
  intros s. split; [reflexivity|].
  exact (getAllTools_keeps_insertion_order throwing_tool s eq_refl).
Defined.

Lemma registry_names_stay_unique_witness :
  let E := ext no_env parse in
  JsMap.wf (registry with_dynamic_tool) /\
  JsMap.wf (registry (snd (registerTool shadowing_tool with_dynamic_tool))) /\
  JsMap.wf (registry (snd (clearDynamicTools with_dynamic_tool))) /\
  JsMap.wf (registry (snd (createAndRegisterTool E tool_throwing with_dynamic_tool))).
Proof.
  intros E.
  assert (Hwf : JsMap.wf (registry with_dynamic_tool)).
  { unfold JsMap.wf. vm_compute. nodup_strings. }
  destruct (registry_names_stay_unique E with_dynamic_tool Hwf)
    as (Hreg & Hclear & Hcreate & _).
  split; [exact Hwf|]. split; [apply Hreg|]. split; [exact Hclear|apply Hcreate].
Defined.

Lemma createAndRegisterTool_rejects_bad_source_witness :
  let E := ext full_env parse in
  let s := booted full_env (Some live_profile) "none" in
  new_Function E (ts_handlerCode tool_broken) = Throw "Unexpected identifier"%string /\
  createAndRegisterTool E tool_broken s = (Throw "Unexpected identifier"%string, s) /\
  fst (getTool (ts_name tool_broken) (snd (createAndRegisterTool E tool_broken s)))
  = Ok None.
Proof.
  intros E s. split; [reflexivity|].
  destruct (createAndRegisterTool_rejects_bad_source E tool_broken s _ eq_refl)
    as (Hrun & Hget).
  split; [exact Hrun|]. rewrite Hget. reflexivity.
Defined.

Lemma createAndRegisterTool_registers_first_witness :
  let E := ext_of full_env parse vapi whapi_down in
  let s := booted full_env (Some live_profile) "none" in
  let h := run_handler (ts_handlerCode tool_lookup) (Ok "done"%string) in
  new_Function E (ts_handlerCode tool_lookup) = Ok h /\
  fst (createAndRegisterTool E tool_lookup s) = Throw "fetch failed"%string /\
  fst (getTool (ts_name tool_lookup) (snd (createAndRegisterTool E tool_lookup s)))
  = Ok (Some (dynamic_tool tool_lookup h (now E (world s)))) /\
  history (snd (createAndRegisterTool E tool_lookup s)) = history s.
Proof.
  intros E s h. split; [reflexivity|]. split; [vm_compute; reflexivity|].
  destruct (createAndRegisterTool_registers_first E tool_lookup h s eq_refl)
    as (Hget & Hhist & _).
  split; assumption.
Defined.

(** The prefix of [notifyOperator], byte for byte. *)
Definition agent_prefix : string :=
  utf8 [195; 176; 197; 184; 194; 164; 226; 128; 147;
        32; 65; 103; 101; 110; 116; 58; 32].

Lemma notifyOperator_needs_a_phone_witness :
  let E := ext full_env parse in
  let E0 := ext no_env parse in
  let s := booted full_env (Some live_profile) "none" in
  let s0 := booted no_env (Some live_profile) "none" in
  let to := "971500000000@s.whatsapp.net"%string in
  env E "OPERATOR_PHONE" = Some "971500000000"%string /\
  chat_id "971500000000" = to /\
  notifyOperator E0 "hello" s0 = (Ok tt, s0) /\
  fst (notifyOperator E "hello" s) = Ok tt /\
  outbox (world (snd (notifyOperator E "hello" s)))
  = outbox (world s) ++ [(to, (agent_prefix ++ "hello")%string)].
Proof.
  intros E E0 s s0 to.
  destruct (notifyOperator_needs_a_phone E "hello" s) as [_ Hsend].
  destruct (notifyOperator_needs_a_phone E0 "hello" s0) as [Hnone _].
  split; [reflexivity|]. split; [reflexivity|].
  split; [exact (Hnone eq_refl)|].
  rewrite (Hsend "971500000000"%string eq_refl eq_refl _ _ eq_refl).
  split; reflexivity.
Defined.

Definition nbsp : string := utf8 [194; 160].
Definition byte_order_mark : string := utf8 [239; 187; 191].
Definition line_separator : string := utf8 [226; 128; 168].

Lemma trim_takes_off_both_ends_witness :
  let s := (byte_order_mark ++ " {}" ++ nbsp ++ line_separator ++ nl)%string in
  trim s = "{}"%string /\
  (exists p q, spaces p /\ spaces q /\ s = (p ++ trim s ++ q)%string) /\
  trim (trim s) = trim s.
Proof.
  intros s. split; [vm_compute; reflexivity|].
  destruct (trim_takes_off_both_ends s) as (Hsplit & _ & _ & Hidem).
  split; [exact Hsplit|exact Hidem].
Defined.

Lemma clean_takes_the_text_out_of_its_fence_witness :
  no_backquote "{two tools}" = true /\
  trim "{two tools}" = "{two tools}"%string /\
  clean (in_fence "{two tools}") = "{two tools}"%string /\
  clean "{two tools}" = "{two tools}"%string /\
  trim ("{two tools}" ++ nbsp) = "{two tools}"%string /\
  clean (in_fence ("{two tools}" ++ nbsp)) = "{two tools}"%string.
Proof.
  split; [reflexivity|]. split; [reflexivity|].
  destruct (clean_takes_the_text_out_of_its_fence "{two tools}" eq_refl eq_refl)
    as [Hfence Hbare].
  split; [exact Hfence|]. split; [exact Hbare|].
  split; vm_compute; reflexivity.
Defined.

Lemma fixture_operator_reachable_of envf p v :
  operator_reachable (ext_of envf p v whapi).
Proof.
  intros msg s. unfold notifyOperator. cbn [env ext ext_of].
  destruct (envf "OPERATOR_PHONE"%string) as [phone|]; [|eexists; reflexivity].
  destruct (truthy_str phone); eexists; reflexivity.
Qed.

Definition two_tools : AnalysisResult :=
  analysis_of (Some [tool_broken; tool_lookup]) None.

Lemma run_records_what_it_was_given_witness :
  let E := ext full_env parse in
  let raw := fenced "{two tools}" in
  let s := booted full_env (Some live_profile) raw in
  let call := read_call E "call-1" s in
  let assistant := read_assistant E "asst-1" (snd (getCall E "call-1" s)) in
  analysed E "call-1" "asst-1" s call assistant two_tools raw
    (after_analysis E "call-1" "asst-1" s) /\
  operator_reachable E /\
  exists record s',
    analyzeAndImprove E "call-1" "asst-1" None s = (Ok record, s') /\
    history s' = history s ++ [record] /\
    callId record = "call-1"%string /\
    rec_failures record = failures two_tools /\
    configBefore record = live_profile /\
    configAfter record = [("maxTokens"%string, JNum 500%Q)] /\
    rawAnalysis record = Some raw.
Proof.
  intros E raw s call assistant.
  assert (Han : analysed E "call-1" "asst-1" s call assistant two_tools raw
                  (after_analysis E "call-1" "asst-1" s))
    by (fixture_analysed E "call-1"%string "asst-1"%string s).
  split; [exact Han|]. split; [apply fixture_operator_reachable|].
  destruct (run_records_what_it_was_given E "call-1" "asst-1" None s call
              assistant two_tools raw _ Han
              (fixture_operator_reachable full_env parse))
    as (record & s' & Hrun & Hhist & Hid & _ & _ & Hf & _ & Hb & Ha & Hraw).
  exists record, s'. repeat (split; [assumption|]). assumption.
Defined.

Lemma failed_update_is_logged_and_survived_witness :
  let E := ext_of full_env parse vapi_read_only whapi in
  let raw := fenced "{two tools}" in
  let s := booted full_env (Some live_profile) raw in
  let call := read_call E "call-1" s in
  let assistant := read_assistant E "asst-1" (snd (getCall E "call-1" s)) in
  let s3 := after_analysis E "call-1" "asst-1" s in
  let e := "Vapi PATCH /assistant/asst-1 failed (403): read only"%string in
  analysed E "call-1" "asst-1" s call assistant two_tools raw s3 /\
  fst (updateAssistant E "asst-1" (configChanges two_tools) s3) = Throw e /\
  operator_reachable E /\
  exists record s',
    analyzeAndImprove E "call-1" "asst-1" None s = (Ok record, s') /\
    history s' = history s ++ [record] /\
    configAfter record = [("maxTokens"%string, JNum 500%Q)] /\
    exists entry,
      In entry (pipelineLog record) /\
      step entry = "update_assistant"%string /\ status entry = error /\
      detail entry = update_failed e.
Proof.
  intros E raw s call assistant s3 e.
  assert (Han : analysed E "call-1" "asst-1" s call assistant two_tools raw s3)
    by (fixture_analysed E "call-1"%string "asst-1"%string s).
  assert (Hupd : updateAssistant E "asst-1" (configChanges two_tools) s3
                 = (Throw e, snd (updateAssistant E "asst-1"
                                    (configChanges two_tools) s3)))
    by (vm_compute; reflexivity).
  split; [exact Han|]. split; [now rewrite Hupd|].
  split; [apply fixture_operator_reachable_of|].
  exact (failed_update_is_logged_and_survived E "call-1" "asst-1" None s call
           assistant two_tools raw s3 e _ Han Hupd
           (fixture_operator_reachable_of full_env parse vapi_read_only)).
Defined.

Definition whatsapp_only : AnalysisResult :=
  analysis_of None (Some [whatsapp_workflow]).

(** A workflow service that deploys whatever it is given, and leaves a
    trace of it in the world. *)
Definition deploying (wf : WorkflowSpec) (w : sim)
  : Result (string * string) * sim :=
  (Ok ("wf-9"%string, ("https://n8n.test/webhook/" ++ wf_webhookPath wf)%string),
   {| profile := profile w; calls := calls w; reply := reply w;
      invoked := invoked w;
      outbox := outbox w ++ [("n8n"%string, wf_name wf)] |}).

Lemma workflows_without_n8n_become_a_request_witness :
  let E := ext no_env parse in
  let raw := fenced "{whatsapp workflow}" in
  let s := booted no_env (Some live_profile) raw in
  let call := read_call E "call-1" s in
  let assistant := read_assistant E "asst-1" (snd (getCall E "call-1" s)) in
  analysed E "call-1" "asst-1" s call assistant whatsapp_only raw
    (after_analysis E "call-1" "asst-1" s) /\
  isN8nConfigured E = false /\
  operator_reachable E /\
  analyzeAndImprove (with_createCustomWorkflow deploying E) "call-1" "asst-1" None s
  = analyzeAndImprove E "call-1" "asst-1" None s /\
  exists record s',
    analyzeAndImprove E "call-1" "asst-1" None s = (Ok record, s') /\
    history s' = history s ++ [record] /\
    workflowsCreated record = [] /\
    toolsCreated record = [] /\
    (exists entry, In entry (pipelineLog record) /\
       step entry = "create_workflow"%string /\ status entry = error) /\
    exists entry, In entry (pipelineLog record) /\
      step entry = "resource_request"%string /\ status entry = ok /\
      detail entry = need_n8n.
Proof.
  intros E raw s call assistant.
  assert (Han : analysed E "call-1" "asst-1" s call assistant whatsapp_only raw
                  (after_analysis E "call-1" "asst-1" s))
    by (fixture_analysed E "call-1"%string "asst-1"%string s).
  split; [exact Han|]. split; [reflexivity|].
  split; [apply fixture_operator_reachable|].
  destruct (workflows_without_n8n_become_a_request E "call-1" "asst-1" None s
              call assistant whatsapp_only raw _ whatsapp_workflow [] Han
              eq_refl eq_refl (fixture_operator_reachable no_env parse))
    as (Hsame & record & s' & Hrun & Hhist & Hwfs & Htools & Hwf & Hreq).
  split; [apply Hsame|].
  exists record, s'. split; [assumption|]. split; [assumption|].
  split; [assumption|]. split.
  { destruct (toolsCreated record) as [|x l]; [reflexivity|].
    destruct (Htools x (or_introl eq_refl)). }
  split; [assumption|]. apply Hreq. left. reflexivity.
Defined.

(** A provider that places every call it is asked for, and leaves a trace
    of it in the world. *)
Definition ringing (body : option json) (w : sim) : Result json * sim :=
  (Ok (JObj [("id"%string, JStr "callback-9")]),
   {| profile := profile w; calls := calls w; reply := reply w;
      invoked := invoked w;
      outbox := outbox w ++ [("POST /call/phone"%string, "placed"%string)] |}).

Lemma no_customer_number_no_callback_witness :
  let E := ext full_env parse in
  let raw := fenced "{two tools}" in
  let s := booted full_env (Some live_profile) raw in
  let call := read_call E "call-1" s in
  let assistant := read_assistant E "asst-1" (snd (getCall E "call-1" s)) in
  analysed E "call-1" "asst-1" s call assistant two_tools raw
    (after_analysis E "call-1" "asst-1" s) /\
  truthy_ostr (Some EmptyString) = false /\
  operator_reachable E /\
  analyzeAndImprove (with_call_service ringing E) "call-1" "asst-1"
    (Some EmptyString) s
  = analyzeAndImprove E "call-1" "asst-1" (Some EmptyString) s /\
  exists record s',
    analyzeAndImprove E "call-1" "asst-1" (Some EmptyString) s = (Ok record, s') /\
    history s' = history s ++ [record] /\
    callbackTriggered record = false /\
    exists l entry,
      pipelineLog record = l ++ [entry] /\
      step entry = "callback"%string /\ status entry = skipped /\
      detail entry = no_number.
Proof.
  intros E raw s call assistant.
  assert (Han : analysed E "call-1" "asst-1" s call assistant two_tools raw
                  (after_analysis E "call-1" "asst-1" s))
    by (fixture_analysed E "call-1"%string "asst-1"%string s).
  split; [exact Han|]. split; [reflexivity|].
  split; [apply fixture_operator_reachable|].
  destruct (no_customer_number_no_callback E "call-1" "asst-1" (Some EmptyString) s
              call assistant two_tools raw _ Han eq_refl
              (fixture_operator_reachable full_env parse))
    as (Hsame & Hrest).
  split; [apply Hsame|exact Hrest].
Defined.

(** The two stand-ins are called when the run gets that far: with the
    n8n settings the workflow service deploys, with a customer number the
    provider rings. *)
Definition traced (tag : string) (s : State sim) : bool :=
  existsb (fun m => String.eqb (fst m) tag) (outbox (world s)).

Remark deploying_is_called_with_n8n :
  let E := ext full_env parse in
  let s := booted full_env (Some live_profile) (fenced "{whatsapp workflow}") in
  traced "n8n"
    (snd (analyzeAndImprove (with_createCustomWorkflow deploying E)
            "call-1" "asst-1" None s)) = true /\
  traced "n8n" (snd (analyzeAndImprove E "call-1" "asst-1" None s)) = false.
Proof. split; vm_compute; reflexivity. Qed.

Remark ringing_is_called_with_a_number :
  let E := ext full_env parse in
  let s := booted full_env (Some live_profile) (fenced "{two tools}") in
  traced "POST /call/phone"
    (snd (analyzeAndImprove (with_call_service ringing E)
            "call-1" "asst-1" (Some "+971501234567"%string) s)) = true /\
  traced "POST /call/phone"
    (snd (analyzeAndImprove (with_call_service ringing E)
            "call-1" "asst-1" (Some EmptyString) s)) = false.
Proof. split; vm_compute; reflexivity. Qed.

Lemma callback_marks_the_stored_record_witness :
  let E := ext full_env parse in
  let raw := fenced "{two tools}" in
  let s := booted full_env (Some live_profile) raw in
  let call := read_call E "call-1" s in
  let assistant := read_assistant E "asst-1" (snd (getCall E "call-1" s)) in
  let number := "+971501234567"%string in
  analysed E "call-1" "asst-1" s call assistant two_tools raw
    (after_analysis E "call-1" "asst-1" s) /\
  truthy_str number = true /\
  (forall s0, exists id s',
     createOutboundCall E "asst-1" number (env E "VAPI_PHONE_NUMBER_ID") s0
     = (Ok id, s')) /\
  operator_reachable E /\
  exists record s',
    analyzeAndImprove E "call-1" "asst-1" (Some number) s = (Ok record, s') /\
    history s' = history s ++ [record] /\
    callbackTriggered record = true.
Proof.
  intros E raw s call assistant number.
  assert (Han : analysed E "call-1" "asst-1" s call assistant two_tools raw
                  (after_analysis E "call-1" "asst-1" s))
    by (fixture_analysed E "call-1"%string "asst-1"%string s).
  assert (Hcall : forall s0, exists id s',
            createOutboundCall E "asst-1" number (env E "VAPI_PHONE_NUMBER_ID") s0
            = (Ok id, s')).
  { intros s0. eexists. eexists. reflexivity. }
  split; [exact Han|]. split; [reflexivity|]. split; [exact Hcall|].
  split; [apply fixture_operator_reachable|].
  destruct (callback_marks_the_stored_record E "call-1" "asst-1" number s
              call assistant two_tools raw _ Han eq_refl Hcall
              (fixture_operator_reachable full_env parse))
    as (record & s' & Hrun & Hhist & Hcb & _).
  exists record, s'. now repeat split.
Defined.

Lemma failed_callback_is_survived_witness :
  let E := ext_of full_env parse vapi_no_calls whapi in
  let raw := fenced "{two tools}" in
  let s := booted full_env (Some live_profile) raw in
  let call := read_call E "call-1" s in
  let assistant := read_assistant E "asst-1" (snd (getCall E "call-1" s)) in
  let number := "+971501234567"%string in
  let e := "Vapi POST /call/phone failed (402): no credit"%string in
  analysed E "call-1" "asst-1" s call assistant two_tools raw
    (after_analysis E "call-1" "asst-1" s) /\
  truthy_str number = true /\
  (forall s0, exists s',
     createOutboundCall E "asst-1" number (env E "VAPI_PHONE_NUMBER_ID") s0
     = (Throw e, s')) /\
  operator_reachable E /\
  exists record s',
    analyzeAndImprove E "call-1" "asst-1" (Some number) s = (Ok record, s') /\
    history s' = history s ++ [record] /\
    callbackTriggered record = false /\
    exists entry,
      In entry (pipelineLog record) /\
      step entry = "callback"%string /\ status entry = error /\
      detail entry = ("Callback failed: " ++ e)%string.
Proof.
  intros E raw s call assistant number e.
  assert (Han : analysed E "call-1" "asst-1" s call assistant two_tools raw
                  (after_analysis E "call-1" "asst-1" s))
    by (fixture_analysed E "call-1"%string "asst-1"%string s).
  assert (Hcall : forall s0, exists s',
            createOutboundCall E "asst-1" number (env E "VAPI_PHONE_NUMBER_ID") s0
            = (Throw e, s')).
  { intros s0. eexists. reflexivity. }
  split; [exact Han|]. split; [reflexivity|]. split; [exact Hcall|].
  split; [apply fixture_operator_reachable_of|].
  exact (failed_callback_is_survived E "call-1" "asst-1" number s
           call assistant two_tools raw _ e Han eq_refl Hcall
           (fixture_operator_reachable_of full_env parse vapi_no_calls)).
Defined.

Lemma every_requested_tool_is_tried_witness :
  let E := ext full_env parse in
  let raw := fenced "{two tools}" in
  let s := booted full_env (Some live_profile) raw in
  let call := read_call E "call-1" s in
  let assistant := read_assistant E "asst-1" (snd (getCall E "call-1" s)) in
  analysed E "call-1" "asst-1" s call assistant two_tools raw
    (after_analysis E "call-1" "asst-1" s) /\
  operator_reachable E /\
  exists record s',
    analyzeAndImprove E "call-1" "asst-1" None s = (Ok record, s') /\
    history s' = history s ++ [record] /\
    In "lookup_eta"%string (toolsCreated record) /\
    exists entry, In entry (pipelineLog record) /\
      step entry = "create_tool"%string /\ status entry = error /\
      detail entry = create_failed tool_broken "Unexpected identifier".
Proof.
  intros E raw s call assistant.
  assert (Han : analysed E "call-1" "asst-1" s call assistant two_tools raw
                  (after_analysis E "call-1" "asst-1" s))
    by (fixture_analysed E "call-1"%string "asst-1"%string s).
  split; [exact Han|]. split; [apply fixture_operator_reachable|].
  destruct (every_requested_tool_is_tried E "call-1" "asst-1" None s call
              assistant two_tools raw _ Han
              (fixture_operator_reachable full_env parse))
    as (record & s' & Hrun & Hhist & Hall).
  exists record, s'. split; [assumption|]. split; [assumption|]. split.
  - destruct (Hall tool_lookup) as [Hok _]; [right; left; reflexivity|].
    exact (Hok _ eq_refl).
  - destruct (Hall tool_broken) as [_ Hfail]; [left; reflexivity|].
    exact (Hfail _ eq_refl).
Defined.

Lemma failed_resource_notice_aborts_before_the_record_witness :
  let E := ext_of full_env parse_request vapi whapi_down in
  let raw := fenced "{resource request}" in
  let s := booted full_env (Some live_profile) raw in
  let call := read_call E "call-1" s in
  let assistant := read_assistant E "asst-1" (snd (getCall E "call-1" s)) in
  let e := "fetch failed"%string in
  analysed E "call-1" "asst-1" s call assistant analysis_with_request raw
    (after_analysis E "call-1" "asst-1" s) /\
  (forall msg s0, exists s', notifyOperator E msg s0 = (Throw e, s')) /\
  exists s',
    analyzeAndImprove E "call-1" "asst-1" None s = (Throw e, s') /\
    history s' = history s.
Proof.
  intros E raw s call assistant e.
  assert (Han : analysed E "call-1" "asst-1" s call assistant
                  analysis_with_request raw
                  (after_analysis E "call-1" "asst-1" s))
    by (fixture_analysed E "call-1"%string "asst-1"%string s).
  assert (Hdown : forall msg s0, exists s', notifyOperator E msg s0 = (Throw e, s')).
  { intros msg s0. eexists. reflexivity. }
  split; [exact Han|]. split; [exact Hdown|].
  exact (failed_resource_notice_aborts_before_the_record E "call-1" "asst-1" None
           s call assistant analysis_with_request raw _ _ [] e Han eq_refl Hdown).
Defined.

(** ** The manual trigger, the builder and the brain *)

Definition manual_transcript : string :=
  "AI: Hello. User: Where is my container? AI: I cannot look that up."%string.

Lemma manual_update_failure_stores_nothing_witness :
  let E := ext_of full_env parse vapi_read_only whapi in
  let raw := fenced "{two tools}" in
  let s := booted full_env (Some live_profile) raw in
  let assistant := read_assistant E "asst-1" s in
  let s1 := snd (getAssistant E "asst-1" s) in
  let s2 := snd (analyzeTranscriptWithRaw E (Some manual_transcript)
                   (systemMessage assistant) (config assistant)
                   (existing_tools s1) s1) in
  let s3 := snd (updateAssistant E "asst-1" (configChanges two_tools) s2) in
  let e := "Vapi PATCH /assistant/asst-1 failed (403): read only"%string in
  getAssistant E "asst-1" s = (Ok assistant, s1) /\
  analyzeTranscriptWithRaw E (Some manual_transcript) (systemMessage assistant)
    (config assistant) (existing_tools s1) s1 = (Ok (two_tools, raw), s2) /\
  updateAssistant E "asst-1" (configChanges two_tools) s2 = (Throw e, s3) /\
  analyzeFromTranscript E manual_transcript "asst-1" None s = (Throw e, s3) /\
  registry s3 = registry s /\ history s3 = history s.
Proof.
  intros E raw s assistant s1 s2 s3 e.
  assert (H1 : getAssistant E "asst-1" s = (Ok assistant, s1))
    by (vm_compute; reflexivity).
  assert (H2 : analyzeTranscriptWithRaw E (Some manual_transcript)
                 (systemMessage assistant) (config assistant)
                 (existing_tools s1) s1 = (Ok (two_tools, raw), s2))
    by (vm_compute; reflexivity).
  assert (H3 : updateAssistant E "asst-1" (configChanges two_tools) s2
               = (Throw e, s3)) by (vm_compute; reflexivity).
  split; [exact H1|]. split; [exact H2|]. split; [exact H3|].
  exact (manual_update_failure_stores_nothing E manual_transcript "asst-1" None
           s s1 s2 s3 assistant two_tools raw e H1 H2 H3).
Defined.

Lemma manual_run_stores_its_record_witness :
  let E := ext full_env parse in
  let raw := fenced "{two tools}" in
  let s := booted full_env (Some live_profile) raw in
  let assistant := read_assistant E "asst-1" s in
  let s1 := snd (getAssistant E "asst-1" s) in
  let s2 := snd (analyzeTranscriptWithRaw E (Some manual_transcript)
                   (systemMessage assistant) (config assistant)
                   (existing_tools s1) s1) in
  let s3 := snd (updateAssistant E "asst-1" (configChanges two_tools) s2) in
  getAssistant E "asst-1" s = (Ok assistant, s1) /\
  analyzeTranscriptWithRaw E (Some manual_transcript) (systemMessage assistant)
    (config assistant) (existing_tools s1) s1 = (Ok (two_tools, raw), s2) /\
  updateAssistant E "asst-1" (configChanges two_tools) s2 = (Ok tt, s3) /\
  operator_reachable E /\
  exists record s',
    analyzeFromTranscript E manual_transcript "asst-1" None s = (Ok record, s') /\
    history s' = history s ++ [record] /\
    callId record = "manual"%string /\
    transcript record = None /\ pipelineLog record = [] /\
    configBefore record = live_profile /\
    callbackTriggered record = false.
Proof.
  intros E raw s assistant s1 s2 s3.
  assert (H1 : getAssistant E "asst-1" s = (Ok assistant, s1))
    by (vm_compute; reflexivity).
  assert (H2 : analyzeTranscriptWithRaw E (Some manual_transcript)
                 (systemMessage assistant) (config assistant)
                 (existing_tools s1) s1 = (Ok (two_tools, raw), s2))
    by (vm_compute; reflexivity).
  assert (H3 : updateAssistant E "asst-1" (configChanges two_tools) s2
               = (Ok tt, s3)) by (vm_compute; reflexivity).
  split; [exact H1|]. split; [exact H2|]. split; [exact H3|].
  split; [apply fixture_operator_reachable|].
  destruct (manual_run_stores_its_record E manual_transcript "asst-1" None
              s s1 s2 s3 assistant two_tools raw H1 H2 H3
              (fixture_operator_reachable full_env parse))
    as (record & s' & Hrun & Hhist & Hid & _ & Ht & Hlog & _ & _ & Hb & _ & _ & Hcb).
  exists record, s'. repeat (split; [assumption|]).
  destruct (callbackTriggered record); [|reflexivity].
  specialize (Hcb eq_refl). discriminate Hcb.
Defined.



(** A stand-in for the services of the brain: the reasoning service
    answers with the reply of the world, and one reply decodes to the
    decision to create [tool_throwing]. *)
Definition create_decision : BrainDecision :=
  {| action := "create_tool"; toolName := None; toolArgs := None;
     response := None; newTool := Some tool_throwing;
     escalationReason := None |}.

Definition brain : BrainServices sim :=
  {| brain_create := fun _ w => (Ok (reply w), w);
     decision_parse := fun text =>
       if String.eqb text "{create tool}" then Some create_decision else None;
     JSON_stringify := fun _ => "{}"%string |}.

Definition two_calls : ToolCallPayload :=
  {| tcp_message :=
       Some {| tcm_type := "tool-calls";
               toolCallList :=
                 [{| tc_id := "tc-1"; tc_name := "track_vessel";
                     tc_arguments := [("imo"%string, JNum 9321483%Q)] |};
                  {| tc_id := "tc-2"; tc_name := "check_shipment_status";
                     tc_arguments := [] |}];
               tcm_call := None |} |}.

Lemma tool_calls_answers_every_call_witness :
  let E := ext full_env parse in
  let s := snd (registerTool throwing_tool
                  (booted full_env (Some live_profile) "none")) in
  (forall toolCall,
     In toolCall (match tcp_message two_calls with
                  | Some m => toolCallList m
                  | None => []
                  end) ->
     JsMap.get (tc_name toolCall) (registry s) <> None) /\
  fst (tool_calls E brain two_calls s)
  = Ok (JsonReply [("tc-1", "Error executing track_vessel: boom");
                   ("tc-2", "seed")]%string) /\
  exists results s',
    tool_calls E brain two_calls s = (Ok (JsonReply results), s') /\
    map fst results = ["tc-1"; "tc-2"]%string /\
    registry s' = registry s /\ history s' = history s.
Proof.
  intros E s.
  assert (Hall : forall toolCall,
            In toolCall (match tcp_message two_calls with
                         | Some m => toolCallList m
                         | None => []
                         end) ->
            JsMap.get (tc_name toolCall) (registry s) <> None).
  { intros toolCall [<-|[<-|[]]]; vm_compute; discriminate. }
  split; [exact Hall|]. split; [vm_compute; reflexivity|].
  destruct (tool_calls_answers_every_call E brain two_calls _ s
              eq_refl eq_refl Hall)
    as (results & s' & Hrun & Hids & _ & Hreg & Hhist).
  exists results, s'. now repeat split.
Defined.

Lemma decide_outcomes_witness :
  let E := ext full_env parse in
  let s := booted full_env (Some live_profile) "{create tool}" in
  let tool := dynamic_tool tool_throwing
                (run_handler (ts_handlerCode tool_throwing) (Throw "boom"%string))
                (now E (world s)) in
  brain_create brain (decide_prompt (tool_context s) "Track MV Aurora" None) (world s)
  = (Ok [TextBlock "{create tool}"], world s) /\
  fst (decide E brain "Track MV Aurora" None s) = Throw "boom"%string /\
  fst (getTool "track_vessel" (snd (decide E brain "Track MV Aurora" None s)))
  = Ok (Some tool).
Proof.
  intros E s tool.
  assert (Hb : brain_create brain
                 (decide_prompt (tool_context s) "Track MV Aurora" None) (world s)
               = (Ok [TextBlock "{create tool}"], world s)) by reflexivity.
  split; [exact Hb|].
  destruct (decide_outcomes E brain "Track MV Aurora" None s _ _ _ Hb)
    as (_ & _ & Hcreate).
  destruct (Hcreate create_decision tool_throwing
              (run_handler (ts_handlerCode tool_throwing) (Throw "boom"%string))
              eq_refl eq_refl eq_refl eq_refl
              (fixture_operator_reachable full_env parse))
    as (Hget & s1 & _ & Hfst).
  split; [exact Hfst|exact Hget].
Defined.

